(** * Agent node of the brand catalogue scraper: a shallow embedding

    The development follows [site_parsing_api/Agent_Node/main.py]: the
    shared [WebsiteParser] helpers, the retrying HTTP session, the per-brand
    [fetch_data] pagination loops, the [process_categories] accumulators,
    the output publisher [send_output] and the dispatcher [run_parser].

    Python values are embedded as [pyval]; effects (requests on the wire,
    files, uploads, the completion callback) are recorded in a chronological
    event trace threaded through a small state-and-exception monad; [while]
    loops take fuel. *)

From Stdlib Require Import ZArith QArith_base String Ascii Bool.
From stdpp Require Import gmap strings list pretty.

Local Open Scope string_scope.
Local Open Scope list_scope.
Local Open Scope Z_scope.
#[local] Set Warnings "-register-all".

(** ** Python values *)

Module Py.

(** The values [json.loads] can produce, which are also the values the
    helpers of [WebsiteParser] are applied to. Characters are code points
    below 256. *)
Inductive pyval : Type :=
| PNone
| PBool (b : bool)
| PInt (z : Z)
| PFloat (q : Q)
| PStr (s : string)
| PList (l : list pyval)
| PDict (d : list (string * pyval)).

(** Truth value of an object, as tested by [if v:] and [not v]. *)
Definition truthy (v : pyval) : bool :=
  match v with
  | PNone => false
  | PBool b => b
  | PInt z => negb (z =? 0)
  | PFloat q => negb (Qnum q =? 0)
  | PStr s => negb (String.eqb s "")
  | PList l => match l with [] => false | _ => true end
  | PDict d => match d with [] => false | _ => true end
  end.

(** [isinstance(v, str)] *)
Definition is_str (v : pyval) : bool :=
  match v with PStr _ => true | _ => false end.

(** Characters for which [str.isspace] holds (code points below 256):
    TAB..CR, FS..US, space, NEL and NBSP. *)
Definition py_isspace (c : ascii) : bool :=
  let n := nat_of_ascii c in
  ((9 <=? n)%nat && (n <=? 13)%nat) || ((28 <=? n)%nat && (n <=? 32)%nat)
  || (n =? 133)%nat || (n =? 160)%nat.

Fixpoint lstrip (s : string) : string :=
  match s with
  | EmptyString => EmptyString
  | String c s' => if py_isspace c then lstrip s' else s
  end.

Fixpoint rstrip (s : string) : string :=
  match s with
  | EmptyString => EmptyString
  | String c s' =>
      match rstrip s' with
      | EmptyString => if py_isspace c then EmptyString else String c EmptyString
      | r => String c r
      end
  end.

(** [s.strip()] *)
Definition strip (s : string) : string := rstrip (lstrip s).

(** [s.startswith(p)] *)
Fixpoint startswith (p s : string) : bool :=
  match p with
  | EmptyString => true
  | String a p' =>
      match s with
      | EmptyString => false
      | String b s' => Ascii.eqb a b && startswith p' s'
      end
  end.
Arguments startswith : simpl never.

(** Every character of [s] is whitespace. *)
Fixpoint all_space (s : string) : bool :=
  match s with
  | EmptyString => true
  | String c s' => py_isspace c && all_space s'
  end.

(** First and last character of a string, if any. *)
Definition first_char (s : string) : option ascii :=
  match s with EmptyString => None | String c _ => Some c end.

Fixpoint last_char (s : string) : option ascii :=
  match s with
  | EmptyString => None
  | String c EmptyString => Some c
  | String _ s' => last_char s'
  end.

(** [str(v)] for a value that is a string or [None] (the only values the
    publisher converts). *)
Definition str_of_optional (o : option string) : string :=
  match o with
  | None => "None"
  | Some s => s
  end.

(** Exceptions, by the classes the handlers of the program distinguish:
    [except requests.RequestException] catches only the first. *)
Inductive exn : Type :=
| RequestException
| OtherException.

(** Outcome of a call: a value, a raised exception, or fuel exhausted in a
    [while] loop. *)
Inductive result (A : Type) : Type :=
| Ok (a : A)
| Raise (e : exn)
| OutOfFuel.
Arguments Ok {A} a.
Arguments Raise {A} e.
Arguments OutOfFuel {A}.

End Py.
Export Py.

(** ** Shared normalisation helpers of [WebsiteParser] *)

Module WebsiteParserHelpers.

(** [format_url]: [if url: return url if url.startswith('http') else
    'https:' + url; return ""]. A truthy value that is not a string has no
    [startswith] and raises. *)
Definition format_url (url : pyval) : result string :=
  if truthy url then
    match url with
    | PStr u => Ok (if startswith "http" u then u else String.append "https:" u)
    | _ => Raise OtherException
    end
  else Ok "".

(** [safe_strip]: [value.strip() if isinstance(value, str) else value]. *)
Definition safe_strip (value : pyval) : pyval :=
  match value with
  | PStr s => PStr (strip s)
  | _ => value
  end.

End WebsiteParserHelpers.
Export WebsiteParserHelpers.

(** ** Effects: the event trace, the outside world and the monad *)

Module Effects.

(** Query parameters of the completion callback built by [send_output]. *)
Record notification : Type := {
  p_job_id : string;
  p_resultUrl : string;
  p_logUrl : string;
  p_count : Z
}.

(** What the program does to the outside world, in the order it does it:
    [EvDriverGet] is a page load of the browser, [EvSessionGet] a call of
    [session.get] or [requests.get], [EvAttempt] one request on the wire
    made for such a call. Logging is not recorded. *)
Inductive event (Row : Type) : Type :=
| EvSettingsGet
| EvDriverGet (url : string)
| EvDriverLog
| EvSessionGet (url : string)
| EvAttempt (url : string)
| EvToCsv (filename : string) (rows : list Row)
| EvS3Client
| EvUpload (file_src save_as : string)
| EvRemove (file : string)
| EvPost (url : string) (params : notification).
Arguments EvSettingsGet {Row}.
Arguments EvDriverGet {Row} url.
Arguments EvDriverLog {Row}.
Arguments EvSessionGet {Row} url.
Arguments EvAttempt {Row} url.
Arguments EvToCsv {Row} filename rows.
Arguments EvS3Client {Row}.
Arguments EvUpload {Row} file_src save_as.
Arguments EvRemove {Row} file.
Arguments EvPost {Row} url params.

(** Answer of the network to one HTTP attempt. *)
Inductive http_answer : Type :=
| ConnectError
| ReadError
| Response (status : Z) (has_retry_after : bool) (body : string).

(** Answer of the browser to [driver.get(url)] followed by reading the
    page: the text of the element the parser reads (the first [<pre>], or
    the body), if there is one. *)
Inductive driver_answer : Type :=
| DriverError
| PageSource (pre : option string).

(** The outside world. Every oracle that stands for a remote party takes
    the number of events recorded so far, so that the same request may be
    answered differently at different times. *)
Record Env : Type := {
  json_loads : string -> option pyval;
  int_of_str : string -> option Z;
  url_format : string -> list (string * pyval) -> string;
  driver_get : nat -> string -> driver_answer;
  driver_log : nat -> result (list string);
  http_get : nat -> string -> http_answer;
  s3_client : nat -> bool;
  s3_upload : nat -> string -> bool;
  path_exists : nat -> string -> bool;
  os_remove : nat -> string -> bool;
  http_post : nat -> string -> http_answer;
  strftime_mdy : nat -> string;
  strftime_dmy : string;
  uuid4 : string
}.

Section Monad.
Context {Row : Type}.

Definition trace : Type := list (event Row).

(** Computations: read and extend the trace, return a [result]. *)
Definition M (A : Type) : Type := trace -> result A * trace.

Definition ret {A} (a : A) : M A := fun t => (Ok a, t).

Definition bind {A B} (m : M A) (k : A -> M B) : M B :=
  fun t =>
    match m t with
    | (Ok a, t') => k a t'
    | (Raise e, t') => (Raise e, t')
    | (OutOfFuel, t') => (OutOfFuel, t')
    end.

Definition raise {A} (e : exn) : M A := fun t => (Raise e, t).

Definition out_of_fuel {A} : M A := fun t => (OutOfFuel, t).

Definition lift {A} (r : result A) : M A := fun t => (r, t).

(** The number of events so far: the time at which the world is asked. *)
Definition now : M nat := fun t => (Ok (length t), t).

(** Record an event and return its position in the trace. *)
Definition emit (e : event Row) : M nat := fun t => (Ok (length t), t ++ [e]).

(** [try: m except Exception: h] *)
Definition try_except {A} (m : M A) (h : M A) : M A :=
  fun t =>
    match m t with
    | (Raise _, t') => h t'
    | r => r
    end.

(** [try: m except requests.RequestException: h] *)
Definition try_except_request {A} (m : M A) (h : M A) : M A :=
  fun t =>
    match m t with
    | (Raise RequestException, t') => h t'
    | r => r
    end.

(** [for x in l: s = body(s, x)] *)
Fixpoint for_each {S A} (l : list A) (body : S -> A -> M S) (s : S) : M S :=
  match l with
  | [] => ret s
  | x :: l' => bind (body s x) (for_each l' body)
  end.

End Monad.

Arguments trace : clear implicits.
Arguments M : clear implicits.

Declare Scope py_scope.
Delimit Scope py_scope with py.
Notation "'let!' x ':=' m 'in' k" := (bind m (fun x => k))
  (at level 10, x name, m at level 100, k at level 200) : py_scope.

End Effects.
Export Effects.
Local Open Scope py_scope.

(** ** Operations on Python values used by the parsers *)

Module PyOps.

Fixpoint assoc (k : string) (d : list (string * pyval)) : option pyval :=
  match d with
  | [] => None
  | (k', v) :: d' => if String.eqb k k' then Some v else assoc k d'
  end.

(** [v.get(k, default)]: only dictionaries have [get]. *)
Definition py_get (v : pyval) (k : string) (default : pyval) : result pyval :=
  match v with
  | PDict d => Ok (match assoc k d with Some x => x | None => default end)
  | _ => Raise OtherException
  end.

(** [v[k]] for a string key: [KeyError] when absent, [TypeError] when [v]
    is not a dictionary. *)
Definition py_getitem (v : pyval) (k : string) : result pyval :=
  match v with
  | PDict d => match assoc k d with Some x => Ok x | None => Raise OtherException end
  | _ => Raise OtherException
  end.

Fixpoint chars (s : string) : list pyval :=
  match s with
  | EmptyString => []
  | String c s' => PStr (String c EmptyString) :: chars s'
  end.

(** The elements [for x in v] goes through. *)
Definition py_iter (v : pyval) : result (list pyval) :=
  match v with
  | PList l => Ok l
  | PDict d => Ok (map (fun kv => PStr (fst kv)) d)
  | PStr s => Ok (chars s)
  | _ => Raise OtherException
  end.

(** [range(v)]: integers and booleans only. *)
Definition py_range (v : pyval) : result (list Z) :=
  match v with
  | PInt z => Ok (seqZ 0 z)
  | PBool b => Ok (seqZ 0 (if b then 1 else 0))
  | _ => Raise OtherException
  end.

(** The number a value stands for in arithmetic and ordering, if it is
    numeric. Floats are taken as exact rationals. *)
Definition py_number (v : pyval) : option Q :=
  match v with
  | PInt z => Some (inject_Z z)
  | PBool b => Some (inject_Z (if b then 1 else 0))
  | PFloat q => Some q
  | _ => None
  end.

Definition is_float (v : pyval) : bool :=
  match v with PFloat _ => true | _ => false end.

(** [a <= b]: numbers with numbers, strings with strings; other pairs
    raise [TypeError] (ordering of two lists is not modelled). *)
Definition py_le (a b : pyval) : result bool :=
  match py_number a, py_number b with
  | Some x, Some y => Ok (Qle_bool x y)
  | _, _ =>
      match a, b with
      | PStr x, PStr y => Ok (String.leb x y)
      | _, _ => Raise OtherException
      end
  end.

(** [a + b]: numbers, strings and lists. *)
Definition py_add (a b : pyval) : result pyval :=
  match py_number a, py_number b with
  | Some x, Some y =>
      if is_float a || is_float b then Ok (PFloat (Qplus x y))
      else Ok (PInt (Qnum x + Qnum y))
  | _, _ =>
      match a, b with
      | PStr x, PStr y => Ok (PStr (x +:+ y))
      | PList x, PList y => Ok (PList (x ++ y))
      | _, _ => Raise OtherException
      end
  end.

(** [p in s] for strings. *)
Fixpoint contains (p s : string) : bool :=
  startswith p s
  || match s with
     | EmptyString => false
     | String _ s' => contains p s'
     end.

(** [s.split(" ")[-1]]: what follows the last space. *)
Fixpoint split_last (cur s : string) : string :=
  match s with
  | EmptyString => cur
  | String c s' =>
      if Ascii.eqb c " "%char then split_last EmptyString s'
      else split_last (cur +:+ String c EmptyString) s'
  end.

(** [s.replace(c, '')] for a single character [c]. *)
Fixpoint remove_char (c : ascii) (s : string) : string :=
  match s with
  | EmptyString => EmptyString
  | String c' s' =>
      if Ascii.eqb c c' then remove_char c s' else String c' (remove_char c s')
  end.

End PyOps.
Export PyOps.

(** ** The HTTP session and its retry policy *)

Module Net.

(** [urllib3.util.retry.Retry], for the arguments the program passes.
    [total] is the number of retries allowed after the first attempt. *)
Record Retry : Type := {
  total : nat;
  backoff_factor : Q;
  status_forcelist : list Z;
  allowed_methods : list string
}.

Definition DEFAULT_ALLOWED_METHODS : list string :=
  ["HEAD"; "GET"; "PUT"; "DELETE"; "OPTIONS"; "TRACE"].

Definition RETRY_AFTER_STATUS_CODES : list Z := [413; 429; 503].

(** Adapter of a session on which nothing was mounted:
    [HTTPAdapter()] has [Retry(0, read=False)]. *)
Definition DEFAULT_RETRIES : Retry :=
  {| total := 0; backoff_factor := 0%Q; status_forcelist := [];
     allowed_methods := DEFAULT_ALLOWED_METHODS |}.

(** [Retry._is_method_retryable] *)
Definition is_method_retryable (r : Retry) (method : string) : bool :=
  bool_decide (method ∈ allowed_methods r).

(** [Retry.is_retry], with [left] the current value of [total]. *)
Definition is_retry (r : Retry) (left : nat) (method : string)
    (status : Z) (has_retry_after : bool) : bool :=
  is_method_retryable r method
  && (bool_decide (status ∈ status_forcelist r)
      || (negb (left =? 0)%nat && has_retry_after
          && bool_decide (status ∈ RETRY_AFTER_STATUS_CODES))).

Definition ascii_lower (c : ascii) : ascii :=
  let n := nat_of_ascii c in
  if ((65 <=? n)%nat && (n <=? 90)%nat) then ascii_of_nat (n + 32) else c.

(** [s.lower()] on ASCII letters. *)
Fixpoint lower (s : string) : string :=
  match s with
  | EmptyString => EmptyString
  | String c s' => String (ascii_lower c) (lower s')
  end.

(** [Response.raise_for_status]: [HTTPError] for 4xx and 5xx. *)
Definition raise_for_status (status : Z) : result unit :=
  if (400 <=? status) && (status <? 600) then Raise RequestException else Ok tt.

Section Session.
Context {Row : Type} (env : Env).

(** [HTTPConnectionPool.urlopen] with [left] retries remaining: every
    attempt is one [EvAttempt]. [Retry.increment] takes one from [total]
    and raises [MaxRetryError] when the result is negative; [requests]
    turns that into a [RequestException]. A connection error is retried
    for every method, a read error and a response only for an allowed
    method. *)
Fixpoint urlopen (left : nat) (r : Retry) (method url : string)
    : M Row (Z * string) :=
  let! i := emit (EvAttempt url) in
  match http_get env i url with
  | ConnectError =>
      match left with
      | O => raise RequestException
      | S left' => urlopen left' r method url
      end
  | ReadError =>
      if is_method_retryable r method then
        match left with
        | O => raise RequestException
        | S left' => urlopen left' r method url
        end
      else raise RequestException
  | Response status has_retry_after body =>
      if is_retry r left method status has_retry_after then
        match left with
        | O => raise RequestException
        | S left' => urlopen left' r method url
        end
      else ret (status, body)
  end.

(** [session.get(url)] on a session where [mounted], if any, was mounted
    on the prefix ["https://"]: the adapter is chosen by the lower-cased
    URL prefix; a URL with another scheme has no adapter. *)
Definition session_get (mounted : option Retry) (url : string)
    : M Row (Z * string) :=
  let! _ := emit (EvSessionGet url) in
  if startswith "https://" (lower url) then
    let r := match mounted with Some r => r | None => DEFAULT_RETRIES end in
    urlopen (total r) r "GET" url
  else if startswith "http://" (lower url) then
    urlopen (total DEFAULT_RETRIES) DEFAULT_RETRIES "GET" url
  else raise RequestException.

(** [response.json()] *)
Definition response_json (body : string) : M Row pyval :=
  match json_loads env body with
  | Some v => ret v
  | None => raise RequestException
  end.

(** The retry policy of [WebsiteParser.open_link]. *)
Definition open_link_retries : Retry :=
  {| total := 5; backoff_factor := (1 # 2)%Q;
     status_forcelist := [429; 500; 502; 503; 504];
     allowed_methods := ["HEAD"; "GET"; "OPTIONS"] |}.

(** The retry policy mounted by the Loro Piana, Saint Laurent, Loewe and
    Stone Island parsers. *)
Definition brand_retries : Retry :=
  {| total := 5; backoff_factor := 1%Q;
     status_forcelist := [429; 500; 502; 503; 504];
     allowed_methods := ["HEAD"; "GET"; "OPTIONS"] |}.

(** The retry policy of the Alexander McQueen parser: no
    [allowed_methods] argument. *)
Definition mcqueen_retries : Retry :=
  {| total := 5; backoff_factor := 1%Q;
     status_forcelist := [429; 500; 502; 503; 504];
     allowed_methods := DEFAULT_ALLOWED_METHODS |}.

(** [WebsiteParser.open_link] *)
Definition open_link (url : string) : M Row (option string) :=
  try_except_request
    (let! resp := session_get (Some open_link_retries) url in
     let! _ := lift (raise_for_status (fst resp)) in
     ret (Some (snd resp)))
    (ret None).

End Session.

End Net.
Export Net.

(** ** [WebsiteParser]: the parser object and the output publisher *)

Module WebsiteParser.

(** The attributes of a parser instance. [data] is the instance data
    frame, of which only the rows matter here. *)
Record parser (Row : Type) : Type := {
  brand : string;
  job_id : string;
  code : string;
  log_file_name : string;
  base_url : string;
  data : list Row;
  output_filename : option string;
  upload_url : option string;
  count : Z;
  log_url : option string
}.
Arguments brand {Row} _.
Arguments job_id {Row} _.
Arguments code {Row} _.
Arguments log_file_name {Row} _.
Arguments base_url {Row} _.
Arguments data {Row} _.
Arguments output_filename {Row} _.
Arguments upload_url {Row} _.
Arguments count {Row} _.
Arguments log_url {Row} _.

Section Publisher.
Context {Row : Type} (env : Env).

Definition set_data (self : parser Row) (d : list Row) : parser Row :=
  {| brand := brand self; job_id := job_id self; code := code self;
     log_file_name := log_file_name self; base_url := base_url self;
     data := d; output_filename := output_filename self;
     upload_url := upload_url self; count := count self;
     log_url := log_url self |}.

Definition set_base_url (self : parser Row) (u : string) : parser Row :=
  {| brand := brand self; job_id := job_id self; code := code self;
     log_file_name := log_file_name self; base_url := u;
     data := data self; output_filename := output_filename self;
     upload_url := upload_url self; count := count self;
     log_url := log_url self |}.

Definition set_output_filename (self : parser Row) (f : option string) : parser Row :=
  {| brand := brand self; job_id := job_id self; code := code self;
     log_file_name := log_file_name self; base_url := base_url self;
     data := data self; output_filename := f;
     upload_url := upload_url self; count := count self;
     log_url := log_url self |}.

Definition set_upload_url (self : parser Row) (u : option string) : parser Row :=
  {| brand := brand self; job_id := job_id self; code := code self;
     log_file_name := log_file_name self; base_url := base_url self;
     data := data self; output_filename := output_filename self;
     upload_url := u; count := count self;
     log_url := log_url self |}.

Definition set_count (self : parser Row) (c : Z) : parser Row :=
  {| brand := brand self; job_id := job_id self; code := code self;
     log_file_name := log_file_name self; base_url := base_url self;
     data := data self; output_filename := output_filename self;
     upload_url := upload_url self; count := c;
     log_url := log_url self |}.

Definition set_log_url (self : parser Row) (u : option string) : parser Row :=
  {| brand := brand self; job_id := job_id self; code := code self;
     log_file_name := log_file_name self; base_url := base_url self;
     data := data self; output_filename := output_filename self;
     upload_url := upload_url self; count := count self;
     log_url := u |}.

(** [WebsiteParser.__init__] and [setup_logging], followed by the
    subclass setting [self.base_url] and [self.data = pd.DataFrame()].
    Starting the browser, which some constructors do, is not modelled. *)
Definition init (the_job_id the_brand the_base_url : string) : parser Row :=
  {| brand := the_brand; job_id := the_job_id; code := uuid4 env;
     log_file_name :=
       the_brand +:+ "_" +:+ uuid4 env +:+ "_" +:+ strftime_dmy env +:+ ".log";
     base_url := the_base_url;
     data := [];
     output_filename := None; upload_url := None; count := 0;
     log_url := None |}.

(** [get_s3_client]: the client, or [None] when its creation raised. *)
Definition get_s3_client : M Row bool :=
  let! i := emit EvS3Client in
  ret (s3_client env i).

(** [upload_file_to_space(file_src, save_as)], always called with
    [is_public] left at [True]: the public URL, or [None] when there is no
    client or the upload raised. *)
Definition upload_file_to_space (file_src save_as : string)
    : M Row (option string) :=
  let! spaces_client := get_s3_client in
  if negb spaces_client then ret None
  else
    let! i := emit (EvUpload file_src save_as) in
    if s3_upload env i save_as then
      ret (Some ("https://archive.iconluxurygroup.s3.us-east-2.amazonaws.com/"
                 +:+ save_as))
    else ret None.

(** [if os.path.exists(f): os.remove(f)]; [os.path.exists(None)] raises. *)
Definition remove_if_exists (f : option string) : M Row unit :=
  match f with
  | None => raise OtherException
  | Some f =>
      let! i := now in
      if path_exists env i f then
        let! j := emit (EvRemove f) in
        if os_remove env j f then ret tt else raise OtherException
      else ret tt
  end.

(** The completion callback: [requests.post] followed by
    [raise_for_status]. *)
Definition post_job_complete (send_out_endpoint : string)
    (params : notification) : M Row unit :=
  let url := send_out_endpoint +:+ "/job_complete" in
  let! i := emit (EvPost url params) in
  match http_post env i url with
  | Response status _ _ => lift (raise_for_status status)
  | _ => raise RequestException
  end.

(** [send_output]. [send_out_endpoint] is the module-level variable set
    by the HTTP endpoint before the job starts. *)
Definition send_output (send_out_endpoint : string) (self : parser Row)
    : M Row (parser Row) :=
  let! l := upload_file_to_space (log_file_name self) (log_file_name self) in
  let self := set_log_url self l in
  let params :=
    {| p_job_id := job_id self;
       p_resultUrl := str_of_optional (upload_url self);
       p_logUrl := str_of_optional (log_url self);
       p_count := count self |} in
  let! _ := try_except
              (let! _ := remove_if_exists (output_filename self) in
               remove_if_exists (Some (log_file_name self)))
              (ret tt) in
  let! _ := try_except_request
              (post_job_complete send_out_endpoint params)
              (ret tt) in
  ret self.

(** The statements that end every [process_categories], with [dataset]
    the data frame that is serialised ([self.data], or the local
    [all_data] of the Moncler parser):
    [self.output_filename = ...; dataset.to_csv(...);
       self.upload_url = self.upload_file_to_space(...);
       self.count = len(dataset) - 1; self.send_output()]. *)
Definition publish (send_out_endpoint : string) (self : parser Row)
    (dataset : list Row) : M Row (parser Row) :=
  let! i := now in
  let current_date := strftime_mdy env i in
  let filename :=
    brand self +:+ "_output_" +:+ current_date +:+ "_" +:+ code self +:+ ".csv" in
  let self := set_output_filename self (Some filename) in
  let! _ := emit (EvToCsv filename dataset) in
  let! u := upload_file_to_space filename filename in
  let self := set_upload_url self u in
  let self := set_count self (Z.of_nat (length dataset) - 1) in
  send_output send_out_endpoint self.

End Publisher.

End WebsiteParser.
Export WebsiteParser.

(** ** Brand parsers with a known page count *)

(** In every brand module [product_info] stands for the dictionary built
    from one product of the payload; building it may raise. *)

Module GucciProductParser.
Section Gucci.
Context {Row : Type} (env : Env).
Variable product_info : pyval -> pyval -> result Row.

Definition page_url (base_url : string) (category : pyval) (page : Z)
    (locale : pyval) : string :=
  url_format env base_url
    [("category", category); ("page", PInt page); ("locale", locale)].

(** [self.driver.get(url)], reading the page source, taking the text of
    the [<pre>] element or [''], and
    [json.loads(json_temp) if json_temp else {}]. *)
Definition get_json (url : string) : M Row pyval :=
  let! i := emit (EvDriverGet url) in
  match driver_get env i url with
  | DriverError => raise OtherException
  | PageSource pre =>
      let json_temp := match pre with Some t => t | None => "" end in
      if truthy (PStr json_temp) then
        match json_loads env json_temp with
        | Some v => ret v
        | None => raise OtherException
        end
      else ret (PDict [])
  end.

(** One iteration of [for page in range(total_pages)]. *)
Definition fetch_page (category : pyval) (base_url : string) (locale : pyval)
    (all_products : list Row) (page : Z) : M Row (list Row) :=
  let! json_data := get_json (page_url base_url category page locale) in
  let! products := lift (py_get json_data "products" (PDict [])) in
  let! items := lift (py_get products "items" (PList [])) in
  if negb (truthy items) then ret all_products
  else
    let! its := lift (py_iter items) in
    for_each its
      (fun acc product =>
         let! row := lift (product_info category product) in
         ret (acc ++ [row]))
      all_products.

(** The body of the [try] of [fetch_data]. *)
Definition fetch_data_try (category : pyval) (base_url : string)
    (locale : pyval) : M Row (list Row) :=
  let! json_data := get_json (page_url base_url category 0 locale) in
  let! total_pages := lift (py_get json_data "numberOfPages" (PInt 1)) in
  let! pages := lift (py_range total_pages) in
  for_each pages (fetch_page category base_url locale) [].

(** [fetch_data]: any exception gives the empty data frame. *)
Definition fetch_data (category : pyval) (base_url : string)
    (locale : pyval) : M Row (list Row) :=
  try_except (fetch_data_try category base_url locale) (ret []).

(** The two nested loops of [process_categories]; [self.data] is reset at
    the start of every locale. *)
Definition collect (self : parser Row) (categories locales : list pyval)
    : M Row (parser Row) :=
  for_each locales
    (fun self locale =>
       let self := set_data self [] in
       for_each categories
         (fun self category =>
            let! category_data := fetch_data category (base_url self) locale in
            ret (set_data self (data self ++ category_data)))
         self)
    self.

Definition process_categories (send_out_endpoint : string)
    (self : parser Row) (categories locales : list pyval)
    : M Row (parser Row) :=
  let! self := collect self categories locales in
  publish env send_out_endpoint self (data self).

End Gucci.
End GucciProductParser.

Module SaintLaurentProductParser.
Section SaintLaurent.
Context {Row : Type} (env : Env).
Variable product_info : pyval -> pyval -> result Row.

Definition page_url (base_url : string) (category : pyval) (page : Z)
    (locale : pyval) : string :=
  url_format env base_url
    [("category", category); ("page", PInt page); ("locale", locale)].

(** [session.get(url); response.raise_for_status(); response.json()] *)
Definition get_json (retries : Retry) (url : string) : M Row pyval :=
  let! resp := session_get env (Some retries) url in
  let! _ := lift (raise_for_status (fst resp)) in
  response_json env (snd resp).

(** [zip(items, hits)] *)
Definition py_zip (a b : pyval) : result (list (pyval * pyval)) :=
  match py_iter a, py_iter b with
  | Ok la, Ok lb => Ok (zip la lb)
  | _, _ => Raise OtherException
  end.

Definition fetch_page (self : parser Row) (category locale : pyval)
    (all_products : list Row) (page : Z) : M Row (list Row) :=
  let! json_data :=
    get_json brand_retries (page_url (base_url self) category page locale) in
  let! items := lift (py_get json_data "products" (PList [])) in
  let! hits := lift (py_get json_data "hitsAlgolia" (PList [])) in
  if negb (truthy items && truthy hits) then ret all_products
  else
    let! pairs := lift (py_zip items hits) in
    for_each pairs
      (fun acc ph =>
         let! row := lift (product_info (fst ph) (snd ph)) in
         ret (acc ++ [row]))
      all_products.

Definition fetch_data_try (self : parser Row) (category locale : pyval)
    : M Row (list Row) :=
  let! json_data :=
    get_json brand_retries (page_url (base_url self) category 0 locale) in
  let! stats := lift (py_get json_data "stats" (PDict [])) in
  let! total_pages := lift (py_get stats "nbPages" (PInt 0)) in
  let! pages := lift (py_range total_pages) in
  for_each pages (fetch_page self category locale) [].

(** [fetch_data(category, base_url, locale)]: the URL is formatted from
    [self.base_url]; the parameter [base_url] is not used. The call of
    [format] in the page loop is garbled in the source (line 627) and is read
    as passing [locale=locale], as the first call does. *)
Definition fetch_data (self : parser Row) (category : pyval)
    (base_url : string) (locale : pyval) : M Row (list Row) :=
  try_except (fetch_data_try self category locale) (ret []).

(** The two nested loops of [process_categories]: [self.data] is never
    reset. *)
Definition collect (self : parser Row) (categories locales : list pyval)
    : M Row (parser Row) :=
  for_each locales
    (fun self locale =>
       for_each categories
         (fun self category =>
            let! category_data :=
              fetch_data self category (base_url self) locale in
            ret (set_data self (data self ++ category_data)))
         self)
    self.

Definition process_categories (send_out_endpoint : string)
    (self : parser Row) (categories locales : list pyval)
    : M Row (parser Row) :=
  let! self := collect self categories locales in
  publish env send_out_endpoint self (data self).

End SaintLaurent.
End SaintLaurentProductParser.

Module AlexanderMcqueenParser.
Section AlexanderMcqueen.
Context {Row : Type} (env : Env).
Variable product_info : pyval -> pyval -> result Row.

Definition page_url (base_url : string) (category : pyval) (page : Z)
    (locale : pyval) : string :=
  url_format env base_url
    [("clothing_category", category); ("locale", locale); ("page", PInt page)].

(** [v + 1] *)
Definition py_add1 (v : pyval) : result pyval :=
  match v with
  | PInt z => Ok (PInt (z + 1))
  | PBool b => Ok (PInt ((if b then 1 else 0) + 1))
  | PFloat q => Ok (PFloat (Qplus q 1))
  | _ => Raise OtherException
  end.

Definition fetch_page (category : pyval) (base_url : string) (locale : pyval)
    (all_products : list Row) (page : Z) : M Row (list Row) :=
  let! json_data :=
    SaintLaurentProductParser.get_json env mcqueen_retries
      (page_url base_url category page locale) in
  let! products := lift (py_getitem json_data "products") in
  if negb (truthy products) then ret all_products
  else
    let! its := lift (py_iter products) in
    for_each its
      (fun acc product =>
         let! row := lift (product_info category product) in
         ret (acc ++ [row]))
      all_products.

Definition fetch_data_try (category : pyval) (base_url : string)
    (locale : pyval) : M Row (list Row) :=
  let! json_data :=
    SaintLaurentProductParser.get_json env mcqueen_retries
      (page_url base_url category 0 locale) in
  let! stats := lift (py_getitem json_data "stats") in
  let! nb_pages := lift (py_getitem stats "nbPages") in
  let! total_pages := lift (py_add1 nb_pages) in
  let! pages := lift (py_range total_pages) in
  for_each pages (fetch_page category base_url locale) [].

Definition fetch_data (category : pyval) (base_url : string)
    (locale : pyval) : M Row (list Row) :=
  try_except (fetch_data_try category base_url locale) (ret []).

(** [self.base_url = category_dict["base_url"]]: a value that is not a
    string makes [base_url.format] raise inside every [fetch_data]. *)
Definition fetch_data_val (category base_url locale : pyval)
    : M Row (list Row) :=
  match base_url with
  | PStr u => fetch_data category u locale
  | _ => ret []
  end.

Definition collect (self : parser Row) (category_dicts locales : list pyval)
    : M Row (parser Row) :=
  for_each locales
    (fun self locale =>
       let self := set_data self [] in
       for_each category_dicts
         (fun self category_dict =>
            let! category_list := lift (py_getitem category_dict "category_list") in
            let! the_base_url := lift (py_getitem category_dict "base_url") in
            let self :=
              match the_base_url with
              | PStr u => set_base_url self u
              | _ => self
              end in
            let! categories := lift (py_iter category_list) in
            for_each categories
              (fun self category =>
                 let! category_data := fetch_data_val category the_base_url locale in
                 ret (set_data self (data self ++ category_data)))
              self)
         self)
    self.

Definition process_categories (send_out_endpoint : string)
    (self : parser Row) (category_dicts locales : list pyval)
    : M Row (parser Row) :=
  let! self := collect self category_dicts locales in
  publish env send_out_endpoint self (data self).

End AlexanderMcqueen.
End AlexanderMcqueenParser.

(** ** Brand parsers that need a bearer token *)

Module BearerToken.
Section BearerToken.
Context {Row : Type} (env : Env).

(** [json.loads(m).get("message", {}).get("params", {}).get('request', {})
    .get("headers", {}).get("Authorization")] *)
Definition authorization_of (m : string) : result pyval :=
  match json_loads env m with
  | None => Raise OtherException
  | Some v =>
      match py_get v "message" (PDict []) with
      | Ok v1 =>
          match py_get v1 "params" (PDict []) with
          | Ok v2 =>
              match py_get v2 "request" (PDict []) with
              | Ok v3 =>
                  match py_get v3 "headers" (PDict []) with
                  | Ok v4 => py_get v4 "Authorization" PNone
                  | r => r
                  end
              | r => r
              end
          | r => r
          end
      | r => r
      end
  end.

(** The loop over the performance log of [get_bearer_token]. *)
Fixpoint scan_logs (logs : list string) : result (option string) :=
  match logs with
  | [] => Ok None
  | m :: logs' =>
      if contains "Bearer" m then
        match authorization_of m with
        | Ok token =>
            if truthy token then
              match token with
              | PStr t =>
                  if startswith "Bearer " t then Ok (Some (split_last "" t))
                  else scan_logs logs'
              | _ => Raise OtherException
              end
            else scan_logs logs'
        | Raise e => Raise e
        | OutOfFuel => OutOfFuel
        end
      else scan_logs logs'
  end.

(** [get_bearer_token]: open the landing page, drive it (which may raise),
    read the performance log and scan it. *)
Definition get_bearer_token (landing_url : string) : M Row (option string) :=
  let! i := emit (EvDriverGet landing_url) in
  match driver_get env i landing_url with
  | DriverError => raise OtherException
  | PageSource _ =>
      let! j := emit EvDriverLog in
      let! logs := lift (driver_log env j) in
      lift (scan_logs logs)
  end.

(** [not bearer_token] *)
Definition no_token (t : option string) : bool :=
  match t with
  | None => true
  | Some s => negb (truthy (PStr s))
  end.

End BearerToken.
End BearerToken.

Module DolceGabbanaProductParser.
Section DolceGabbana.
Context {Row : Type} (env : Env).
Variable product_info : pyval -> pyval -> result Row.

Definition landing_url : string :=
  "https://www.dolcegabbana.com/en-us/fashion/women/bags/handbags/".

Definition page_url (base_url : string) (offset locale site_id limit category : pyval)
    : string :=
  url_format env base_url
    [("offset", offset); ("locale", locale); ("site_id", site_id);
     ("limit", limit); ("category", category)].

(** The [while True] loop of [fetch_products]; [requests.get] goes through
    a fresh session with nothing mounted, and nothing here is caught. *)
Fixpoint fetch_loop (fuel : nat) (self : parser Row) (category info_dict : pyval)
    (offset : pyval) (all_products : list Row) : M Row (list Row) :=
  match fuel with
  | O => out_of_fuel
  | S fuel' =>
      let! locale := lift (py_getitem info_dict "locale") in
      let! site_id := lift (py_getitem info_dict "site_id") in
      let! limit := lift (py_getitem info_dict "limit") in
      let formatted_url :=
        page_url (base_url self) offset locale site_id limit category in
      let! resp := session_get env None formatted_url in
      if negb (fst resp =? 200) then ret all_products
      else
        let! data := response_json env (snd resp) in
        let! products := lift (py_get data "hits" (PList [])) in
        if negb (truthy products) then ret all_products
        else
          let! its := lift (py_iter products) in
          let! all_products :=
            for_each its
              (fun acc product =>
                 let! row := lift (product_info category product) in
                 ret (acc ++ [row]))
              all_products in
          let! offset := lift (py_add offset limit) in
          let! the_total := lift (py_getitem data "total") in
          let! stop := lift (py_le the_total offset) in
          if stop then ret all_products
          else fetch_loop fuel' self category info_dict offset all_products
  end.

Definition fetch_products (fuel : nat) (self : parser Row)
    (category info_dict : pyval) : M Row (list Row) :=
  let! bearer_token := BearerToken.get_bearer_token env landing_url in
  if BearerToken.no_token bearer_token then ret []
  else fetch_loop fuel self category info_dict (PInt 0) [].

(** The loops of [process_categories]: the rows go to the local
    [all_data], and [self.data] is set to an empty frame for every
    [info_dict]. The result is [(self, all_data)]. *)
Definition collect (fuel : nat) (self : parser Row)
    (categories info_dicts : list pyval) : M Row (parser Row * list Row) :=
  for_each info_dicts
    (fun st info_dict =>
       let self := set_data (fst st) [] in
       let all_data := snd st in
       if truthy (PList categories) then
         for_each categories
           (fun st category =>
              let! category_data := fetch_products fuel (fst st) category info_dict in
              ret (fst st, snd st ++ category_data))
           (self, all_data)
       else
         let! category_data := fetch_products fuel self (PStr "") info_dict in
         ret (self, all_data ++ category_data))
    (self, []).

(** [process_categories]: what is serialised and counted is [self.data]. *)
Definition process_categories (fuel : nat) (send_out_endpoint : string)
    (self : parser Row) (categories info_dicts : list pyval)
    : M Row (parser Row) :=
  let! st := collect fuel self categories info_dicts in
  publish env send_out_endpoint (fst st) (data (fst st)).

End DolceGabbana.
End DolceGabbanaProductParser.

Module LoeweProductParser.
Section Loewe.
Context {Row : Type} (env : Env).
Variable product_info : pyval -> result Row.

Definition landing_url : string := "https://www.loewe.com/usa/en/women/shoes".

Definition page_url (base_url : string)
    (category offset limit country_code locale site_id : pyval) : string :=
  url_format env base_url
    [("category", category); ("offset", offset); ("limit", limit);
     ("country_code", country_code); ("locale", locale); ("site_id", site_id)].

(** [items[0]] *)
Definition py_first (items : pyval) : result pyval :=
  match items with
  | PList (x :: _) => Ok x
  | PStr (String c _) => Ok (PStr (String c EmptyString))
  | _ => Raise OtherException
  end.

(** [int(items[0].get('c_totalProducts', '').replace(',', '')
    .replace('.', '')) if items else 0] *)
Definition total_products_of (items : pyval) : result Z :=
  if truthy items then
    match py_first items with
    | Ok first =>
        match py_get first "c_totalProducts" (PStr "") with
        | Ok (PStr t) =>
            match int_of_str env (remove_char "."%char (remove_char ","%char t)) with
            | Some n => Ok n
            | None => Raise OtherException
            end
        | Ok _ => Raise OtherException
        | Raise e => Raise e
        | OutOfFuel => OutOfFuel
        end
    | Raise e => Raise e
    | OutOfFuel => OutOfFuel
    end
  else Ok 0.

(** [while offset <= total_products: ...]; an empty page takes the
    [continue] before [offset += limit]. *)
Fixpoint fetch_loop (fuel : nat) (category : pyval) (base_url : string)
    (limit country_code locale site_id : pyval)
    (total_products : Z) (offset : pyval) (all_products : list Row)
    : M Row (list Row) :=
  let! again := lift (py_le offset (PInt total_products)) in
  if negb again then ret all_products
  else
    match fuel with
    | O => out_of_fuel
    | S fuel' =>
        let! json_data :=
          SaintLaurentProductParser.get_json env brand_retries
            (page_url base_url category offset limit country_code locale site_id) in
        let! items := lift (py_get json_data "hits" (PList [])) in
        if negb (truthy items) then
          fetch_loop fuel' category base_url limit country_code locale site_id
            total_products offset all_products
        else
          let! its := lift (py_iter items) in
          let! all_products :=
            for_each its
              (fun acc product =>
                 let! row := lift (product_info product) in
                 ret (acc ++ [row]))
              all_products in
          let! offset := lift (py_add offset limit) in
          fetch_loop fuel' category base_url limit country_code locale site_id
            total_products offset all_products
    end.

Definition fetch_data_try (fuel : nat) (category : pyval) (base_url : string)
    (limit country_code locale site_id : pyval) : M Row (list Row) :=
  let offset := PInt 0 in
  let! json_data :=
    SaintLaurentProductParser.get_json env brand_retries
      (page_url base_url category offset (PInt 2) country_code locale site_id) in
  let! items := lift (py_get json_data "hits" (PList [])) in
  let! total_products := lift (total_products_of items) in
  fetch_loop fuel category base_url limit country_code locale site_id
    total_products offset [].

Definition fetch_data (fuel : nat) (category : pyval) (base_url : string)
    (country_dict : pyval) : M Row (list Row) :=
  let! bearer_token := BearerToken.get_bearer_token env landing_url in
  if BearerToken.no_token bearer_token then ret []
  else
    let! limit := lift (py_getitem country_dict "limit") in
    let! country_code := lift (py_getitem country_dict "country_code") in
    let! locale := lift (py_getitem country_dict "locale") in
    let! site_id := lift (py_getitem country_dict "site_id") in
    try_except
      (fetch_data_try fuel category base_url limit country_code locale site_id)
      (ret []).

Definition collect (fuel : nat) (self : parser Row)
    (categories country_dicts : list pyval) : M Row (parser Row) :=
  for_each country_dicts
    (fun self country_dict =>
       let self := set_data self [] in
       for_each categories
         (fun self category =>
            let! category_data :=
              fetch_data fuel category (base_url self) country_dict in
            ret (set_data self (data self ++ category_data)))
         self)
    self.

Definition process_categories (fuel : nat) (send_out_endpoint : string)
    (self : parser Row) (categories country_dicts : list pyval)
    : M Row (parser Row) :=
  let! self := collect fuel self categories country_dicts in
  publish env send_out_endpoint self (data self).

End Loewe.
End LoeweProductParser.

Module StoneIslandProductParser.
Section StoneIsland.
Context {Row : Type} (env : Env).
Variable product_info : pyval -> pyval -> pyval -> result Row.

Definition page_url (base_url : string) (category size start locale : pyval)
    : string :=
  url_format env base_url
    [("category", category); ("size", size); ("start", start); ("locale", locale)].

(** [session.get; raise_for_status; response.json()], then
    [if isinstance(json_data, str): json_data = json.loads(json_data)]. *)
Definition get_json (url : string) : M Row pyval :=
  let! json_data := SaintLaurentProductParser.get_json env brand_retries url in
  match json_data with
  | PStr s =>
      match json_loads env s with
      | Some v => ret v
      | None => raise OtherException
      end
  | _ => ret json_data
  end.

(** [while start <= num_products: ...] *)
Fixpoint fetch_loop (fuel : nat) (self : parser Row)
    (category locale_dict locale size num_products : pyval)
    (start : pyval) (all_products : list Row) : M Row (list Row) :=
  let! again := lift (py_le start num_products) in
  if negb again then ret all_products
  else
    match fuel with
    | O => out_of_fuel
    | S fuel' =>
        let! json_data :=
          get_json (page_url (base_url self) category size start locale) in
        let! d := lift (py_get json_data "data" (PDict [])) in
        let! products := lift (py_get d "products" (PList [])) in
        let! start := lift (py_add start size) in
        let! its := lift (py_iter products) in
        let! all_products :=
          for_each its
            (fun acc product =>
               let! row := lift (product_info category product locale_dict) in
               ret (acc ++ [row]))
            all_products in
        fetch_loop fuel' self category locale_dict locale size num_products
          start all_products
    end.

Definition fetch_data_try (fuel : nat) (self : parser Row)
    (category locale_dict locale size start : pyval) : M Row (list Row) :=
  let! json_data :=
    get_json (page_url (base_url self) category size start locale) in
  let! d := lift (py_get json_data "data" (PDict [])) in
  let! num_products := lift (py_get d "count" (PStr "")) in
  fetch_loop fuel self category locale_dict locale size num_products start [].

Definition fetch_data (fuel : nat) (self : parser Row)
    (category locale_dict : pyval) : M Row (list Row) :=
  let! locale := lift (py_get locale_dict "locale" (PStr "")) in
  let! size := lift (py_get locale_dict "size" (PStr "")) in
  let! start := lift (py_get locale_dict "start" (PStr "")) in
  try_except
    (fetch_data_try fuel self category locale_dict locale size start)
    (ret []).

Definition collect (fuel : nat) (self : parser Row)
    (categories locale_dicts : list pyval) : M Row (parser Row) :=
  for_each locale_dicts
    (fun self locale_dict =>
       let self := set_data self [] in
       for_each categories
         (fun self category =>
            let! category_data := fetch_data fuel self category locale_dict in
            ret (set_data self (data self ++ category_data)))
         self)
    self.

Definition process_categories (fuel : nat) (send_out_endpoint : string)
    (self : parser Row) (categories locale_dicts : list pyval)
    : M Row (parser Row) :=
  let! self := collect fuel self categories locale_dicts in
  publish env send_out_endpoint self (data self).

End StoneIsland.
End StoneIslandProductParser.

(** ** The remaining brand parsers *)

Module LoroPianaProductParser.
Section LoroPiana.
Context {Row : Type} (env : Env).
Variable product_info : pyval -> result Row.

Definition page_url (base_url : string) (category country_code locale : pyval)
    (page : Z) : string :=
  url_format env base_url
    [("category", category); ("country_code", country_code);
     ("locale", locale); ("page", PInt page)].

Definition fetch_page (category : pyval) (base_url : string)
    (country_code locale : pyval) (all_products : list Row) (page : Z)
    : M Row (list Row) :=
  let! json_data :=
    SaintLaurentProductParser.get_json env brand_retries
      (page_url base_url category country_code locale page) in
  let! items := lift (py_get json_data "results" (PDict [])) in
  if negb (truthy items) then ret all_products
  else
    let! its := lift (py_iter items) in
    for_each its
      (fun acc product =>
         let! row := lift (product_info product) in
         ret (acc ++ [row]))
      all_products.

Definition fetch_data_try (category : pyval) (base_url : string)
    (country_code locale : pyval) : M Row (list Row) :=
  let! json_data :=
    SaintLaurentProductParser.get_json env brand_retries
      (page_url base_url category country_code locale 0) in
  let! pagination := lift (py_get json_data "pagination" (PDict [])) in
  let! total_pages := lift (py_get pagination "numberOfPages" (PInt 0)) in
  let! pages := lift (py_range total_pages) in
  for_each pages (fetch_page category base_url country_code locale) [].

Definition fetch_data (category : pyval) (base_url : string)
    (country_code locale : pyval) : M Row (list Row) :=
  try_except (fetch_data_try category base_url country_code locale) (ret []).

Definition collect (self : parser Row) (categories country_dicts : list pyval)
    : M Row (parser Row) :=
  for_each country_dicts
    (fun self country_dict =>
       let! locale := lift (py_getitem country_dict "locale") in
       let! country_code := lift (py_getitem country_dict "country_code") in
       for_each categories
         (fun self category =>
            let! category_data :=
              fetch_data category (base_url self) country_code locale in
            ret (set_data self (data self ++ category_data)))
         self)
    self.

Definition process_categories (send_out_endpoint : string)
    (self : parser Row) (categories country_dicts : list pyval)
    : M Row (parser Row) :=
  let! self := collect self categories country_dicts in
  publish env send_out_endpoint self (data self).

End LoroPiana.
End LoroPianaProductParser.

Module MonclerProductParser.
Section Moncler.
Context {Row : Type} (env : Env).
Variable product_info : pyval -> result Row.

(** The [while True] loop of [fetch_moncler_products] for one category;
    the URL does not depend on [offset], and nothing is caught. *)
Fixpoint fetch_loop (fuel : nat) (self : parser Row)
    (category country_code : pyval) (offset : Z) (all_products : list Row)
    : M Row (list Row) :=
  match fuel with
  | O => out_of_fuel
  | S fuel' =>
      let formatted_url :=
        url_format env (base_url self)
          [("category", category); ("country_code", country_code)] in
      let! i := emit (EvDriverGet formatted_url) in
      match driver_get env i formatted_url, country_code with
      | PageSource (Some response), PStr _ =>
          match json_loads env response with
          | None => raise OtherException
          | Some data =>
              let! d := lift (py_getitem data "data") in
              let! products := lift (py_getitem d "products") in
              if negb (truthy products) then ret all_products
              else
                let! its := lift (py_iter products) in
                let! all_products :=
                  for_each its
                    (fun acc product =>
                       let! row := lift (product_info product) in
                       ret (acc ++ [row]))
                    all_products in
                let offset := offset + Z.of_nat (length its) in
                let! d := lift (py_getitem data "data") in
                let! total_count := lift (py_getitem d "count") in
                let! stop := lift (py_le total_count (PInt offset)) in
                if stop then ret all_products
                else fetch_loop fuel' self category country_code offset all_products
          end
      | _, _ => raise OtherException
      end
  end.

Definition fetch_moncler_products (fuel : nat) (self : parser Row)
    (categories : list pyval) (country_code : pyval) : M Row (list Row) :=
  for_each categories
    (fun all_products category =>
       fetch_loop fuel self category country_code 0 all_products)
    [].

Definition collect (fuel : nat) (self : parser Row)
    (categories country_codes : list pyval) : M Row (list Row) :=
  for_each country_codes
    (fun all_data country_code =>
       let! some_data := fetch_moncler_products fuel self categories country_code in
       ret (all_data ++ some_data))
    [].

(** [process_categories]: the local [all_data] is serialised and counted. *)
Definition process_categories (fuel : nat) (send_out_endpoint : string)
    (self : parser Row) (categories country_codes : list pyval)
    : M Row (parser Row) :=
  let! all_data := collect fuel self categories country_codes in
  publish env send_out_endpoint self all_data.

End Moncler.
End MonclerProductParser.

(** The Chloe and Canada Goose parsers read rendered HTML. [scrape] stands
    for the body of the [try] of their [fetch_data] (browser requests and
    extraction of the product blocks); the handler and the accumulation
    loops are those of the source. *)
Module HtmlParser.
Section Html.
Context {Row : Type} (env : Env).
Variable scrape : parser Row -> pyval -> pyval -> M Row (list Row).

(** [CanadaGooseProductParser.fetch_data] *)
Definition canada_goose_fetch_data (self : parser Row) (category locale : pyval)
    : M Row (list Row) :=
  try_except (scrape self category locale) (ret []).

(** [ChloeProductParser.fetch_data]: [locale_dict.get("locale", "")] and
    [locale_dict.get("size", "")] come before the [try]. *)
Definition chloe_fetch_data (self : parser Row) (category locale_dict : pyval)
    : M Row (list Row) :=
  let! locale := lift (py_get locale_dict "locale" (PStr "")) in
  let! size := lift (py_get locale_dict "size" (PStr "")) in
  try_except (scrape self category locale_dict) (ret []).

Definition collect (fetch_data : parser Row -> pyval -> pyval -> M Row (list Row))
    (self : parser Row) (categories locales : list pyval) : M Row (parser Row) :=
  for_each locales
    (fun self locale =>
       let self := set_data self [] in
       for_each categories
         (fun self category =>
            let! category_data := fetch_data self category locale in
            ret (set_data self (data self ++ category_data)))
         self)
    self.

Definition process_categories
    (fetch_data : parser Row -> pyval -> pyval -> M Row (list Row))
    (send_out_endpoint : string)
    (self : parser Row) (categories locales : list pyval)
    : M Row (parser Row) :=
  let! self := collect fetch_data self categories locales in
  publish env send_out_endpoint self (data self).

End Html.
End HtmlParser.

(** ** The dispatcher *)

Module Runner.

(** The value stored under one brand id in the settings file. *)
Record brand_settings : Type := {
  Categories : list pyval;
  Locales : list pyval;
  Base_URL : string
}.

Inductive parser_class : Type :=
| SaintLaurentProductParser
| GucciProductParser
| AlexanderMcqueenParser
| MonclerProductParser
| LoroPianaProductParser
| LoeweProductParser
| DolceGabbanaProductParser
| StoneIslandProductParser
| ChloeProductParser
| CanadaGooseProductParser.

(** The keys and classes of the dictionary [parsers] of [run_parser]. *)
Definition parsers : gmap string parser_class :=
  list_to_map
    [("478", SaintLaurentProductParser);
     ("229", GucciProductParser);
     ("26", AlexanderMcqueenParser);
     ("363", MonclerProductParser);
     ("314", LoroPianaProductParser);
     ("310", LoeweProductParser);
     ("157", DolceGabbanaProductParser);
     ("500", StoneIslandProductParser);
     ("125", ChloeProductParser);
     ("110", CanadaGooseProductParser)].

(** The brand name each class passes to [WebsiteParser.__init__]. *)
Definition brand_name (c : parser_class) : string :=
  match c with
  | SaintLaurentProductParser => "saint_laurent"
  | GucciProductParser => "gucci"
  | AlexanderMcqueenParser => "alexander_mcqueen"
  | MonclerProductParser => "moncler"
  | LoroPianaProductParser => "loro_piana"
  | LoeweProductParser => "loewe"
  | DolceGabbanaProductParser => "dolce_gabbana"
  | StoneIslandProductParser => "stone_island"
  | ChloeProductParser => "chloe"
  | CanadaGooseProductParser => "canada_goose"
  end.

(** What the settings source answers: the decoded file, or the exception
    raised by [requests.get], [raise_for_status] or [response.json]. *)
Inductive settings_answer : Type :=
| SettingsError (e : exn)
| SettingsFile (settings : gmap string brand_settings).

(** The row extractors of the brands, and the HTML scrapers. *)
Record Extractors (Row : Type) : Type := {
  gucci_info : pyval -> pyval -> result Row;
  saint_laurent_info : pyval -> pyval -> result Row;
  mcqueen_info : pyval -> pyval -> result Row;
  dolce_info : pyval -> pyval -> result Row;
  loewe_info : pyval -> result Row;
  stone_island_info : pyval -> pyval -> pyval -> result Row;
  loro_piana_info : pyval -> result Row;
  moncler_info : pyval -> result Row;
  chloe_scrape : parser Row -> pyval -> pyval -> M Row (list Row);
  canada_goose_scrape : parser Row -> pyval -> pyval -> M Row (list Row)
}.
Arguments gucci_info {Row} _.
Arguments saint_laurent_info {Row} _.
Arguments mcqueen_info {Row} _.
Arguments dolce_info {Row} _.
Arguments loewe_info {Row} _.
Arguments stone_island_info {Row} _.
Arguments loro_piana_info {Row} _.
Arguments moncler_info {Row} _.
Arguments chloe_scrape {Row} _.
Arguments canada_goose_scrape {Row} _.

Section Runner.
Context {Row : Type} (env : Env) (ex : Extractors Row).
Variable settings_source : settings_answer.

(** [fetch_settings]: [None] on a [RequestException]. *)
Definition fetch_settings : M Row (option (gmap string brand_settings)) :=
  try_except_request
    (let! _ := emit EvSettingsGet in
     match settings_source with
     | SettingsError e => raise e
     | SettingsFile s => ret (Some s)
     end)
    (ret None).

(** [parser = parser_class(job_id, base_url);
    parser.process_categories(categories, locales)] *)
Definition process_categories (fuel : nat) (send_out_endpoint : string)
    (c : parser_class) (job_id base_url : string)
    (categories locales : list pyval) : M Row (parser Row) :=
  let self := init env job_id (brand_name c) base_url in
  match c with
  | SaintLaurentProductParser =>
      SaintLaurentProductParser.process_categories env (saint_laurent_info ex)
        send_out_endpoint self categories locales
  | GucciProductParser =>
      GucciProductParser.process_categories env (gucci_info ex)
        send_out_endpoint self categories locales
  | AlexanderMcqueenParser =>
      AlexanderMcqueenParser.process_categories env (mcqueen_info ex)
        send_out_endpoint self categories locales
  | MonclerProductParser =>
      MonclerProductParser.process_categories env (moncler_info ex)
        fuel send_out_endpoint self categories locales
  | LoroPianaProductParser =>
      LoroPianaProductParser.process_categories env (loro_piana_info ex)
        send_out_endpoint self categories locales
  | LoeweProductParser =>
      LoeweProductParser.process_categories env (loewe_info ex)
        fuel send_out_endpoint self categories locales
  | DolceGabbanaProductParser =>
      DolceGabbanaProductParser.process_categories env (dolce_info ex)
        fuel send_out_endpoint self categories locales
  | StoneIslandProductParser =>
      StoneIslandProductParser.process_categories env (stone_island_info ex)
        fuel send_out_endpoint self categories locales
  | ChloeProductParser =>
      HtmlParser.process_categories env
        (HtmlParser.chloe_fetch_data (chloe_scrape ex))
        send_out_endpoint self categories locales
  | CanadaGooseProductParser =>
      HtmlParser.process_categories env
        (HtmlParser.canada_goose_fetch_data (canada_goose_scrape ex))
        send_out_endpoint self categories locales
  end.

(** [run_parser(job_id, brand_id)] *)
Definition run_parser (fuel : nat) (send_out_endpoint : string)
    (job_id brand_id : string) : M Row unit :=
  let! settings := fetch_settings in
  match settings with
  | None => ret tt
  | Some settings =>
      if bool_decide (settings = ∅) then ret tt
      else
        match settings !! brand_id with
        | None => ret tt
        | Some brand_settings =>
            let categories := Categories brand_settings in
            let locales := Locales brand_settings in
            let base_url := Base_URL brand_settings in
            match parsers !! brand_id with
            | Some parser_class =>
                let! _ := process_categories fuel send_out_endpoint parser_class
                            job_id base_url categories locales in
                ret tt
            | None => ret tt
            end
        end
  end.

End Runner.

End Runner.
Export Runner.

(** ** Observations on traces *)

Module Traces.
Section Traces.
Context {Row : Type}.

(** The calls of the fetcher: page loads of the browser and calls of
    [session.get] / [requests.get]. *)
Definition fetch_of (e : event Row) : option string :=
  match e with
  | EvDriverGet u => Some u
  | EvSessionGet u => Some u
  | _ => None
  end.

Definition fetches (t : trace Row) : list string := omap fetch_of t.



(** The completion notifications posted. *)
Definition post_of (e : event Row) : option (string * notification) :=
  match e with
  | EvPost u p => Some (u, p)
  | _ => None
  end.

Definition posts (t : trace Row) : list (string * notification) := omap post_of t.

(** The data frames serialised to an artifact. *)
Definition csv_of (e : event Row) : option (list Row) :=
  match e with
  | EvToCsv _ rows => Some rows
  | _ => None
  end.

Definition serialized (t : trace Row) : list (list Row) := omap csv_of t.

(** The uploads attempted. *)
Definition upload_of (e : event Row) : option string :=
  match e with
  | EvUpload _ save_as => Some save_as
  | _ => None
  end.

Definition uploads (t : trace Row) : list string := omap upload_of t.

End Traces.
End Traces.
Export Traces.

(** * The manager node

    The model follows [site_parsing_htmls/Manager_Node/main.py]: the lookup
    of a job and of the endpoints in the database, the dispatch of the job
    to the agent, the alert mail, and the update of the job record when the
    agent reports completion. The cells of a query result are represented
    by their [str()], which is all the code uses of them. *)

Module Manager.

(** What the manager does to the outside world, in order. *)
Inductive event : Type :=
| EvReadSql (sql_query : string)
| EvDispose
| EvRunHtml (url : string) (params : list (string * string))
| EvSend (to_emails subject html_content : string)
| EvIpGet
| EvConnect
| EvExecute (sql : string)
| EvCommit
| EvClose.

(** The world, asked at the time (number of events so far) of the call. *)
Record World : Type := {
  (** [pd.read_sql_query]: the rows of the frame, or [None] when it raises. *)
  read_sql_query : nat -> string -> option (list (list string));
  (** [requests.post]: the status code, or [None] on a transport error. *)
  requests_post : nat -> string -> option Z;
  (** [sg.send(message)] returns. *)
  sg_send : nat -> bool;
  (** [requests.get('https://api.ipify.org')] returns. *)
  ipify : nat -> bool;
  engine_connect : nat -> bool;
  connection_execute : nat -> string -> bool;
  connection_commit : nat -> bool;
  connection_close : nat -> bool
}.

Definition trace : Type := list event.

Definition M (A : Type) : Type := trace -> result A * trace.

Definition ret {A} (a : A) : M A := fun t => (Ok a, t).

Definition bind {A B} (m : M A) (k : A -> M B) : M B :=
  fun t =>
    match m t with
    | (Ok a, t') => k a t'
    | (Raise e, t') => (Raise e, t')
    | (OutOfFuel, t') => (OutOfFuel, t')
    end.

Definition raise {A} (e : exn) : M A := fun t => (Raise e, t).

Definition emit (e : event) : M nat := fun t => (Ok (length t), t ++ [e]).

(** [try: m except Exception: h] *)
Definition try_except {A} (m : M A) (h : M A) : M A :=
  fun t =>
    match m t with
    | (Raise _, t') => h t'
    | r => r
    end.

(** An effect that either returns or raises. *)
Definition attempt (e : event) (ok : nat -> bool) (x : exn) : M unit :=
  bind (emit e) (fun i => if ok i then ret tt else raise x).

Declare Scope manager_scope.
Delimit Scope manager_scope with manager.
Notation "'let!' x ':=' m 'in' k" := (bind m (fun x => k))
  (at level 10, x name, m at level 100, k at level 200) : manager_scope.
Local Open Scope manager_scope.

Definition nl : string := String (ascii_of_nat 10) EmptyString.
Definition dquote : string := String (ascii_of_nat 34) EmptyString.

Section Manager.
Variable w : World.

(** [update_sql_job]: the statement. *)
Definition update_sql (job_id resultUrl logUrl : string) (count : Z)
    (startTime : string) : string :=
  "Update utb_BrandScanJobs Set ParsingResultUrl = '" +:+ resultUrl +:+ "'," +:+ nl
  +:+ "ParsingLogURL = '" +:+ logUrl +:+ "'," +:+ nl
  +:+ "ParsingCount =  " +:+ pretty count +:+ "," +:+ nl
  +:+ "ParsingStart = '" +:+ startTime +:+ "'," +:+ nl
  +:+ " ParsingEnd = getdate()" +:+ nl
  +:+ " Where ID = " +:+ job_id.

Definition update_sql_job (job_id resultUrl logUrl : string) (count : Z)
    (startTime : string) : M unit :=
  let sql := update_sql job_id resultUrl logUrl count startTime in
  if (0 <? String.length sql)%nat then
    let! _ := attempt EvIpGet (ipify w) RequestException in
    let! _ := attempt EvConnect (engine_connect w) OtherException in
    let! _ := attempt (EvExecute sql) (fun i => connection_execute w i sql)
                OtherException in
    let! _ := attempt EvCommit (connection_commit w) OtherException in
    attempt EvClose (connection_close w) OtherException
  else ret tt.

(** [pd.read_sql_query(sql_query, con=engine); engine.dispose()] *)
Definition read_frame (sql_query : string) : M (list (list string)) :=
  let! i := emit (EvReadSql sql_query) in
  match read_sql_query w i sql_query with
  | None => raise OtherException
  | Some df =>
      let! _ := emit EvDispose in
      ret df
  end.

(** [df.iloc[r, c]]: [IndexError] out of range. *)
Definition iloc (df : list (list string)) (r c : nat) : M string :=
  match df !! r with
  | Some row =>
      match row !! c with
      | Some cell => ret cell
      | None => raise OtherException
      end
  | None => raise OtherException
  end.

(** [fetch_endpoint]: the query selects the single column
    [EndPointValue], of which [.iloc[0]] is taken. *)
Definition fetch_endpoint (endpoint_id : Z) : M string :=
  let sql_query :=
    "Select EndPointValue from utb_SettingsEndpoints Where ID = "
    +:+ pretty endpoint_id in
  let! df := read_frame sql_query in
  iloc df 0 0.

Definition fetch_job_details (job_id : string) : M (list (list string)) :=
  let sql_query :=
    "Select BrandId, ScanUrl from utb_BrandScanJobs where ID = " +:+ job_id in
  read_frame sql_query.

Definition submit_job_post (job_id brand_id url send_in_endpoint send_out_endpoint : string)
    : M Z :=
  let params :=
    [("job_id", job_id); ("brand_id", brand_id); ("scan_url", url);
     ("send_out_endpoint_local", send_out_endpoint)] in
  let target := send_in_endpoint +:+ "/run_html" in
  let! i := emit (EvRunHtml target params) in
  match requests_post w i target with
  | Some status_code => ret status_code
  | None => raise RequestException
  end.

(** [message_text.replace("\n", "<br>")] *)
Fixpoint replace_newlines (s : string) : string :=
  match s with
  | EmptyString => EmptyString
  | String c s' =>
      if Ascii.eqb c (ascii_of_nat 10) then "<br>" +:+ replace_newlines s'
      else String c (replace_newlines s')
  end.

Definition html_content (message_with_breaks : string) : string :=
  nl
  +:+ "                    <html>" +:+ nl
  +:+ "                    <body>" +:+ nl
  +:+ "                    <div class=" +:+ dquote +:+ "container" +:+ dquote +:+ ">" +:+ nl
  +:+ "                        <!-- Use the modified message with <br> for line breaks -->"
  +:+ nl
  +:+ "                        <p>Message details:<br>" +:+ message_with_breaks
  +:+ "</p>" +:+ nl
  +:+ "                    </div>" +:+ nl
  +:+ "                    </body>" +:+ nl
  +:+ "                    </html>" +:+ nl
  +:+ "                    ".

(** [send_email]: whatever [sg.send] raises is printed and dropped. *)
Definition send_email (message_text to_emails subject : string) : M unit :=
  let message_with_breaks := replace_newlines message_text in
  try_except
    (attempt (EvSend to_emails subject (html_content message_with_breaks))
       (sg_send w) OtherException)
    (ret tt).

Definition default_to_emails : string := "nik@iconluxurygroup.com".
Definition default_subject : string := "Error - HTML Step".

(** The text of the alert of [procces_brand_single]. *)
Definition alert_text (job_id : string) (response_status : Z) : string :=
  "Request with job id " +:+ job_id +:+ " failed to send, Status: "
  +:+ pretty response_status.

Definition procces_brand_single (job_id : string) : M unit :=
  let! df := fetch_job_details job_id in
  let! url := iloc df 0 1 in
  let! brand_id := iloc df 0 0 in
  let! send_in_endpoint := fetch_endpoint 9 in
  let! send_out_endpoint := fetch_endpoint 8 in
  let! response_status :=
    submit_job_post job_id brand_id url send_in_endpoint send_out_endpoint in
  if negb (response_status =? 200) then
    send_email (alert_text job_id response_status) default_to_emails default_subject
  else ret tt.

End Manager.

(** Observations on the manager's trace. *)
Definition mail_of (e : event) : option string :=
  match e with
  | EvSend _ _ html => Some html
  | _ => None
  end.

Definition mails (t : trace) : list string := omap mail_of t.

Definition dispatch_of (e : event) : option (string * list (string * string)) :=
  match e with
  | EvRunHtml url params => Some (url, params)
  | _ => None
  end.

Definition dispatches (t : trace) : list (string * list (string * string)) :=
  omap dispatch_of t.

(** A computation that only reads: it extends the trace by events that
    are neither a dispatch nor a mail, and raises [OtherException] if it
    raises. *)
Definition reads_only {A} (m : M A) : Prop :=
  forall t, exists evs,
    snd (m t) = t ++ evs /\ mails evs = [] /\ dispatches evs = []
    /\ ((exists a, fst (m t) = Ok a) \/ fst (m t) = Raise OtherException).

(** The ways [procces_brand_single] can end, from the trace [t]: after
    lookups [pre], either a lookup failed, or the job was dispatched once
    and the agent could not be reached, answered 200, or answered another
    status, in which case (and only then) an alert mail is attempted. *)
Definition alert_outcome (w : World) (job_id : string) (t : trace)
    (out : result unit * trace) : Prop :=
  exists pre tail,
    snd out = t ++ pre ++ tail /\ mails pre = [] /\ dispatches pre = []
    /\ ((tail = [] /\ fst out = Raise OtherException)
        \/ exists url params,
             (tail = [EvRunHtml url params]
              /\ requests_post w (length (t ++ pre)) url = None
              /\ fst out = Raise RequestException)
             \/ (tail = [EvRunHtml url params]
                 /\ requests_post w (length (t ++ pre)) url = Some 200
                 /\ fst out = Ok tt)
             \/ (exists status,
                   tail = [EvRunHtml url params;
                           EvSend default_to_emails default_subject
                             (html_content (replace_newlines (alert_text job_id status)))]
                   /\ requests_post w (length (t ++ pre)) url = Some status
                   /\ status <> 200
                   /\ fst out = Ok tt)).

(** The statements of [update_sql_job] after the address lookup. *)
Definition update_events (sql : string) : list event :=
  [EvConnect; EvExecute sql; EvCommit; EvClose].

End Manager.


(** ** Vocabulary of the statements and example worlds *)

Module Examples.

(** A string does not begin, respectively end, with whitespace. *)
Definition clean (o : option ascii) : Prop :=
  match o with
  | Some c => py_isspace c = false
  | None => True
  end.

(** The name [process_categories] gives to the artifact at time [i]. *)
Definition artifact_name {Row : Type} (env : Env) (self : parser Row) (i : nat) : string :=
  brand self +:+ "_output_" +:+ strftime_mdy env i +:+ "_" +:+ code self +:+ ".csv".

(** A computation that records nothing. *)
Definition silent {Row A : Type} (m : M Row A) : Prop := forall t, snd (m t) = t.

(** [fetched_in_order fetch pairs t rows t']: starting from the trace [t]
    the fetcher is run for every (locale, category) of [pairs] in order, each
    run returns, and [rows] is the concatenation of what the runs returned. *)
Inductive fetched_in_order {Row : Type} (fetch : pyval -> pyval -> M Row (list Row))
  : list (pyval * pyval) -> trace Row -> list Row -> trace Row -> Prop :=
| fetched_nil (t : trace Row) : fetched_in_order fetch [] t [] t
| fetched_cons (locale category : pyval) (rest : list (pyval * pyval))
    (t t1 t2 : trace Row) (rows rows' : list Row) :
    fetch category locale t = (Ok rows, t1) ->
    fetched_in_order fetch rest t1 rows' t2 ->
    fetched_in_order fetch ((locale, category) :: rest) t (rows ++ rows') t2.

(** The (locale, category) pairs in the order [process_categories] goes
    through them. *)
Definition pairs (locales categories : list pyval) : list (pyval * pyval) :=
  flat_map (fun locale => map (fun category => (locale, category)) categories) locales.

(** A computation that never runs out of fuel. *)
Definition terminating {Row A : Type} (m : M Row A) : Prop :=
  forall t, fst (m t) <> OutOfFuel.

(** The URL of the completion callback. *)
Definition callback_url (send_out_endpoint : string) : string :=
  send_out_endpoint +:+ "/job_complete".

Definition show (v : pyval) : string :=
  match v with
  | PStr s => s
  | PInt z => pretty z
  | _ => "?"
  end.

(** A URL template instantiated by appending the fields in order. *)
Definition format_query (base : string) (args : list (string * pyval)) : string :=
  base +:+ fold_right (fun kv acc => "/" +:+ fst kv +:+ "=" +:+ show (snd kv) +:+ acc) "" args.

(** A world given by its decoder, browser, browser log and HTTP server;
    storage and callback succeed when [storage_ok]. *)
Definition world (loads : string -> option pyval)
    (browser : nat -> string -> driver_answer)
    (log : nat -> result (list string))
    (server : nat -> string -> http_answer)
    (storage_ok : bool) : Env :=
  {| json_loads := loads;
     int_of_str := fun _ => None;
     url_format := format_query;
     driver_get := browser;
     driver_log := log;
     http_get := server;
     s3_client := fun _ => storage_ok;
     s3_upload := fun _ _ => storage_ok;
     path_exists := fun _ _ => true;
     os_remove := fun _ _ => true;
     http_post := fun _ _ => Response 200 false "";
     strftime_mdy := fun _ => "11_04_2026";
     strftime_dmy := "04_11_2026";
     uuid4 := "c0de" |}.

(** Rows are the products themselves. *)
Definition keep_product (category product : pyval) : result pyval := Ok product.

(** A catalogue of two pages of three items for every category and locale:
    the browser shows the URL it was asked for, and the payload decoded from
    a page names the page in its items. *)
Definition two_pages_of_three (text : string) : option pyval :=
  Some (PDict [("numberOfPages", PInt 2);
               ("products",
                PDict [("items", PList [PStr (text +:+ "#1");
                                        PStr (text +:+ "#2");
                                        PStr (text +:+ "#3")])])]).

Definition gucci_world (storage_ok : bool) : Env :=
  world two_pages_of_three (fun _ url => PageSource (Some url))
    (fun _ => Ok []) (fun _ _ => ConnectError) storage_ok.

Definition gucci_parser : parser pyval :=
  init (gucci_world true) "J1" "gucci" "https://gucci.example".

(** Extractors that keep the product as the row; the HTML scrapers find
    nothing. *)
Definition example_extractors : Extractors pyval :=
  {| gucci_info := keep_product;
     saint_laurent_info := fun product hit => Ok product;
     mcqueen_info := keep_product;
     dolce_info := keep_product;
     loewe_info := fun product => Ok product;
     stone_island_info := fun category product locale_dict => Ok product;
     loro_piana_info := fun product => Ok product;
     moncler_info := fun product => Ok product;
     chloe_scrape := fun _ _ _ => ret [];
     canada_goose_scrape := fun _ _ _ => ret [] |}.

(** The job [J1] for brand 229 with one category and one locale. *)
Definition gucci_job : M pyval (parser pyval) :=
  Runner.process_categories (gucci_world true) example_extractors 0
    "https://manager.example" GucciProductParser "J1" "https://gucci.example"
    [PStr "bags"] [PStr "en-US"].

(** A Dolce e Gabbana world: the browser log carries a bearer token, and
    every category has two products on one page. *)
Definition dolce_loads (text : string) : option pyval :=
  if contains "Bearer" text then
    Some (PDict [("message",
                  PDict [("params",
                          PDict [("request",
                                  PDict [("headers",
                                          PDict [("Authorization",
                                                  PStr "Bearer t0k3n")])])])])])
  else
    Some (PDict [("hits", PList [PStr (text +:+ "#1"); PStr (text +:+ "#2")]);
                 ("total", PInt 2)]).

Definition dolce_world : Env :=
  world dolce_loads (fun _ _ => PageSource None)
    (fun _ => Ok ["{Authorization: Bearer}"])
    (fun _ url => Response 200 false url) true.

Definition dolce_info_dict : pyval :=
  PDict [("locale", PStr "en"); ("site_id", PStr "dg"); ("limit", PInt 2)].

Definition dolce_parser : parser pyval :=
  init dolce_world "J2" "dolce_gabbana" "https://dolce.example".

(** A settings file that knows brand 229 only. *)
Definition gucci_settings : gmap string brand_settings :=
  {[ "229" := {| Categories := [PStr "bags"]; Locales := [PStr "en-US"];
                 Base_URL := "https://gucci.example" |} ]}.

(** A Loewe world in which a category has no product: the browser log
    carries a bearer token and every response has an empty hit list. *)
Definition loewe_loads (text : string) : option pyval :=
  if contains "Bearer" text then dolce_loads text
  else Some (PDict [("hits", PList [])]).

Definition loewe_world : Env :=
  world loewe_loads (fun _ _ => PageSource None)
    (fun _ => Ok ["{Authorization: Bearer}"])
    (fun _ _ => Response 200 false "{}") true.

Definition loewe_country_dict : pyval :=
  PDict [("limit", PInt 20); ("country_code", PStr "us"); ("locale", PStr "en");
         ("site_id", PStr "lw")].







(** A server that always answers 404. *)
Definition missing_world : Env :=
  world (fun _ => None) (fun _ _ => DriverError) (fun _ => Ok [])
    (fun _ _ => Response 404 false "") true.

End Examples.
Export Examples.

(** ** Further vocabulary and example worlds *)

Module MoreExamples.

(** The files the cleanup of [send_output] tried to remove. *)
Definition removal_of {Row : Type} (e : event Row) : option string :=
  match e with
  | EvRemove f => Some f
  | _ => None
  end.

Definition removals {Row : Type} (t : trace Row) : list string := omap removal_of t.

(** A computation that neither serialises an artifact nor posts a
    notification. *)
Definition quiet {Row A : Type} (m : M Row A) : Prop :=
  forall t, posts (snd (m t)) = posts t /\ serialized (snd (m t)) = serialized t.

(** The value is a returned one. *)
Definition returned {A : Type} (r : result A) : bool :=
  match r with
  | Ok _ => true
  | _ => false
  end.

(** A Saint Laurent world: every URL is answered 200 with a body naming
    it, which decodes to one page holding one product and one hit. *)
Definition saint_laurent_loads (text : string) : option pyval :=
  Some (PDict [("stats", PDict [("nbPages", PInt 1)]);
               ("products", PList [PStr (text +:+ "#1")]);
               ("hitsAlgolia", PList [PStr "hit"])]).

Definition saint_laurent_world : Env :=
  world saint_laurent_loads (fun _ _ => DriverError) (fun _ => Ok [])
    (fun _ url => Response 200 false url) true.

Definition saint_laurent_parser : parser pyval :=
  init saint_laurent_world "J3" "saint_laurent" "https://ysl.example".

(** A Moncler world: every page load shows the same two products and
    declares a count of 5. *)
Definition moncler_loads (text : string) : option pyval :=
  Some (PDict [("data",
                PDict [("products", PList [PStr "m1"; PStr "m2"]);
                       ("count", PInt 5)])]).

Definition moncler_world : Env :=
  world moncler_loads (fun _ url => PageSource (Some url)) (fun _ => Ok [])
    (fun _ _ => ConnectError) true.

Definition moncler_parser : parser pyval :=
  init moncler_world "J4" "moncler" "https://moncler.example".

(** A Stone Island world: every URL is answered 200 with a body naming it,
    which decodes to a page of one product in a catalogue of three. *)
Definition stone_island_loads (text : string) : option pyval :=
  Some (PDict [("data",
                PDict [("count", PInt 3);
                       ("products", PList [PStr (text +:+ "#1")])])]).

Definition stone_island_world : Env :=
  world stone_island_loads (fun _ _ => DriverError) (fun _ => Ok [])
    (fun _ url => Response 200 false url) true.

(** The same server when the payload carries no count. *)
Definition stone_island_bare_world : Env :=
  world (fun _ => Some (PDict [("data", PDict [("products", PList [])])]))
    (fun _ _ => DriverError) (fun _ => Ok [])
    (fun _ url => Response 200 false url) true.

Definition stone_island_parser : parser pyval :=
  init stone_island_world "J5" "stone_island" "https://stoneisland.example".

Definition stone_island_locale : list (string * pyval) :=
  [("locale", PStr "en-us"); ("size", PInt 2); ("start", PInt 0)].

(** What a job adds to the notifications and the artifacts: at most one
    notification, to the completion callback, each with one artifact
    serialised; nothing when [ok] is false. *)
Definition notifies_once {Row : Type} (endpoint : string) (t t' : trace Row) (ok : bool) : Prop :=
  exists l,
    posts t' = posts t ++ l
    /\ (length l <= 1)%nat
    /\ (forall p, p ∈ l -> fst p = callback_url endpoint)
    /\ length (serialized t') = (length (serialized t) + length l)%nat
    /\ (ok = false -> l = []).

(** A manager world: job 7 is a scan of brand 229, both endpoints are
    configured, the agent answers every dispatch with [status], and the mail
    service is down. *)
Definition manager_world (status : Z) : Manager.World :=
  {| Manager.read_sql_query := fun _ q =>
       if String.eqb q "Select BrandId, ScanUrl from utb_BrandScanJobs where ID = 7"
       then Some [["229"; "https://shop.example/bags"]]
       else if String.eqb q "Select EndPointValue from utb_SettingsEndpoints Where ID = 9"
       then Some [["https://agent.example"]]
       else if String.eqb q "Select EndPointValue from utb_SettingsEndpoints Where ID = 8"
       then Some [["https://manager.example"]]
       else Some [];
     Manager.requests_post := fun _ _ => Some status;
     Manager.sg_send := fun _ => false;
     Manager.ipify := fun _ => true;
     Manager.engine_connect := fun _ => true;
     Manager.connection_execute := fun _ _ => true;
     Manager.connection_commit := fun _ => true;
     Manager.connection_close := fun _ => true |}.

End MoreExamples.
Export MoreExamples.

(** * Properties *)

(** ** Normalisation helpers *)

Lemma lstrip_split (s : string) :
  exists l, s = l +:+ lstrip s /\ all_space l = true /\ clean (first_char (lstrip s)).
Proof.
  induction s as [|c s IH]; simpl.
  - exists EmptyString. auto.
  - destruct (py_isspace c) eqn:Hc.
    + destruct IH as (l & Hl & Hsp & Hcl).
      exists (String c l). simpl. rewrite Hc, Hsp.
      split; [exact (f_equal (String c) Hl) | auto].
    + exists EmptyString. simpl. auto.
Qed.

Lemma rstrip_split (s : string) :
  exists r, s = rstrip s +:+ r /\ all_space r = true /\ clean (last_char (rstrip s)).
Proof.
  induction s as [|c s IH]; simpl.
  - exists EmptyString. auto.
  - destruct IH as (r & Hr & Hsp & Hcl).
    destruct (rstrip s) as [|c' s'] eqn:Hrs.
    + destruct (py_isspace c) eqn:Hc.
      * exists (String c r). simpl. rewrite Hc, Hsp.
        split; [exact (f_equal (String c) Hr) | auto].
      * exists r. simpl. rewrite Hc.
        split; [exact (f_equal (String c) Hr) | auto].
    + exists r. split; [exact (f_equal (String c) Hr)|]. split; [assumption|].
      simpl in *. destruct s'; assumption.
Qed.

Lemma rstrip_first (s : string) :
  clean (first_char s) -> clean (first_char (rstrip s)).
Proof.
  destruct s as [|c s]; simpl; [auto|].
  intros Hc. destruct (rstrip s); [rewrite Hc|]; simpl; assumption.
Qed.

Lemma strip_split (s : string) :
  exists l r, s = l +:+ strip s +:+ r /\ all_space l = true /\ all_space r = true
              /\ clean (first_char (strip s)) /\ clean (last_char (strip s)).
Proof.
  destruct (lstrip_split s) as (l & Hl & Hlsp & Hlcl).
  destruct (rstrip_split (lstrip s)) as (r & Hr & Hrsp & Hrcl).
  exists l, r. unfold strip. repeat split; auto using rstrip_first.
  rewrite <- Hr. exact Hl.
Qed.

(** C8. [safe_strip] removes exactly the leading and trailing whitespace of
    a string and returns every other value unchanged; [format_url] puts
    ["https:"] before a URL that starts with ["//"], giving a URL that
    starts with ["https://"], leaves a URL that starts with ["http"] as it
    is, and maps every falsy value to the empty string. *)
Theorem normalization_helpers :
  (forall s : string,
      safe_strip (PStr s) = PStr (strip s)
      /\ exists l r, s = l +:+ strip s +:+ r
                     /\ all_space l = true /\ all_space r = true
                     /\ clean (first_char (strip s)) /\ clean (last_char (strip s)))
  /\ (forall v : pyval, is_str v = false -> safe_strip v = v)
  /\ (forall u : string,
         format_url (PStr ("//" +:+ u)) = Ok ("https:" +:+ ("//" +:+ u))
         /\ startswith "https://" ("https:" +:+ ("//" +:+ u)) = true)
  /\ (forall u : string, format_url (PStr ("http" +:+ u)) = Ok ("http" +:+ u))
  /\ (forall v : pyval, truthy v = false -> format_url v = Ok "").
Proof.
  split; [|split; [|split; [|split]]].
  - intros s. split; [reflexivity | apply strip_split].
  - intros v Hv. destruct v; simpl in *; congruence.
  - intros u. split; reflexivity.
  - intros u. reflexivity.
  - intros v Hv. unfold format_url. now rewrite Hv.
Qed.

(** ** Reasoning about computations *)

Section MonadFacts.
Context {Row : Type}.

Lemma bind_ok_inv {A B} (m : M Row A) (k : A -> M Row B) t b t' :
  bind m k t = (Ok b, t') ->
  exists a t1, m t = (Ok a, t1) /\ k a t1 = (Ok b, t').
Proof.
  unfold bind. destruct (m t) as [[a| |] t1]; intros H; try discriminate.
  eauto.
Qed.

Lemma bind_ok {A B} (m : M Row A) (k : A -> M Row B) t a t1 :
  m t = (Ok a, t1) -> bind m k t = k a t1.
Proof. unfold bind. now intros ->. Qed.

Lemma fetches_app (t1 t2 : trace Row) : fetches (t1 ++ t2) = fetches t1 ++ fetches t2.
Proof. apply omap_app. Qed.


Lemma posts_app (t1 t2 : trace Row) : posts (t1 ++ t2) = posts t1 ++ posts t2.
Proof. apply omap_app. Qed.

Lemma serialized_app (t1 t2 : trace Row) :
  serialized (t1 ++ t2) = serialized t1 ++ serialized t2.
Proof. apply omap_app. Qed.

Lemma uploads_app (t1 t2 : trace Row) : uploads (t1 ++ t2) = uploads t1 ++ uploads t2.
Proof. apply omap_app. Qed.

End MonadFacts.

Ltac run_monad :=
  unfold bind, ret, emit, now, lift, raise, out_of_fuel, try_except,
    try_except_request; simpl.

Ltac case_step :=
  match goal with
  | |- context [if ?b then _ else _] => destruct b eqn:?
  | |- context [match ?x with Response _ _ _ => _ | _ => _ end] => destruct x eqn:?
  end; simpl.

(** ** The output publisher *)

Section PublisherFacts.
Context {Row : Type} (env : Env).

(** [upload_file_to_space] never raises; it gives [None] exactly when the
    client cannot be created or the upload fails. *)
Lemma upload_file_to_space_spec (file_src save_as : string) (t : trace Row) :
  exists evs,
    upload_file_to_space env file_src save_as t
    = (Ok (if s3_client env (length t) && s3_upload env (S (length t)) save_as
           then Some ("https://archive.iconluxurygroup.s3.us-east-2.amazonaws.com/"
                      +:+ save_as)
           else None), t ++ evs)
    /\ posts evs = [] /\ serialized evs = [] /\ fetches evs = [].
Proof.
  unfold upload_file_to_space, get_s3_client. run_monad.
  destruct (s3_client env (length t)) eqn:Hc; simpl.
  - rewrite length_app, Nat.add_1_r. simpl.
    destruct (s3_upload env (S (length t)) save_as); simpl;
      rewrite <- app_assoc; eexists; split; try reflexivity; auto.
  - eexists; split; try reflexivity; auto.
Qed.

(** [send_output] never raises and posts exactly one notification, whose
    URL fields are [str()] of the artifact URL and of the result of the log
    upload. *)
Lemma send_output_spec (endpoint : string) (self : parser Row) (t : trace Row) :
  exists l evs,
    fst (upload_file_to_space env (log_file_name self) (log_file_name self) t) = Ok l
    /\ send_output env endpoint self t = (Ok (set_log_url self l), t ++ evs)
    /\ posts evs
       = [(endpoint +:+ "/job_complete",
           {| p_job_id := job_id self;
              p_resultUrl := str_of_optional (upload_url self);
              p_logUrl := str_of_optional l;
              p_count := count self |})]
    /\ serialized evs = [] /\ fetches evs = [].
Proof.
  unfold send_output.
  destruct (upload_file_to_space_spec (log_file_name self) (log_file_name self) t)
    as (evs & Hup & Hp & Hs & Hf).
  rewrite (bind_ok _ _ _ _ _ Hup). rewrite Hup. simpl fst.
  match type of Hup with _ = (Ok ?x, _) => set (l := x) in * end. clearbody l.
  unfold remove_if_exists, post_job_complete, raise_for_status. run_monad.
  destruct (output_filename self) as [f|]; simpl;
    repeat case_step;
    rewrite <- ?app_assoc;
    (eexists l, _; split; [reflexivity|]; split; [reflexivity|];
     rewrite ?posts_app, ?serialized_app, ?fetches_app, ?Hp, ?Hs, ?Hf; auto).
Qed.

End PublisherFacts.

Section PublishFacts.
Context {Row : Type} (env : Env).

(** [publish] never raises: it serialises [dataset], uploads the artifact
    and the log, and posts one notification whose count is
    [len(dataset) - 1]. *)
Lemma publish_spec (endpoint : string) (self : parser Row) (dataset : list Row)
    (t : trace Row) :
  let fn := artifact_name env self (length t) in
  exists u t1 l evs,
    upload_file_to_space env fn fn (t ++ [EvToCsv fn dataset]) = (Ok u, t1)
    /\ fst (upload_file_to_space env (log_file_name self) (log_file_name self) t1) = Ok l
    /\ publish env endpoint self dataset t
       = (Ok (set_log_url
                (set_count (set_upload_url (set_output_filename self (Some fn)) u)
                   (Z.of_nat (length dataset) - 1)) l),
          t ++ evs)
    /\ posts evs
       = [(callback_url endpoint,
           {| p_job_id := job_id self;
              p_resultUrl := str_of_optional u;
              p_logUrl := str_of_optional l;
              p_count := Z.of_nat (length dataset) - 1 |})]
    /\ serialized evs = [dataset] /\ fetches evs = [].
Proof.
  intros fn. unfold publish.
  destruct (upload_file_to_space_spec env fn fn (t ++ [EvToCsv fn dataset]))
    as (evs1 & Hup & Hp1 & Hs1 & Hf1).
  match type of Hup with _ = (Ok ?x, _) => set (u := x) in Hup end. clearbody u.
  set (self1 := set_count (set_upload_url (set_output_filename self (Some fn)) u)
                  (Z.of_nat (length dataset) - 1)).
  destruct (send_output_spec env endpoint self1 ((t ++ [EvToCsv fn dataset]) ++ evs1))
    as (l & evs2 & Hl & Hso & Hp2 & Hs2 & Hf2).
  exists u, ((t ++ [EvToCsv fn dataset]) ++ evs1), l,
    ([EvToCsv fn dataset] ++ evs1 ++ evs2).
  split; [exact Hup|]. split; [exact Hl|].
  split.
  - unfold bind, now, emit, ret. cbv zeta.
    change (brand self +:+ "_output_" +:+ strftime_mdy env (length t) +:+ "_"
            +:+ code self +:+ ".csv") with fn.
    rewrite Hup. fold self1. rewrite Hso.
    now rewrite <- !app_assoc.
  - rewrite !posts_app, !serialized_app, !fetches_app, Hp1, Hp2, Hs1, Hs2, Hf1, Hf2.
    auto.
Qed.

End PublishFacts.

(** C10. [send_output] never raises and attempts exactly one completion
    POST, whatever the uploads did; its [resultUrl] and [logUrl] are
    [str()] of the artifact URL and of the log upload, so an upload that
    failed (gave [None]) puts the four characters ["None"] there. The same
    holds for the whole publishing tail of [process_categories], where the
    artifact URL is the result of the artifact upload. *)
Theorem one_notification_with_literal_None :
  forall (Row : Type) (env : Env) (endpoint : string) (self : parser Row)
         (t : trace Row),
    (exists l evs params,
        fst (upload_file_to_space env (log_file_name self) (log_file_name self) t) = Ok l
        /\ send_output env endpoint self t = (Ok (set_log_url self l), t ++ evs)
        /\ posts evs = [(callback_url endpoint, params)]
        /\ p_resultUrl params = str_of_optional (upload_url self)
        /\ p_logUrl params = str_of_optional l
        /\ (upload_url self = None -> p_resultUrl params = "None")
        /\ (l = None -> p_logUrl params = "None"))
    /\ (forall dataset : list Row,
           let fn := artifact_name env self (length t) in
           exists u t1 l self' evs params,
             upload_file_to_space env fn fn (t ++ [EvToCsv fn dataset]) = (Ok u, t1)
             /\ fst (upload_file_to_space env (log_file_name self) (log_file_name self) t1)
                = Ok l
             /\ publish env endpoint self dataset t = (Ok self', t ++ evs)
             /\ posts evs = [(callback_url endpoint, params)]
             /\ (u = None -> p_resultUrl params = "None")
             /\ (l = None -> p_logUrl params = "None")).
Proof.
  intros Row env endpoint self t. split.
  - destruct (send_output_spec env endpoint self t) as (l & evs & Hl & Hso & Hp & _).
    eexists l, evs, _. split; [exact Hl|]. split; [exact Hso|].
    split; [exact Hp|]. simpl. repeat split; auto.
    + now intros ->.
    + now intros ->.
  - intros dataset fn.
    destruct (publish_spec env endpoint self dataset t)
      as (u & t1 & l & evs & Hu & Hl & Hpub & Hp & _).
    eexists u, t1, l, _, evs, _. split; [exact Hu|]. split; [exact Hl|].
    split; [exact Hpub|]. split; [exact Hp|]. simpl.
    split; now intros ->.
Qed.

(** Both uploads fail: the notification is still posted, with ["None"]
    twice. *)
Lemma one_notification_with_literal_None_witness :
  exists evs params,
    snd (publish (gucci_world false) "https://manager.example" gucci_parser [] [])
    = [] ++ evs
    /\ posts evs = [(callback_url "https://manager.example", params)]
    /\ p_resultUrl params = "None" /\ p_logUrl params = "None".
Proof.
  destruct (one_notification_with_literal_None pyval (gucci_world false)
              "https://manager.example" gucci_parser []) as [_ H].
  destruct (H []) as (u & t1 & l & self' & evs & params & Hu & Hl & Hpub & Hp & Hr & Hlg).
  exists evs, params. rewrite Hpub. split; [reflexivity|]. split; [exact Hp|].
  split.
  - apply Hr. vm_compute in Hu. congruence.
  - apply Hlg. vm_compute in Hu. injection Hu as _ <-. vm_compute in Hl. congruence.
Defined.

(** ** The count reported by a job *)

Section CountFacts.
Context {Row : Type} (env : Env).

(** A computation that ends by publishing [g x] reports [len(g x) - 1]. *)
Lemma publishes_after {A} (m : M Row A) (f : A -> parser Row) (g : A -> list Row)
    (endpoint : string) (t : trace Row) (self' : parser Row) (t' : trace Row) :
  bind m (fun x => publish env endpoint (f x) (g x)) t = (Ok self', t') ->
  exists t1 self1 rows evs params,
    publish env endpoint self1 rows t1 = (Ok self', t1 ++ evs)
    /\ t' = t1 ++ evs
    /\ serialized evs = [rows]
    /\ posts evs = [(callback_url endpoint, params)]
    /\ p_count params = Z.of_nat (length rows) - 1
    /\ count self' = Z.of_nat (length rows) - 1.
Proof.
  intros H. apply bind_ok_inv in H as (x & t1 & Hm & Hpub).
  destruct (publish_spec env endpoint (f x) (g x) t1)
    as (u & t2 & l & evs & _ & _ & Hp & Hposts & Hser & _).
  rewrite Hp in Hpub. injection Hpub as <- <-.
  eexists t1, (f x), (g x), evs, _.
  split; [exact Hp|]. split; [reflexivity|]. split; [exact Hser|].
  split; [exact Hposts|]. split; reflexivity.
Qed.

End CountFacts.

(** C6. Whenever [process_categories] of any of the ten parsers reaches the
    publisher, the count of the completion notification (and
    [self.count]) is the number of rows of the serialised data frame minus
    one; the job of brand 229 over two pages of three items serialises six
    rows and reports 5. *)
Theorem count_is_len_minus_one :
  (forall (Row : Type) (env : Env) (ex : Extractors Row) (fuel : nat)
          (endpoint : string) (c : parser_class) (job_id base_url : string)
          (categories locales : list pyval) (t : trace Row)
          (self' : parser Row) (t' : trace Row),
      Runner.process_categories env ex fuel endpoint c job_id base_url
        categories locales t = (Ok self', t') ->
      exists t1 self1 rows evs params,
        publish env endpoint self1 rows t1 = (Ok self', t1 ++ evs)
        /\ t' = t1 ++ evs
        /\ serialized evs = [rows]
        /\ posts evs = [(callback_url endpoint, params)]
        /\ p_count params = Z.of_nat (length rows) - 1
        /\ count self' = Z.of_nat (length rows) - 1)
  /\ (exists rows params,
         serialized (snd (gucci_job [])) = [rows]
         /\ length rows = 6%nat
         /\ posts (snd (gucci_job [])) = [(callback_url "https://manager.example", params)]
         /\ p_count params = 5).
Proof.
  split.
  - intros Row env ex fuel endpoint c job_id base_url categories locales t self' t' H.
    destruct c; unfold Runner.process_categories in H;
      apply (publishes_after env) in H; exact H.
  - eexists _, _. vm_compute. repeat split.
Qed.

Lemma count_is_len_minus_one_witness :
  exists t1 self1 rows evs params,
    publish (gucci_world true) "https://manager.example" self1 rows t1
    = (fst (gucci_job []), t1 ++ evs)
    /\ snd (gucci_job []) = t1 ++ evs
    /\ serialized evs = [rows]
    /\ posts evs = [(callback_url "https://manager.example", params)]
    /\ p_count params = Z.of_nat (length rows) - 1.
Proof.
  destruct (proj1 count_is_len_minus_one pyval (gucci_world true) example_extractors
              0%nat "https://manager.example" GucciProductParser "J1"
              "https://gucci.example" [PStr "bags"] [PStr "en-US"] []
              (match fst (gucci_job []) with Ok p => p | _ => gucci_parser end)
              (snd (gucci_job [])))
    as (t1 & self1 & rows & evs & params & H1 & H2 & H3 & H4 & H5 & _).
  - vm_compute. reflexivity.
  - exists t1, self1, rows, evs, params.
    split; [rewrite H1; vm_compute; reflexivity|]. auto.
Defined.

(** ** Loops *)

Section LoopFacts.
Context {Row : Type}.

(** A property kept by every iteration that returns holds when the loop
    returns. *)
Lemma for_each_invariant {S A} (P : S -> Prop) (body : S -> A -> M Row S)
    (l : list A) :
  (forall s x t s' t', P s -> body s x t = (Ok s', t') -> P s') ->
  forall s t s' t', P s -> for_each l body s t = (Ok s', t') -> P s'.
Proof.
  intros Hbody. induction l as [|x l IH]; intros s t s' t' Hs H; simpl in H.
  - injection H as <- <-. exact Hs.
  - apply bind_ok_inv in H as (s1 & t1 & H1 & H2).
    eapply IH; [|exact H2]. eapply Hbody; eauto.
Qed.

End LoopFacts.

(** ** Dolce e Gabbana: what is published *)

Section DolceFacts.
Context {Row : Type} (env : Env) (info : pyval -> pyval -> result Row).

Lemma dolce_collect_data (fuel : nat) (self : parser Row)
    (categories info_dicts : list pyval) (t : trace Row)
    (self1 : parser Row) (all_data : list Row) (t1 : trace Row) :
  data self = [] ->
  DolceGabbanaProductParser.collect env info fuel self categories info_dicts t
  = (Ok (self1, all_data), t1) ->
  data self1 = [].
Proof.
  intros Hd H. unfold DolceGabbanaProductParser.collect in H.
  apply (for_each_invariant (fun st => data (fst st) = [])) in H; [exact H| |exact Hd].
  clear. intros st info_dict t st' t' _ H.
  destruct (truthy (PList categories)).
  - apply (for_each_invariant (fun st => data (fst st) = [])) in H; [exact H| |reflexivity].
    clear. intros st category t st' t' Hs H.
    apply bind_ok_inv in H as (rows & t1 & _ & H). injection H as <- <-. exact Hs.
  - apply bind_ok_inv in H as (rows & t1 & _ & H). now injection H as <- <-.
Qed.

End DolceFacts.

(** C9. For brand 157 the rows fetched go to the local [all_data], while
    the data frame that is serialised and counted is [self.data], which is
    empty: whenever [process_categories] reaches the publisher, the artifact
    has no rows and the count is -1. In the example world two products are
    fetched and none is published. *)
Theorem dolce_publishes_nothing :
  (forall (Row : Type) (env : Env) (info : pyval -> pyval -> result Row)
          (fuel : nat) (endpoint job_id base_url : string)
          (categories info_dicts : list pyval) (t : trace Row)
          (self' : parser Row) (t' : trace Row),
      DolceGabbanaProductParser.process_categories env info fuel endpoint
        (init env job_id "dolce_gabbana" base_url) categories info_dicts t
      = (Ok self', t') ->
      exists self1 all_data t1 evs params,
        DolceGabbanaProductParser.collect env info fuel
          (init env job_id "dolce_gabbana" base_url) categories info_dicts t
        = (Ok (self1, all_data), t1)
        /\ t' = t1 ++ evs
        /\ serialized evs = [[]]
        /\ posts evs = [(callback_url endpoint, params)]
        /\ p_count params = -1
        /\ count self' = -1)
  /\ (exists self1 all_data t1,
         DolceGabbanaProductParser.collect dolce_world keep_product 5 dolce_parser
           [PStr "bags"] [dolce_info_dict] []
         = (Ok (self1, all_data), t1)
         /\ length all_data = 2%nat
         /\ serialized
              (snd (DolceGabbanaProductParser.process_categories dolce_world
                      keep_product 5 "https://manager.example" dolce_parser
                      [PStr "bags"] [dolce_info_dict] []))
            = [[]]).
Proof.
  split.
  - intros Row env info fuel endpoint job_id base_url categories info_dicts t self' t' H.
    unfold DolceGabbanaProductParser.process_categories in H.
    apply bind_ok_inv in H as ([self1 all_data] & t1 & Hc & Hpub).
    assert (Hd : data self1 = [])
      by (eapply dolce_collect_data; [|exact Hc]; reflexivity).
    simpl in Hpub. rewrite Hd in Hpub.
    destruct (publish_spec env endpoint self1 [] t1)
      as (u & t2 & l & evs & _ & _ & Hp & Hposts & Hser & _).
    rewrite Hp in Hpub. injection Hpub as <- <-.
    eexists self1, all_data, t1, evs, _.
    split; [exact Hc|]. split; [reflexivity|]. split; [exact Hser|].
    split; [exact Hposts|]. split; reflexivity.
  - eexists _, _, _. vm_compute. repeat split.
Qed.

Lemma dolce_publishes_nothing_witness :
  exists self1 all_data t1 (evs : trace pyval),
    DolceGabbanaProductParser.collect dolce_world keep_product 5
      (init dolce_world "J2" "dolce_gabbana" "https://dolce.example")
      [PStr "bags"] [dolce_info_dict] []
    = (Ok (self1, all_data), t1)
    /\ serialized evs = [[]].
Proof.
  destruct (proj1 dolce_publishes_nothing pyval dolce_world keep_product 5%nat
              "https://manager.example" "J2" "https://dolce.example"
              [PStr "bags"] [dolce_info_dict] []
              (match fst (DolceGabbanaProductParser.process_categories dolce_world
                            keep_product 5 "https://manager.example" dolce_parser
                            [PStr "bags"] [dolce_info_dict] [])
               with Ok p => p | _ => dolce_parser end)
              (snd (DolceGabbanaProductParser.process_categories dolce_world
                      keep_product 5 "https://manager.example" dolce_parser
                      [PStr "bags"] [dolce_info_dict] [])))
    as (self1 & all_data & t1 & evs & params & H1 & _ & H3 & _).
  - vm_compute. reflexivity.
  - exists self1, all_data, t1, evs. split; [exact H1 | exact H3].
Defined.

(** ** The dispatcher *)

(** C7. When the brand id is not a key of [parsers], or the settings that
    were fetched do not contain it (or could not be fetched), [run_parser]
    does nothing after reading the settings: no catalogue fetch, no
    artifact, no upload, no notification. *)
Theorem unknown_brand_does_nothing :
  forall (Row : Type) (env : Env) (ex : Extractors Row) (source : settings_answer)
         (fuel : nat) (endpoint job_id brand_id : string) (t : trace Row),
    parsers !! brand_id = None
    \/ (forall s, source = SettingsFile s -> s !! brand_id = None) ->
    let out := run_parser env ex source fuel endpoint job_id brand_id t in
    snd out = t ++ [EvSettingsGet]
    /\ fetches (snd out) = fetches t
    /\ serialized (snd out) = serialized t
    /\ uploads (snd out) = uploads t
    /\ posts (snd out) = posts t
    /\ (fst out = Ok tt \/ source = SettingsError OtherException).
Proof.
  intros Row env ex source fuel endpoint job_id brand_id t H.
  assert (Hrun :
    run_parser env ex source fuel endpoint job_id brand_id t = (Ok tt, t ++ [EvSettingsGet])
    \/ (run_parser env ex source fuel endpoint job_id brand_id t
        = (Raise OtherException, t ++ [EvSettingsGet])
        /\ source = SettingsError OtherException)).
  { unfold run_parser, fetch_settings. run_monad.
    destruct source as [[|]|s]; simpl; auto.
    destruct (bool_decide (s = ∅)); auto.
    destruct (s !! brand_id) as [bs|] eqn:Hs; auto.
    destruct H as [H|H]; [rewrite H; auto | rewrite (H s eq_refl) in Hs; discriminate]. }
  cbv zeta.
  destruct Hrun as [-> | [-> ->]]; simpl;
    rewrite fetches_app, serialized_app, uploads_app, posts_app; simpl;
    rewrite !app_nil_r; auto 10.
Qed.

Lemma unknown_brand_does_nothing_witness :
  snd (run_parser (Row := pyval) (gucci_world true) example_extractors
         (SettingsFile gucci_settings) 0 "https://manager.example" "J1" "999" [])
  = [] ++ [EvSettingsGet].
Proof.
  apply (unknown_brand_does_nothing pyval (gucci_world true) example_extractors
           (SettingsFile gucci_settings) 0%nat "https://manager.example" "J1" "999" []).
  left. vm_compute. reflexivity.
Defined.

(** ** The retry policy *)

Section RetryFacts.
Context {Row : Type} (env : Env).

(** A call makes at least one and at most [left + 1] attempts. *)
Lemma urlopen_attempts_bound (r : Retry) (method url : string) (left : nat)
    (t : trace Row) :
  exists n, snd (urlopen env left r method url t) = t ++ repeat (EvAttempt url) n
            /\ (1 <= n <= S left)%nat.
Proof.
  revert t. induction left as [|left IH]; intros t; simpl; run_monad.
  - exists 1%nat. split; [|lia].
    destruct (http_get env (length t) url); simpl; repeat case_step; reflexivity.
  - destruct (IH (t ++ [EvAttempt url])) as (n & Hn & Hle).
    rewrite <- app_assoc in Hn. simpl in Hn.
    destruct (http_get env (length t) url); simpl; repeat case_step;
      solve [ exists (S n); split; [exact Hn | lia]
            | exists 1%nat; split; [reflexivity | lia] ].
Qed.

(** A response for which [is_retry] is false is returned at once. *)
Lemma urlopen_no_retry (r : Retry) (method url : string) (left : nat)
    (t : trace Row) (status : Z) (ra : bool) (body : string) :
  http_get env (length t) url = Response status ra body ->
  is_retry r left method status ra = false ->
  urlopen env left r method url t = (Ok (status, body), t ++ [EvAttempt url]).
Proof.
  intros Ha Hr. destruct left; simpl; run_monad; now rewrite Ha, Hr.
Qed.





End RetryFacts.

Section OpenLinkFacts.
Context {Row : Type} (env : Env).










End OpenLinkFacts.



(** An answer 404 is returned after a single attempt. *)
Lemma open_link_404_example :
  open_link (Row := pyval) missing_world "https://shop.example/p" []
  = (Ok None, [EvSessionGet "https://shop.example/p"; EvAttempt "https://shop.example/p"]).
Proof. vm_compute. reflexivity. Qed.


(** ** Traces of the pagination loops *)

Section TraceFacts.
Context {Row : Type}.

Lemma silent_ret {A} (a : A) : silent (Row := Row) (ret a).
Proof. intros t. reflexivity. Qed.

Lemma silent_lift {A} (r : result A) : silent (Row := Row) (lift r).
Proof. intros t. reflexivity. Qed.

Lemma silent_raise {A} (e : exn) : silent (Row := Row) (raise (A := A) e).
Proof. intros t. reflexivity. Qed.

Lemma silent_bind {A B} (m : M Row A) (k : A -> M Row B) :
  silent m -> (forall a, silent (k a)) -> silent (bind m k).
Proof.
  intros Hm Hk t. unfold bind. specialize (Hm t).
  destruct (m t) as [[a| |] t1]; simpl in *; subst; auto. apply Hk.
Qed.

Lemma silent_for_each {St A} (body : St -> A -> M Row St) (l : list A) :
  (forall s x, silent (body s x)) -> forall s, silent (for_each l body s).
Proof.
  intros Hb. induction l as [|x l IH]; intros s; simpl.
  - apply silent_ret.
  - apply silent_bind; auto.
Qed.

(** The trace of [bind m k] is that of [m] when [k] records nothing. *)
Lemma bind_silent_snd {A B} (m : M Row A) (k : A -> M Row B) (t : trace Row) :
  (forall a, silent (k a)) -> snd (bind m k t) = snd (m t).
Proof.
  intros Hk. unfold bind. destruct (m t) as [[a| |] t1]; simpl; auto. apply Hk.
Qed.

(** The extraction of the rows of one page records nothing. *)
Lemma silent_rows {A} (f : A -> result Row) (l : list A) (acc : list Row) :
  silent (Row := Row)
    (for_each l (fun acc x => bind (lift (f x)) (fun row => ret (acc ++ [row]))) acc).
Proof.
  apply silent_for_each. intros s x. apply silent_bind; [apply silent_lift|].
  intros a. apply silent_ret.
Qed.

(** A loop whose every iteration calls the fetcher once, with [e x]:
    the calls are made for a prefix of [l], in order, and for the whole of
    [l] when the loop returns. *)
Lemma for_each_fetches {St A} (body : St -> A -> M Row St) (e : A -> string)
    (l : list A) :
  (forall s x t, fetches (snd (body s x t)) = fetches t ++ [e x]) ->
  forall s t,
    exists k, (k <= length l)%nat
              /\ fetches (snd (for_each l body s t)) = fetches t ++ map e (take k l)
              /\ (forall s', fst (for_each l body s t) = Ok s' -> k = length l).
Proof.
  intros Hb. induction l as [|x l IH]; intros s t; simpl.
  - exists 0%nat. simpl. rewrite app_nil_r. auto.
  - unfold bind. specialize (Hb s x t).
    destruct (body s x t) as [[s1| |] t1]; simpl in *.
    + destruct (IH s1 t1) as (k & Hk & Hf & Hok).
      exists (S k). split; [lia|]. split.
      * rewrite Hf, Hb, <- app_assoc. reflexivity.
      * intros s' H. f_equal. eauto.
    + exists 1%nat. split; [lia|]. split; [simpl; rewrite ?take_0; exact Hb|].
      discriminate.
    + exists 1%nat. split; [lia|]. split; [simpl; rewrite ?take_0; exact Hb|].
      discriminate.
Qed.

End TraceFacts.

Section FetcherFacts.
Context {Row : Type} (env : Env).

Lemma fetches_repeat_attempt (url : string) (n : nat) :
  fetches (repeat (EvAttempt (Row := Row) url) n) = [].
Proof. induction n; simpl; auto. Qed.

(** A call of [session.get] is one call of the fetcher. *)
Lemma session_get_fetches (mounted : option Retry) (url : string) (t : trace Row) :
  fetches (snd (session_get env mounted url t)) = fetches t ++ [url].
Proof.
  unfold session_get. unfold bind at 1. unfold emit. cbv beta iota.
  destruct (startswith "https://" (lower url));
    [|destruct (startswith "http://" (lower url))].
  - match goal with |- context [urlopen env ?l ?r ?m ?u ?t0] =>
      destruct (urlopen_attempts_bound env r m u l t0) as (n & -> & _) end.
    now rewrite !fetches_app, fetches_repeat_attempt, app_nil_r.
  - match goal with |- context [urlopen env ?l ?r ?m ?u ?t0] =>
      destruct (urlopen_attempts_bound env r m u l t0) as (n & -> & _) end.
    now rewrite !fetches_app, fetches_repeat_attempt, app_nil_r.
  - unfold raise. simpl. now rewrite fetches_app.
Qed.

(** So is [session.get; raise_for_status; response.json()]. *)
Lemma http_get_json_fetches (r : Retry) (url : string) (t : trace Row) :
  fetches (snd (SaintLaurentProductParser.get_json env r url t)) = fetches t ++ [url].
Proof.
  unfold SaintLaurentProductParser.get_json.
  rewrite bind_silent_snd; [apply session_get_fetches|].
  intros resp. apply silent_bind; [apply silent_lift|].
  intros _. unfold response_json. destruct (json_loads env (snd resp));
    [apply silent_ret | apply silent_raise].
Qed.

(** And a page load of the Gucci browser. *)
Lemma gucci_get_json_trace (url : string) (t : trace Row) :
  snd (GucciProductParser.get_json env url t) = t ++ [EvDriverGet url].
Proof.
  unfold GucciProductParser.get_json. run_monad.
  destruct (driver_get env (length t) url) as [|pre]; simpl; [reflexivity|].
  destruct pre; simpl;
    repeat (match goal with
            | |- context [if ?b then _ else _] => destruct b
            | |- context [match json_loads env ?s with _ => _ end] =>
                destruct (json_loads env s)
            end; simpl);
    reflexivity.
Qed.

Lemma gucci_get_json_fetches (url : string) (t : trace Row) :
  fetches (snd (GucciProductParser.get_json env url t)) = fetches t ++ [url].
Proof. rewrite gucci_get_json_trace. now rewrite fetches_app. Qed.

End FetcherFacts.

Section KnownPageCount.
Context {Row : Type} (env : Env) (info : pyval -> pyval -> result Row).

Lemma try_except_ret_snd {A} (m : M Row A) (a : A) (t : trace Row) :
  snd (try_except m (ret a) t) = snd (m t).
Proof. unfold try_except, ret. destruct (m t) as [[x| |] t1]; reflexivity. Qed.

(** One iteration of the Gucci page loop calls the fetcher once. *)
Lemma gucci_fetch_page_fetches (category : pyval) (base_url : string)
    (locale : pyval) (acc : list Row) (page : Z) (t : trace Row) :
  fetches (snd (GucciProductParser.fetch_page env info category base_url locale acc page t))
  = fetches t ++ [GucciProductParser.page_url env base_url category page locale].
Proof.
  unfold GucciProductParser.fetch_page.
  rewrite bind_silent_snd; [apply gucci_get_json_fetches|].
  intros json_data. apply silent_bind; [apply silent_lift|]. intros products.
  apply silent_bind; [apply silent_lift|]. intros items.
  destruct (negb (truthy items)); [apply silent_ret|].
  apply silent_bind; [apply silent_lift|]. intros its.
  apply (silent_rows (info category)).
Qed.

(** The calls of the fetcher made by the Gucci [fetch_data] when the first
    response declares [N] pages. *)
Lemma gucci_fetch_data_fetches (category : pyval) (base_url : string)
    (locale : pyval) (t : trace Row) (json_data : pyval) (t0 : trace Row) (N : Z) :
  GucciProductParser.get_json env
    (GucciProductParser.page_url env base_url category 0 locale) t = (Ok json_data, t0) ->
  py_get json_data "numberOfPages" (PInt 1) = Ok (PInt N) ->
  exists k,
    (k <= Z.to_nat N)%nat
    /\ fetches (snd (GucciProductParser.fetch_data env info category base_url locale t))
       = fetches t
         ++ GucciProductParser.page_url env base_url category 0 locale
            :: map (fun p => GucciProductParser.page_url env base_url category p locale)
                 (take k (seqZ 0 N))
    /\ (forall rows,
           fst (GucciProductParser.fetch_data_try env info category base_url locale t)
           = Ok rows -> k = Z.to_nat N).
Proof.
  intros Hprobe HN.
  unfold GucciProductParser.fetch_data. rewrite try_except_ret_snd.
  unfold GucciProductParser.fetch_data_try.
  rewrite (bind_ok _ _ _ _ _ Hprobe). unfold bind at 1 3. unfold lift at 1 3.
  rewrite HN. cbv beta iota. unfold bind at 1 2. unfold lift at 1 2. simpl py_range.
  cbv beta iota.
  destruct (for_each_fetches
              (GucciProductParser.fetch_page env info category base_url locale)
              (fun p => GucciProductParser.page_url env base_url category p locale)
              (seqZ 0 N)
              (fun s x t => gucci_fetch_page_fetches category base_url locale s x t)
              [] t0) as (k & Hk & Hf & Hok).
  rewrite length_seqZ in Hk, Hok.
  exists k. split; [exact Hk|]. split; [|exact Hok].
  rewrite Hf. pose proof (gucci_get_json_fetches env
    (GucciProductParser.page_url env base_url category 0 locale) t) as Hg.
  rewrite Hprobe in Hg. simpl in Hg. rewrite Hg, <- app_assoc. reflexivity.
Qed.



End KnownPageCount.




(** ** Termination of the pagination loops *)

Section LoeweFacts.
Context {Row : Type} (env : Env) (info : pyval -> result Row).
Context (base_url body : string) (payload : pyval).

(** Every URL made from [base_url] is an https URL, and every request is
    answered 200 with a payload whose hit list is empty. *)
Hypothesis https_urls :
  forall args, startswith "https://" (lower (url_format env base_url args)) = true.
Hypothesis always_empty :
  forall i url, http_get env i url = Response 200 false body.
Hypothesis decoded : json_loads env body = Some payload.
Hypothesis no_hits : py_get payload "hits" (PList []) = Ok (PList []).

Lemma loewe_get_json_empty (args : list (string * pyval)) (t : trace Row) :
  let url := url_format env base_url args in
  SaintLaurentProductParser.get_json env brand_retries url t
  = (Ok payload, t ++ [EvSessionGet url; EvAttempt url]).
Proof.
  intros url. unfold SaintLaurentProductParser.get_json, session_get.
  unfold bind at 1 2. unfold emit at 1. cbv beta iota.
  rewrite (https_urls args : startswith "https://" (lower url) = true). simpl total.
  rewrite (urlopen_no_retry env brand_retries "GET" url _ _ 200 false body);
    [|apply always_empty | reflexivity].
  unfold fst, snd. unfold bind, lift, response_json. simpl raise_for_status.
  rewrite decoded. unfold ret. now rewrite <- app_assoc.
Qed.

(** With a total of 0 and an offset of 0 the loop takes the [continue]
    branch for ever: whatever the fuel, it is used up, one call of the
    fetcher per unit. *)
Lemma loewe_fetch_loop_diverges (category limit country_code locale site_id : pyval)
    (fuel : nat) :
  forall (t : trace Row) (all_products : list Row),
    let url :=
      LoeweProductParser.page_url env base_url category (PInt 0) limit
        country_code locale site_id in
    exists t',
      LoeweProductParser.fetch_loop env info fuel category base_url limit
        country_code locale site_id 0 (PInt 0) all_products t
      = (OutOfFuel, t')
      /\ fetches t' = fetches t ++ repeat url fuel.
Proof.
  induction fuel as [|fuel IH]; intros t all_products url.
  - exists t. split; [reflexivity|]. simpl. now rewrite app_nil_r.
  - cbn [LoeweProductParser.fetch_loop]. unfold bind at 1. unfold lift at 1.
    cbn [py_le py_number]. cbv beta iota.
    change (Qle_bool (inject_Z 0) (inject_Z 0)) with true. cbn [negb].
    unfold bind at 1. fold url. unfold url at 1. unfold LoeweProductParser.page_url.
    rewrite loewe_get_json_empty. cbv beta iota.
    unfold bind at 1. unfold lift at 1. rewrite no_hits. cbv beta iota.
    cbn [truthy negb].
    destruct (IH (t ++ [EvSessionGet url; EvAttempt url]) all_products)
      as (t' & Hloop & Hf).
    exists t'. split; [exact Hloop|].
    rewrite Hf, fetches_app. simpl. rewrite <- app_assoc. reflexivity.
Qed.

(** The body of the [try] of the Loewe [fetch_data] never returns. *)
Lemma loewe_fetch_data_try_diverges (category limit country_code locale site_id : pyval)
    (fuel : nat) (t : trace Row) :
  exists t',
    LoeweProductParser.fetch_data_try env info fuel category base_url limit
      country_code locale site_id t
    = (OutOfFuel, t')
    /\ length (fetches t') = (length (fetches t) + 1 + fuel)%nat.
Proof.
  unfold LoeweProductParser.fetch_data_try.
  unfold bind at 1. unfold LoeweProductParser.page_url at 1.
  rewrite loewe_get_json_empty. cbv beta iota.
  unfold bind at 1. unfold lift at 1. rewrite no_hits. cbv beta iota.
  unfold bind at 1. unfold lift at 1. cbn [LoeweProductParser.total_products_of truthy].
  cbv beta iota.
  match goal with |- context [LoeweProductParser.fetch_loop _ _ _ _ _ _ _ _ _ _ _ _ ?t0] =>
    destruct (loewe_fetch_loop_diverges category limit country_code locale site_id
                fuel t0 []) as (t' & Hloop & Hf) end.
  exists t'. split; [exact Hloop|].
  rewrite Hf, !length_app, fetches_app, length_app, repeat_length. simpl. lia.
Qed.

End LoeweFacts.

(** For Gucci a first page that declares zero pages is followed by no
    other fetch. *)
Lemma gucci_zero_total_no_more_fetches {Row : Type} (env : Env)
    (info : pyval -> pyval -> result Row) (category : pyval) (base_url : string)
    (locale : pyval) (t : trace Row) (json_data : pyval) (t0 : trace Row) :
  GucciProductParser.get_json env
    (GucciProductParser.page_url env base_url category 0 locale) t = (Ok json_data, t0) ->
  py_get json_data "numberOfPages" (PInt 1) = Ok (PInt 0) ->
  fetches (snd (GucciProductParser.fetch_data env info category base_url locale t))
  = fetches t ++ [GucciProductParser.page_url env base_url category 0 locale].
Proof.
  intros Hprobe HN.
  destruct (gucci_fetch_data_fetches env info category base_url locale t json_data t0 0
              Hprobe HN) as (k & Hk & Hf & _).
  rewrite Hf. simpl in Hk. replace k with 0%nat by lia. reflexivity.
Qed.

(** C3 at the failing input. In the Loewe parser, when every response
    carries an empty hit list (a category without products), the total is 0
    and the loop [while offset <= total_products] runs: each iteration
    fetches, finds no item and takes [continue] without advancing [offset].
    The body of [fetch_data] uses up any amount of fuel, calling the fetcher
    once more per unit; in the example world the whole [fetch_data] never
    returns. *)
Theorem loewe_empty_category_never_returns :
  (forall (Row : Type) (env : Env) (info : pyval -> result Row)
          (base_url body : string) (payload : pyval)
          (category limit country_code locale site_id : pyval)
          (fuel : nat) (t : trace Row),
      (forall args, startswith "https://" (lower (url_format env base_url args)) = true) ->
      (forall i url, http_get env i url = Response 200 false body) ->
      json_loads env body = Some payload ->
      py_get payload "hits" (PList []) = Ok (PList []) ->
      exists t',
        LoeweProductParser.fetch_data_try env info fuel category base_url limit
          country_code locale site_id t
        = (OutOfFuel, t')
        /\ length (fetches t') = (length (fetches t) + 1 + fuel)%nat)
  /\ (forall fuel : nat,
         fst (LoeweProductParser.fetch_data loewe_world (fun product => Ok product) fuel
                (PStr "shoes") "https://loewe.example" loewe_country_dict [])
         = OutOfFuel).
Proof.
  split.
  - intros Row env info base_url body payload category limit country_code locale
      site_id fuel t H1 H2 H3 H4.
    exact (loewe_fetch_data_try_diverges env info base_url body payload H1 H2 H3 H4
             category limit country_code locale site_id fuel t).
  - intros fuel. unfold LoeweProductParser.fetch_data.
    assert (Hb : BearerToken.get_bearer_token (Row := pyval) loewe_world
                   LoeweProductParser.landing_url []
                 = (Ok (Some "t0k3n"),
                    [EvDriverGet LoeweProductParser.landing_url; EvDriverLog]))
      by (vm_compute; reflexivity).
    rewrite (bind_ok _ _ _ _ _ Hb).
    change (BearerToken.no_token (Some "t0k3n")) with false. cbv iota.
    change (py_getitem loewe_country_dict "limit") with (Ok (PInt 20)).
    change (py_getitem loewe_country_dict "country_code") with (Ok (PStr "us")).
    change (py_getitem loewe_country_dict "locale") with (Ok (PStr "en")).
    change (py_getitem loewe_country_dict "site_id") with (Ok (PStr "lw")).
    unfold bind, lift. cbv beta iota.
    destruct (loewe_fetch_data_try_diverges loewe_world (fun product => Ok product)
                "https://loewe.example" "{}" (PDict [("hits", PList [])])
                ltac:(intros args; reflexivity) ltac:(intros i url; reflexivity)
                eq_refl eq_refl
                (PStr "shoes") (PInt 20) (PStr "us") (PStr "en") (PStr "lw") fuel
                [EvDriverGet LoeweProductParser.landing_url; EvDriverLog])
      as (t' & Hd & _).
    unfold try_except.
    cbv beta iota. rewrite Hd. reflexivity.
Qed.

Lemma loewe_empty_category_never_returns_witness :
  exists t',
    LoeweProductParser.fetch_data_try loewe_world (fun product => Ok product) 3
      (PStr "shoes") "https://loewe.example" (PInt 20) (PStr "us") (PStr "en")
      (PStr "lw") []
    = (OutOfFuel, t')
    /\ length (fetches t') = (length (fetches ([] : trace pyval)) + 1 + 3)%nat.
Proof.
  apply (proj1 loewe_empty_category_never_returns pyval loewe_world
           (fun product => Ok product) "https://loewe.example" "{}"
           (PDict [("hits", PList [])])).
  - intros args. reflexivity.
  - intros i url. reflexivity.
  - reflexivity.
  - reflexivity.
Defined.

(** ** Accumulation of the rows *)

Section AccumulationFacts.
Context {Row : Type}.

Lemma for_each_app {St A} (body : St -> A -> M Row St) (l1 l2 : list A) (s : St)
    (t : trace Row) :
  for_each (l1 ++ l2) body s t
  = bind (for_each l1 body s) (fun s1 => for_each l2 body s1) t.
Proof.
  revert s t. induction l1 as [|x l1 IH]; intros s t; simpl.
  - reflexivity.
  - unfold bind. destruct (body s x t) as [[s1| |] t1]; auto.
Qed.

Lemma fetched_app (fetch : pyval -> pyval -> M Row (list Row))
    (ps1 ps2 : list (pyval * pyval)) (t t1 t2 : trace Row) (r1 r2 : list Row) :
  fetched_in_order fetch ps1 t r1 t1 ->
  fetched_in_order fetch ps2 t1 r2 t2 ->
  fetched_in_order fetch (ps1 ++ ps2) t (r1 ++ r2) t2.
Proof.
  intros H1 H2. induction H1; simpl; [exact H2|].
  rewrite <- app_assoc. econstructor; eauto.
Qed.

(** The loop over the categories of one locale, as every accumulating
    parser writes it: all categories are fetched in order and their rows are
    appended to [self.data]. *)
Lemma category_loop (fetch : parser Row -> pyval -> pyval -> M Row (list Row))
    (fetch0 : pyval -> pyval -> M Row (list Row)) (b : string) (locale : pyval) :
  (forall s c l, base_url s = b -> fetch s c l = fetch0 c l) ->
  forall (categories : list pyval) (s : parser Row) (t : trace Row)
         (s' : parser Row) (t' : trace Row),
    base_url s = b ->
    for_each categories
      (fun self category =>
         bind (fetch self category locale)
           (fun category_data => ret (set_data self (data self ++ category_data))))
      s t = (Ok s', t') ->
    exists rows,
      fetched_in_order fetch0 (map (fun c => (locale, c)) categories) t rows t'
      /\ data s' = data s ++ rows /\ base_url s' = b.
Proof.
  intros Hf. induction categories as [|c cs IH]; intros s t s' t' Hb H; simpl in H.
  - injection H as <- <-. exists []. rewrite app_nil_r. repeat split; auto. constructor.
  - apply bind_ok_inv in H as (s1 & t1 & H1 & H2).
    apply bind_ok_inv in H1 as (rows & t0 & Hfetch & Hret).
    injection Hret as <- <-. rewrite (Hf _ _ _ Hb) in Hfetch.
    apply IH in H2 as (rows' & Hrest & Hd & Hb'); [|exact Hb].
    exists (rows ++ rows'). simpl in Hd. rewrite Hd, app_assoc.
    repeat split; auto. simpl. econstructor; eauto.
Qed.

End AccumulationFacts.

Section SaintLaurentFacts.
Context {Row : Type} (env : Env) (info : pyval -> pyval -> result Row).

Lemma saint_laurent_fetch_data_base (s1 s2 : parser Row) (c : pyval) (b : string)
    (l : pyval) :
  base_url s1 = base_url s2 ->
  SaintLaurentProductParser.fetch_data env info s1 c b l
  = SaintLaurentProductParser.fetch_data env info s2 c b l.
Proof.
  intros H. unfold SaintLaurentProductParser.fetch_data,
    SaintLaurentProductParser.fetch_data_try, SaintLaurentProductParser.fetch_page.
  rewrite H. reflexivity.
Qed.

(** The Saint Laurent parser keeps the rows of every locale: after the
    loops, [self.data] is what it was before followed by the rows of every
    (locale, category) pair in processing order. *)
Lemma saint_laurent_collect_all (self : parser Row) (categories : list pyval) :
  forall (locales : list pyval) (s : parser Row) (t : trace Row)
         (s' : parser Row) (t' : trace Row),
    base_url s = base_url self ->
    SaintLaurentProductParser.collect env info s categories locales t = (Ok s', t') ->
    exists rows,
      fetched_in_order
        (fun c l => SaintLaurentProductParser.fetch_data env info self c (base_url self) l)
        (pairs locales categories) t rows t'
      /\ data s' = data s ++ rows /\ base_url s' = base_url self.
Proof.
  induction locales as [|l ls IH]; intros s t s' t' Hb H;
    unfold SaintLaurentProductParser.collect in *; simpl in H.
  - injection H as <- <-. exists []. rewrite app_nil_r. repeat split; auto. constructor.
  - apply bind_ok_inv in H as (s1 & t1 & H1 & H2).
    apply (category_loop
             (fun s c l => SaintLaurentProductParser.fetch_data env info s c (base_url s) l)
             (fun c l => SaintLaurentProductParser.fetch_data env info self c
                           (base_url self) l)
             (base_url self) l) in H1 as (rows1 & Hf1 & Hd1 & Hb1); [| |exact Hb].
    + apply IH in H2 as (rows2 & Hf2 & Hd2 & Hb2); [|exact Hb1].
      exists (rows1 ++ rows2). rewrite Hd2, Hd1, app_assoc. repeat split; auto.
      simpl. eapply fetched_app; eauto.
    + intros s0 c0 l0 Hs0. rewrite Hs0.
      now apply saint_laurent_fetch_data_base.
Qed.

End SaintLaurentFacts.

Section GucciFacts.
Context {Row : Type} (env : Env) (info : pyval -> pyval -> result Row).

(** The Gucci parser empties [self.data] at the start of every locale:
    after the loops it holds the rows of the last locale only. *)
Lemma gucci_collect_last (self : parser Row) (categories locales : list pyval)
    (last : pyval) (t : trace Row) (s' : parser Row) (t' : trace Row) :
  GucciProductParser.collect env info self categories (locales ++ [last]) t = (Ok s', t') ->
  exists s1 t1 rows,
    GucciProductParser.collect env info self categories locales t = (Ok s1, t1)
    /\ fetched_in_order
         (fun c l => GucciProductParser.fetch_data env info c (base_url self) l)
         (map (fun c => (last, c)) categories) t1 rows t'
    /\ data s' = rows.
Proof.
  intros H. unfold GucciProductParser.collect in H. rewrite for_each_app in H.
  apply bind_ok_inv in H as (s1 & t1 & H1 & H2). simpl in H2.
  apply bind_ok_inv in H2 as (s2 & t2 & H2 & Hret). injection Hret as <- <-.
  assert (Hb : base_url s1 = base_url self).
  { revert H1. apply (for_each_invariant (fun s => base_url s = base_url self));
      [|reflexivity].
    clear. intros s l t s' t' Hs H.
    revert H. apply (for_each_invariant (fun s => base_url s = base_url self));
      [|exact Hs].
    clear. intros s c t s' t' Hs H.
    apply bind_ok_inv in H as (rows & t1 & _ & H). now injection H as <- <-. }
  apply (category_loop
           (fun s c l => GucciProductParser.fetch_data env info c (base_url s) l)
           (fun c l => GucciProductParser.fetch_data env info c (base_url self) l)
           (base_url self) last) in H2 as (rows & Hf & Hd & _).
  - exists s1, t1, rows. repeat split; auto.
  - intros s0 c0 l0 Hs0. now rewrite Hs0.
  - exact Hb.
Qed.

End GucciFacts.

(** C1 at the failing input. The Gucci job with one category and the
    locales en-US and it-IT fetches six rows for each locale, and the data
    frame handed to the publisher holds the six rows of it-IT only: those of
    en-US were dropped when [self.data] was reset for the second locale. *)
Theorem gucci_discards_earlier_locales :
  let env := gucci_world true in
  let fetch l :=
    GucciProductParser.fetch_data env keep_product (PStr "bags")
      "https://gucci.example" l in
  let run :=
    GucciProductParser.process_categories env keep_product "https://manager.example"
      gucci_parser [PStr "bags"] [PStr "en-US"; PStr "it-IT"] [] in
  exists rows_en rows_it t1 t2,
    fetch (PStr "en-US") [] = (Ok rows_en, t1)
    /\ fetch (PStr "it-IT") t1 = (Ok rows_it, t2)
    /\ length rows_en = 6%nat /\ length rows_it = 6%nat
    /\ serialized (snd run) = [rows_it]
    /\ serialized (snd run) <> [rows_en ++ rows_it].
Proof.
  cbv zeta. eexists _, _, _, _.
  split; [vm_compute; reflexivity|]. split; [vm_compute; reflexivity|].
  split; [reflexivity|]. split; [reflexivity|].
  split; [vm_compute; reflexivity|].
  vm_compute. discriminate.
Qed.

Lemma normalization_helpers_witness :
  safe_strip (PInt 5) = PInt 5 /\ format_url PNone = Ok "".
Proof.
  destruct normalization_helpers as (_ & H2 & _ & _ & H5).
  split; [apply H2 | apply H5]; reflexivity.
Defined.

(** ** Containment of failures *)

Section TerminationFacts.
Context {Row : Type}.

Lemma terminating_ret {A} (a : A) : terminating (Row := Row) (ret a).
Proof. intros t. discriminate. Qed.

Lemma terminating_raise {A} (e : exn) : terminating (Row := Row) (raise (A := A) e).
Proof. intros t. discriminate. Qed.

Lemma terminating_lift {A} (r : result A) :
  r <> OutOfFuel -> terminating (Row := Row) (lift r).
Proof. intros H t. exact H. Qed.

Lemma terminating_bind {A B} (m : M Row A) (k : A -> M Row B) :
  terminating m -> (forall a, terminating (k a)) -> terminating (bind m k).
Proof.
  intros Hm Hk t. unfold bind. specialize (Hm t).
  destruct (m t) as [[a| |] t1]; simpl in *; try discriminate; [apply Hk | congruence].
Qed.

Lemma terminating_for_each {St A} (body : St -> A -> M Row St) (l : list A) :
  (forall s x, terminating (body s x)) -> forall s, terminating (for_each l body s).
Proof.
  intros Hb. induction l as [|x l IH]; intros s; simpl.
  - apply terminating_ret.
  - apply terminating_bind; auto.
Qed.



Lemma py_get_fuel (v : pyval) (k : string) (d : pyval) : py_get v k d <> OutOfFuel.
Proof. destruct v; discriminate. Qed.

Lemma py_iter_fuel (v : pyval) : py_iter v <> OutOfFuel.
Proof. destruct v; discriminate. Qed.


End TerminationFacts.

Section GucciContainment.
Context {Row : Type} (env : Env) (info : pyval -> pyval -> result Row).
Hypothesis info_terminates : forall c p, info c p <> OutOfFuel.





End GucciContainment.

Section DolceContainment.
Context {Row : Type} (env : Env) (info : pyval -> pyval -> result Row).



End DolceContainment.




(** * Further properties of the agent *)

(** ** Normalisation helpers, continued *)

Lemma lstrip_clean (s : string) : clean (first_char s) -> lstrip s = s.
Proof. destruct s as [|c s]; simpl; [reflexivity|]. now intros ->. Qed.

Lemma rstrip_clean (s : string) : clean (last_char s) -> rstrip s = s.
Proof.
  induction s as [|c s IH]; [reflexivity|].
  destruct s as [|c' s'].
  - simpl. now intros ->.
  - intros H. change (last_char (String c (String c' s')))
                with (last_char (String c' s')) in H.
    change (rstrip (String c (String c' s')))
      with (match rstrip (String c' s') with
            | EmptyString => if py_isspace c then EmptyString else String c EmptyString
            | r => String c r
            end).
    now rewrite (IH H).
Qed.

(** X1. [safe_strip] is idempotent: a stripped value is a fixed point. *)
Theorem safe_strip_idempotent :
  forall v : pyval, safe_strip (safe_strip v) = safe_strip v.
Proof.
  intros [ | | | |s| | ]; try reflexivity. simpl. f_equal.
  destruct (strip_split s) as (l & r & _ & _ & _ & Hf & Hl).
  unfold strip at 1. rewrite (lstrip_clean _ Hf). now apply rstrip_clean.
Qed.

(** X2. Whatever [format_url] returns is the empty string or starts with
    ["http"], and is left unchanged when formatted again; a truthy value
    that is not a string makes it raise. *)
Theorem format_url_shape :
  forall v : pyval,
    (forall r, format_url v = Ok r ->
               (r = "" \/ startswith "http" r = true) /\ format_url (PStr r) = Ok r)
    /\ (truthy v = true -> is_str v = false -> format_url v = Raise OtherException).
Proof.
  intros v. split.
  - unfold format_url. destruct (truthy v) eqn:Ht.
    + destruct v as [ | | | |u| | ]; try discriminate.
      intros r H. injection H as <-.
      destruct (startswith "http" u) eqn:Hu.
      * split; [now right|]. simpl in Ht. simpl. now rewrite Ht, Hu.
      * split; [now right|]. reflexivity.
    + intros r H. injection H as <-. split; [now left | reflexivity].
  - intros Ht Hs. unfold format_url. rewrite Ht. destruct v; simpl in *; congruence.
Qed.

Lemma format_url_shape_witness :
  format_url (PDict [("src", PStr "//cdn.example/a.jpg")]) = Raise OtherException
  /\ format_url (PStr "https://cdn.example/a.jpg") = Ok "https://cdn.example/a.jpg".
Proof.
  split.
  - apply (proj2 (format_url_shape (PDict [("src", PStr "//cdn.example/a.jpg")])));
      reflexivity.
  - apply (proj1 (format_url_shape (PStr "//cdn.example/a.jpg")) "https://cdn.example/a.jpg").
    reflexivity.
Defined.

(** ** [open_link], continued *)

Section OpenLinkMore.
Context {Row : Type} (env : Env).

(** A call either returns a response the server gave, or raises a
    [RequestException]. *)
Lemma urlopen_outcome (r : Retry) (method url : string) (left : nat) (t : trace Row) :
  (exists status body i ra,
      fst (urlopen env left r method url t) = Ok (status, body)
      /\ http_get env i url = Response status ra body)
  \/ fst (urlopen env left r method url t) = Raise RequestException.
Proof.
  revert t. induction left as [|left IH]; intros t; simpl; run_monad.
  - destruct (http_get env (length t) url) as [| |status ra body] eqn:Ha; simpl;
      repeat case_step; auto.
    left. exists status, body, (length t), ra. auto.
  - destruct (http_get env (length t) url) as [| |status ra body] eqn:Ha; simpl;
      repeat case_step; auto.
    left. exists status, body, (length t), ra. auto.
Qed.

Lemma session_get_outcome (mounted : option Retry) (url : string) (t : trace Row) :
  (exists status body i ra,
      fst (session_get env mounted url t) = Ok (status, body)
      /\ http_get env i url = Response status ra body)
  \/ fst (session_get env mounted url t) = Raise RequestException.
Proof.
  unfold session_get. unfold bind at 1. unfold emit. cbv beta iota.
  destruct (startswith "https://" (lower url));
    [|destruct (startswith "http://" (lower url))];
    try apply urlopen_outcome.
  now right.
Qed.

End OpenLinkMore.





(** ** The cleanup of [send_output] *)

Section CleanupFacts.
Context {Row : Type} (env : Env).

Lemma removals_app (t1 t2 : trace Row) : removals (t1 ++ t2) = removals t1 ++ removals t2.
Proof. apply omap_app. Qed.

Lemma upload_removals (file_src save_as : string) (t : trace Row) :
  exists l evs,
    upload_file_to_space env file_src save_as t = (Ok l, t ++ evs)
    /\ removals evs = [].
Proof.
  unfold upload_file_to_space, get_s3_client. run_monad.
  destruct (s3_client env (length t)); simpl.
  - destruct (s3_upload env _ save_as); simpl;
      rewrite <- app_assoc; eexists _, _; split; reflexivity.
  - eexists _, _; split; reflexivity.
Qed.

End CleanupFacts.

(** X5. The two removals of [send_output] sit in one [try]: when no artifact
    name was set, or when removing the artifact raises, the log file is not
    removed; when the artifact is removed and the log file exists, the log
    file is removed next. The notification is posted in every case. *)
Theorem cleanup_stops_at_first_failure :
  forall (Row : Type) (env : Env) (endpoint : string) (self : parser Row)
         (t : trace Row),
    let out := send_output env endpoint self t in
    let t1 := snd (upload_file_to_space env (log_file_name self) (log_file_name self) t) in
    length (posts (snd out)) = S (length (posts t))
    /\ (output_filename self = None -> removals (snd out) = removals t)
    /\ (forall f,
           output_filename self = Some f ->
           path_exists env (length t1) f = true ->
           os_remove env (length t1) f = false ->
           removals (snd out) = removals t ++ [f])
    /\ (forall f,
           output_filename self = Some f ->
           path_exists env (length t1) f = true ->
           os_remove env (length t1) f = true ->
           path_exists env (S (length t1)) (log_file_name self) = true ->
           removals (snd out) = removals t ++ [f; log_file_name self]).
Proof.
  intros Row env endpoint self t. cbv zeta.
  destruct (send_output_spec env endpoint self t) as (l0 & evs0 & _ & Hso & Hp & _).
  split; [rewrite Hso; simpl; rewrite posts_app, Hp, length_app; simpl; lia|].
  clear Hso Hp.
  destruct (upload_removals env (log_file_name self) (log_file_name self) t)
    as (l & evs & Hup & Hrm).
  unfold send_output. rewrite (bind_ok _ _ _ _ _ Hup). rewrite Hup. simpl snd.
  unfold remove_if_exists, post_job_complete, raise_for_status.
  split; [|split].
  - intros Hnone. rewrite Hnone. run_monad.
    repeat case_step; rewrite <- ?app_assoc, !removals_app, Hrm; simpl;
      now rewrite ?app_nil_r.
  - intros f Hf He Hr. rewrite Hf. run_monad. rewrite He. simpl. rewrite Hr. simpl.
    repeat case_step; rewrite <- ?app_assoc, !removals_app, Hrm; reflexivity.
  - intros f Hf He Hr Hl. rewrite Hf. run_monad. rewrite He. simpl. rewrite Hr. simpl.
    rewrite length_app. simpl. rewrite Nat.add_1_r, Hl. simpl.
    repeat case_step; rewrite <- ?app_assoc, !removals_app, Hrm; reflexivity.
Qed.

Lemma cleanup_stops_at_first_failure_witness :
  removals (snd (send_output (gucci_world true) "https://manager.example"
                   gucci_parser [])) = removals ([] : trace pyval).
Proof.
  destruct (cleanup_stops_at_first_failure pyval (gucci_world true)
              "https://manager.example" gucci_parser []) as (_ & H & _).
  apply H. reflexivity.
Defined.

(** ** Jobs with nothing to do *)

(** X6. With an empty list of locales every parser class goes straight to the
    publisher: no fetch is made, the artifact is empty, and one notification
    is posted with count -1. *)
Theorem no_locale_publishes_empty :
  forall (Row : Type) (env : Env) (ex : Extractors Row) (fuel : nat)
         (endpoint : string) (c : parser_class) (job_id base_url : string)
         (categories : list pyval) (t : trace Row),
    exists self' evs params,
      Runner.process_categories env ex fuel endpoint c job_id base_url categories [] t
      = (Ok self', t ++ evs)
      /\ fetches evs = []
      /\ serialized evs = [[]]
      /\ posts evs = [(callback_url endpoint, params)]
      /\ p_count params = -1.
Proof.
  intros Row env ex fuel endpoint c job_id base_url categories t.
  destruct (publish_spec env endpoint (init env job_id (brand_name c) base_url) [] t)
    as (u & t1 & l & evs & _ & _ & Hp & Hposts & Hser & Hf).
  eexists _, evs, _.
  split; [|split; [exact Hf | split; [exact Hser | split; [exact Hposts | reflexivity]]]].
  destruct c; exact Hp.
Qed.

Section NoopLoops.
Context {Row : Type}.

(** A loop whose iterations return at once, recording nothing and keeping
    [P], does the same. *)
Lemma for_each_noop {St A} (P : St -> Prop) (body : St -> A -> M Row St) (l : list A) :
  (forall s x t, P s -> exists s', body s x t = (Ok s', t) /\ P s') ->
  forall s t, P s -> exists s', for_each l body s t = (Ok s', t) /\ P s'.
Proof.
  intros Hb. induction l as [|x l IH]; intros s t Hs; simpl.
  - exists s. auto.
  - destruct (Hb s x t Hs) as (s1 & H1 & Hs1). rewrite (bind_ok _ _ _ _ _ H1). auto.
Qed.

End NoopLoops.

(** X7. With an empty list of categories every parser class except Dolce e
    Gabbana (which then fetches the whole catalogue) and Loro Piana (which
    first reads the keys of each locale descriptor) makes no fetch, whatever
    the locales are, and publishes an empty artifact with count -1. *)
Theorem no_category_publishes_empty :
  forall (Row : Type) (env : Env) (ex : Extractors Row) (fuel : nat)
         (endpoint : string) (c : parser_class) (job_id base_url : string)
         (locales : list pyval) (t : trace Row),
    c <> DolceGabbanaProductParser ->
    c <> LoroPianaProductParser ->
    exists self' evs params,
      Runner.process_categories env ex fuel endpoint c job_id base_url [] locales t
      = (Ok self', t ++ evs)
      /\ fetches evs = []
      /\ serialized evs = [[]]
      /\ posts evs = [(callback_url endpoint, params)]
      /\ p_count params = -1.
Proof.
  intros Row env ex fuel endpoint c job_id base_url locales t Hd Hl.
  set (self := init (Row := Row) env job_id (brand_name c) base_url).
  assert (Hcollect :
    forall (collect : M Row (parser Row)),
      (exists s', collect t = (Ok s', t) /\ data s' = []) ->
      exists self' evs params,
        bind collect (fun s => publish env endpoint s (data s)) t = (Ok self', t ++ evs)
        /\ fetches evs = [] /\ serialized evs = [[]]
        /\ posts evs = [(callback_url endpoint, params)] /\ p_count params = -1).
  { intros collect (s' & Hc & Hdata).
    destruct (publish_spec env endpoint s' [] t)
      as (u & t1 & l & evs & _ & _ & Hp & Hposts & Hser & Hf).
    eexists _, evs, _. rewrite (bind_ok _ _ _ _ _ Hc), Hdata.
    split; [exact Hp|]. split; [exact Hf|]. split; [exact Hser|].
    split; [exact Hposts | reflexivity]. }
  assert (Hloop :
    forall (body : parser Row -> pyval -> M Row (parser Row)),
      (forall s x t0, body s x t0 = (Ok (set_data s []), t0)) ->
      exists s', for_each locales body self t = (Ok s', t) /\ data s' = []).
  { intros body Hb. apply (for_each_noop (fun s => data s = [])); [|reflexivity].
    intros s x t0 _. exists (set_data s []). split; [apply Hb | reflexivity]. }
  destruct c; try contradiction; unfold Runner.process_categories; fold self.
  - apply Hcollect. unfold SaintLaurentProductParser.collect.
    apply (for_each_noop (fun s => data s = [])); [|reflexivity].
    intros s x t0 Hs. exists s. split; [reflexivity | exact Hs].
  - apply Hcollect. apply Hloop. reflexivity.
  - apply Hcollect. apply Hloop. reflexivity.
  - destruct (for_each_noop (Row := Row) (fun rows : list Row => rows = [])
                (fun all_data country_code =>
                   bind (MonclerProductParser.fetch_moncler_products env (moncler_info ex)
                           fuel self [] country_code)
                     (fun some_data => ret (all_data ++ some_data)))
                locales) with (s := @nil Row) (t := t) as (rows & Hc & Hrows);
      [| reflexivity |].
    { intros s x t0 ->. exists []. split; reflexivity. }
    subst rows.
    destruct (publish_spec env endpoint self [] t)
      as (u & t1 & l & evs & _ & _ & Hp & Hposts & Hser & Hf).
    eexists _, evs, _. unfold MonclerProductParser.process_categories,
      MonclerProductParser.collect. rewrite (bind_ok _ _ _ _ _ Hc).
    split; [exact Hp|]. split; [exact Hf|]. split; [exact Hser|].
    split; [exact Hposts | reflexivity].
  - apply Hcollect. apply Hloop. reflexivity.
  - apply Hcollect. apply Hloop. reflexivity.
  - apply Hcollect. apply Hloop. reflexivity.
  - apply Hcollect. apply Hloop. reflexivity.
Qed.

Lemma no_category_publishes_empty_witness :
  exists self' evs params,
    Runner.process_categories (gucci_world true) example_extractors 0
      "https://manager.example" GucciProductParser "J1" "https://gucci.example"
      [] [PStr "en-US"; PStr "it-IT"] ([] : trace pyval)
    = (Ok self', [] ++ evs)
    /\ fetches evs = []
    /\ serialized evs = [[]]
    /\ posts evs = [(callback_url "https://manager.example", params)]
    /\ p_count params = -1.
Proof.
  apply (no_category_publishes_empty pyval (gucci_world true) example_extractors 0%nat
           "https://manager.example" GucciProductParser "J1" "https://gucci.example"
           [PStr "en-US"; PStr "it-IT"] []); discriminate.
Defined.

(** ** The page count of the Gucci parser *)

(** X8. What the Gucci [fetch_data] does with the page count of the first
    response. A count that is not an integer (a string, [null], a float),
    or a payload that is not an object, raises inside the [try]: the
    category yields no row and only the first page was fetched. A count that
    is zero or negative gives no row and no further fetch either. A payload
    without [numberOfPages] counts as one page: page 0 is fetched a second
    time. *)
Theorem gucci_page_count_edge_cases :
  forall (Row : Type) (env : Env) (info : pyval -> pyval -> result Row)
         (category : pyval) (base_url : string) (locale : pyval) (t : trace Row)
         (json_data : pyval) (t0 : trace Row),
    let url0 := GucciProductParser.page_url env base_url category 0 locale in
    let out := GucciProductParser.fetch_data env info category base_url locale t in
    GucciProductParser.get_json env url0 t = (Ok json_data, t0) ->
    (forall v e,
        py_get json_data "numberOfPages" (PInt 1) = Ok v ->
        py_range v = Raise e ->
        out = (Ok [], t0))
    /\ (forall e,
           py_get json_data "numberOfPages" (PInt 1) = Raise e ->
           out = (Ok [], t0))
    /\ (forall N,
           py_get json_data "numberOfPages" (PInt 1) = Ok (PInt N) ->
           N <= 0 ->
           out = (Ok [], t0))
    /\ (forall d,
           json_data = PDict d ->
           assoc "numberOfPages" d = None ->
           fetches (snd out) = fetches t ++ [url0; url0]).
Proof.
  intros Row env info category base_url locale t json_data t0 url0 out Hprobe.
  subst out. unfold GucciProductParser.fetch_data, GucciProductParser.fetch_data_try.
  fold url0. unfold try_except. rewrite (bind_ok _ _ _ _ _ Hprobe).
  split; [|split; [|split]].
  - intros v e Hv Hr. unfold bind, lift. rewrite Hv. cbv beta iota. now rewrite Hr.
  - intros e He. unfold bind, lift. now rewrite He.
  - intros N HN Hle. unfold bind, lift. rewrite HN. cbv beta iota.
    simpl py_range. cbv beta iota. now rewrite (seqZ_nil 0 N Hle).
  - intros d -> Hd. unfold bind at 1. unfold lift at 1.
    unfold py_get. rewrite Hd. cbv beta iota.
    unfold bind at 1. unfold lift at 1. simpl py_range. cbv beta iota.
    change (seqZ 0 1) with [0]. cbn [for_each].
    pose proof (gucci_get_json_fetches env url0 t) as Hg.
    rewrite Hprobe in Hg. simpl in Hg.
    pose proof (gucci_fetch_page_fetches env info category base_url locale [] 0 t0) as Hpage.
    fold url0 in Hpage.
    unfold bind at 1.
    destruct (GucciProductParser.fetch_page env info category base_url locale [] 0 t0)
      as [[rows| |] t1]; simpl in *; rewrite Hpage, Hg, <- app_assoc; reflexivity.
Qed.

Lemma gucci_page_count_edge_cases_witness :
  GucciProductParser.fetch_data
    (world (fun _ => Some (PDict [("numberOfPages", PStr "2")]))
       (fun _ url => PageSource (Some url)) (fun _ => Ok []) (fun _ _ => ConnectError) true)
    keep_product (PStr "bags") "https://gucci.example" (PStr "en-US") []
  = (Ok [],
     [EvDriverGet (format_query "https://gucci.example"
                     [("category", PStr "bags"); ("page", PInt 0);
                      ("locale", PStr "en-US")])]).
Proof.
  destruct (gucci_page_count_edge_cases pyval
              (world (fun _ => Some (PDict [("numberOfPages", PStr "2")]))
                 (fun _ url => PageSource (Some url)) (fun _ => Ok [])
                 (fun _ _ => ConnectError) true)
              keep_product (PStr "bags") "https://gucci.example" (PStr "en-US") []
              (PDict [("numberOfPages", PStr "2")])
              [EvDriverGet (format_query "https://gucci.example"
                              [("category", PStr "bags"); ("page", PInt 0);
                               ("locale", PStr "en-US")])])
    as (H & _).
  - vm_compute. reflexivity.
  - apply (H (PStr "2") OtherException); reflexivity.
Defined.

(** ** What the accumulating loops publish *)

(** X9. In the Gucci parser the data frame handed to the publisher holds the
    rows of the last locale only, whatever was fetched for the locales
    before it. *)
Theorem gucci_publishes_last_locale_only :
  forall (Row : Type) (env : Env) (info : pyval -> pyval -> result Row)
         (endpoint : string) (self : parser Row) (categories locales : list pyval)
         (last : pyval) (t : trace Row) (self' : parser Row) (t' : trace Row),
    GucciProductParser.process_categories env info endpoint self categories
      (locales ++ [last]) t = (Ok self', t') ->
    exists s1 t1 rows t2 evs,
      GucciProductParser.collect env info self categories locales t = (Ok s1, t1)
      /\ fetched_in_order
           (fun c l => GucciProductParser.fetch_data env info c (base_url self) l)
           (map (fun c => (last, c)) categories) t1 rows t2
      /\ t' = t2 ++ evs
      /\ serialized evs = [rows].
Proof.
  intros Row env info endpoint self categories locales last t self' t' H.
  unfold GucciProductParser.process_categories in H.
  apply bind_ok_inv in H as (s2 & t2 & Hc & Hpub).
  apply gucci_collect_last in Hc as (s1 & t1 & rows & Hc & Hf & Hd).
  destruct (publish_spec env endpoint s2 (data s2) t2)
    as (u & t3 & l & evs & _ & _ & Hp & _ & Hser & _).
  rewrite Hp in Hpub. injection Hpub as <- <-.
  exists s1, t1, rows, t2, evs. rewrite Hd in Hser. auto.
Qed.

Lemma gucci_publishes_last_locale_only_witness :
  exists s1 t1 rows t2 (evs : trace pyval),
    GucciProductParser.collect (gucci_world true) keep_product gucci_parser
      [PStr "bags"] [PStr "en-US"] [] = (Ok s1, t1)
    /\ fetched_in_order
         (fun c l => GucciProductParser.fetch_data (gucci_world true) keep_product c
                       (base_url gucci_parser) l)
         (map (fun c => (PStr "it-IT", c)) [PStr "bags"]) t1 rows t2
    /\ serialized evs = [rows].
Proof.
  destruct (gucci_publishes_last_locale_only pyval (gucci_world true) keep_product
              "https://manager.example" gucci_parser [PStr "bags"] [PStr "en-US"]
              (PStr "it-IT") []
              (match fst (GucciProductParser.process_categories (gucci_world true)
                            keep_product "https://manager.example" gucci_parser
                            [PStr "bags"] [PStr "en-US"; PStr "it-IT"] [])
               with Ok p => p | _ => gucci_parser end)
              (snd (GucciProductParser.process_categories (gucci_world true)
                      keep_product "https://manager.example" gucci_parser
                      [PStr "bags"] [PStr "en-US"; PStr "it-IT"] [])))
    as (s1 & t1 & rows & t2 & evs & H1 & H2 & _ & H4).
  - vm_compute. reflexivity.
  - exists s1, t1, rows, t2, evs. auto.
Defined.

(** X10. In the Saint Laurent parser the data frame handed to the publisher is
    what [self.data] held before, followed by the rows of every (locale,
    category) pair in processing order. *)
Theorem saint_laurent_publishes_every_row :
  forall (Row : Type) (env : Env) (info : pyval -> pyval -> result Row)
         (endpoint : string) (self : parser Row) (categories locales : list pyval)
         (t : trace Row) (self' : parser Row) (t' : trace Row),
    SaintLaurentProductParser.process_categories env info endpoint self categories
      locales t = (Ok self', t') ->
    exists rows t1 evs,
      fetched_in_order
        (fun c l => SaintLaurentProductParser.fetch_data env info self c (base_url self) l)
        (pairs locales categories) t rows t1
      /\ t' = t1 ++ evs
      /\ serialized evs = [data self ++ rows].
Proof.
  intros Row env info endpoint self categories locales t self' t' H.
  unfold SaintLaurentProductParser.process_categories in H.
  apply bind_ok_inv in H as (s1 & t1 & Hc & Hpub).
  apply (saint_laurent_collect_all env info self) in Hc as (rows & Hf & Hd & _);
    [|reflexivity].
  destruct (publish_spec env endpoint s1 (data s1) t1)
    as (u & t3 & l & evs & _ & _ & Hp & _ & Hser & _).
  rewrite Hp in Hpub. injection Hpub as <- <-.
  exists rows, t1, evs. rewrite Hd in Hser. auto.
Qed.

Lemma saint_laurent_publishes_every_row_witness :
  exists rows t1 (evs : trace pyval),
    fetched_in_order
      (fun c l => SaintLaurentProductParser.fetch_data saint_laurent_world
                    (fun product hit => Ok product) saint_laurent_parser c
                    (base_url saint_laurent_parser) l)
      (pairs [PStr "en-US"; PStr "fr-FR"] [PStr "bags"]) [] rows t1
    /\ serialized evs = [data saint_laurent_parser ++ rows].
Proof.
  destruct (saint_laurent_publishes_every_row pyval saint_laurent_world
              (fun product hit => Ok product) "https://manager.example"
              saint_laurent_parser [PStr "bags"] [PStr "en-US"; PStr "fr-FR"] []
              (match fst (SaintLaurentProductParser.process_categories
                            saint_laurent_world (fun product hit => Ok product)
                            "https://manager.example" saint_laurent_parser
                            [PStr "bags"] [PStr "en-US"; PStr "fr-FR"] [])
               with Ok p => p | _ => saint_laurent_parser end)
              (snd (SaintLaurentProductParser.process_categories
                      saint_laurent_world (fun product hit => Ok product)
                      "https://manager.example" saint_laurent_parser
                      [PStr "bags"] [PStr "en-US"; PStr "fr-FR"] [])))
    as (rows & t1 & evs & H1 & _ & H3).
  - vm_compute. reflexivity.
  - exists rows, t1, evs. auto.
Defined.

(** ** The Moncler loop *)

Section MonclerFacts.
Context {Row : Type} (env : Env) (info : pyval -> result Row).

Lemma truthy_iter_nonempty (v : pyval) (l : list pyval) :
  truthy v = true -> py_iter v = Ok l -> (1 <= length l)%nat.
Proof.
  intros Ht H. destruct v as [ | | | |s|l0|d]; simpl in *; try discriminate;
    injection H as <-.
  - destruct s; [discriminate | simpl; lia].
  - destruct l0; [discriminate | simpl; lia].
  - destruct d; [discriminate | simpl; lia].
Qed.

Lemma py_getitem_fuel (v : pyval) (k : string) : py_getitem v k <> OutOfFuel.
Proof. destruct v; simpl; try discriminate. destruct (assoc k d); discriminate. Qed.

Lemma py_le_fuel (a b : pyval) : py_le a b <> OutOfFuel.
Proof.
  unfold py_le. destruct (py_number a), (py_number b); try discriminate;
    destruct a; try discriminate; destruct b; discriminate.
Qed.

(** One turn of the loop of [fetch_moncler_products]: after the page load
    (of a URL that does not depend on the offset) the loop either ends, or
    goes on with an offset that has grown and is still below the count the
    page declared. *)
Lemma moncler_step (fuel : nat) (self : parser Row) (category country_code : pyval)
    (offset : Z) (acc : list Row) (t : trace Row) :
  let url :=
    url_format env (base_url self)
      [("category", category); ("country_code", country_code)] in
  let t0 := t ++ [EvDriverGet url] in
  (exists r,
      MonclerProductParser.fetch_loop env info (S fuel) self category country_code
        offset acc t = (r, t0)
      /\ ((forall p, info p <> OutOfFuel) -> r <> OutOfFuel))
  \/ (exists offset' acc' text data d v,
         MonclerProductParser.fetch_loop env info (S fuel) self category country_code
           offset acc t
         = MonclerProductParser.fetch_loop env info fuel self category country_code
             offset' acc' t0
         /\ offset < offset'
         /\ json_loads env text = Some data
         /\ py_getitem data "data" = Ok d
         /\ py_getitem d "count" = Ok v
         /\ py_le v (PInt offset') = Ok false).
Proof.
  intros url t0.
  remember (MonclerProductParser.fetch_loop env info (S fuel) self category
              country_code offset acc t) as res eqn:Hres.
  cbn [MonclerProductParser.fetch_loop] in Hres. fold url in Hres.
  unfold bind at 1 in Hres. unfold emit in Hres. cbv beta iota in Hres. fold t0 in Hres.
  destruct (driver_get env (length t) url) as [|[text|]];
    try (left; eexists; split; [destruct country_code; exact Hres | discriminate]).
  destruct country_code as [ | | | |cc| | ];
    try (left; eexists; split; [exact Hres | discriminate]).
  destruct (json_loads env text) as [data|] eqn:Hdata;
    [|left; eexists; split; [exact Hres | discriminate]].
  unfold bind at 1 in Hres. unfold lift at 1 in Hres.
  destruct (py_getitem data "data") as [d| |] eqn:Hd; cbv beta iota in Hres;
    try (left; eexists; split; [exact Hres | discriminate]);
    [|exfalso; exact (py_getitem_fuel _ _ Hd)].
  unfold bind at 1 in Hres. unfold lift at 1 in Hres.
  destruct (py_getitem d "products") as [products| |] eqn:Hp; cbv beta iota in Hres;
    try (left; eexists; split; [exact Hres | discriminate]);
    [|exfalso; exact (py_getitem_fuel _ _ Hp)].
  destruct (truthy products) eqn:Ht; cbn [negb] in Hres; cbv iota in Hres;
    [|left; eexists; split; [exact Hres | discriminate]].
  unfold bind at 1 in Hres. unfold lift at 1 in Hres.
  destruct (py_iter products) as [its| |] eqn:Hi; cbv beta iota in Hres;
    try (left; eexists; split; [exact Hres | discriminate]);
    [|exfalso; exact (py_iter_fuel _ Hi)].
  unfold bind at 1 in Hres.
  pose proof (silent_rows (Row := Row) info its acc t0) as Hsil.
  destruct (for_each its
              (fun acc0 product =>
                 bind (lift (info product)) (fun row => ret (acc0 ++ [row])))
              acc t0) as [[acc'| |] t1] eqn:Hrows; simpl in Hsil; subst t1;
    cbv beta iota in Hres.
  - unfold bind at 1 in Hres. unfold lift at 1 in Hres. cbv beta iota in Hres.
    unfold bind at 1 in Hres. unfold lift at 1 in Hres.
    destruct (py_getitem d "count") as [v| |] eqn:Hv; cbv beta iota in Hres;
      try (left; eexists; split; [exact Hres | discriminate]);
      [|exfalso; exact (py_getitem_fuel _ _ Hv)].
    unfold bind at 1 in Hres. unfold lift at 1 in Hres.
    destruct (py_le v (PInt (offset + Z.of_nat (length its)))) as [[|]| |] eqn:Hle;
      cbv beta iota in Hres;
      try (left; eexists; split; [exact Hres | discriminate]).
    + right. exists (offset + Z.of_nat (length its)), acc', text, data, d, v.
      pose proof (truthy_iter_nonempty _ _ Ht Hi).
      split; [exact Hres|]. split; [lia|]. auto.
    + exfalso. exact (py_le_fuel _ _ Hle).
  - left. eexists; split; [exact Hres | discriminate].
  - left. eexists; split; [exact Hres|]. intros Hinfo.
    assert (Hterm : terminating (Row := Row)
                      (for_each its
                         (fun acc0 product =>
                            bind (lift (info product)) (fun row => ret (acc0 ++ [row])))
                         acc)).
    { apply terminating_for_each. intros s x.
      apply terminating_bind; [apply terminating_lift, Hinfo|].
      intros row. apply terminating_ret. }
    specialize (Hterm t0). rewrite Hrows in Hterm. exfalso. now apply Hterm.
Qed.

End MonclerFacts.

(** X11. Every page load of the Moncler loop for a category asks for the same
    URL: the offset the loop advances is never sent. *)
Theorem moncler_refetches_same_url :
  forall (Row : Type) (env : Env) (info : pyval -> result Row) (fuel : nat)
         (self : parser Row) (category country_code : pyval) (offset : Z)
         (acc : list Row) (t : trace Row),
    exists n,
      (n <= fuel)%nat
      /\ fetches (snd (MonclerProductParser.fetch_loop env info fuel self category
                         country_code offset acc t))
         = fetches t
           ++ repeat (url_format env (base_url self)
                        [("category", category); ("country_code", country_code)]) n.
Proof.
  intros Row env info fuel self category country_code.
  induction fuel as [|fuel IH]; intros offset acc t.
  - exists 0%nat. simpl. rewrite app_nil_r. auto.
  - destruct (moncler_step env info fuel self category country_code offset acc t)
      as [(r & -> & _) | (offset' & acc' & text & data & d & v & -> & _)].
    + exists 1%nat. split; [lia|]. simpl. now rewrite fetches_app.
    + destruct (IH offset' acc' (t ++ [EvDriverGet
                 (url_format env (base_url self)
                    [("category", category); ("country_code", country_code)])]))
        as (n & Hn & Hf).
      exists (S n). split; [lia|]. rewrite Hf, fetches_app, <- app_assoc. reflexivity.
Qed.

Lemma qle_bool_inject (a b : Z) : Qle_bool (inject_Z a) (inject_Z b) = (a <=? b).
Proof. unfold Qle_bool, inject_Z. simpl. now rewrite !Z.mul_1_r. Qed.

(** X12. The Moncler loop ends when the counts the pages declare are integers
    bounded by [B]: every turn adds at least one to the offset, so
    [B - offset] turns (and at least one) are enough fuel. *)
Theorem moncler_loop_terminates :
  forall (Row : Type) (env : Env) (info : pyval -> result Row) (B : Z) (fuel : nat)
         (self : parser Row) (category country_code : pyval) (offset : Z)
         (acc : list Row) (t : trace Row),
    (forall p, info p <> OutOfFuel) ->
    (forall text data d v,
        json_loads env text = Some data ->
        py_getitem data "data" = Ok d ->
        py_getitem d "count" = Ok v ->
        exists c, v = PInt c /\ c <= B) ->
    (1 <= fuel)%nat ->
    B - offset <= Z.of_nat fuel ->
    fst (MonclerProductParser.fetch_loop env info fuel self category country_code
           offset acc t) <> OutOfFuel.
Proof.
  intros Row env info B fuel self category country_code offset acc t Hinfo Hcount.
  revert offset acc t. induction fuel as [|fuel IH]; intros offset acc t H1 HB; [lia|].
  destruct (moncler_step env info fuel self category country_code offset acc t)
    as [(r & -> & Hr) | (offset' & acc' & text & data & d & v & -> & Hlt & Hd & Hdd & Hv & Hle)].
  - simpl. now apply Hr.
  - destruct (Hcount text data d v Hd Hdd Hv) as (c & -> & Hc).
    unfold py_le in Hle. simpl in Hle. rewrite qle_bool_inject in Hle.
    injection Hle as Hle. apply Z.leb_gt in Hle.
    apply IH; lia.
Qed.

Lemma moncler_loop_terminates_witness :
  fst (MonclerProductParser.fetch_loop moncler_world (fun product => Ok product) 5
         moncler_parser (PStr "coats") (PStr "us/en") 0 [] []) <> OutOfFuel.
Proof.
  apply (moncler_loop_terminates pyval moncler_world (fun product => Ok product) 5).
  - intros p. discriminate.
  - intros text data d v Hd Hdd Hv. injection Hd as <-.
    injection Hdd as <-. injection Hv as <-. exists 5. split; [reflexivity | lia].
  - lia.
  - lia.
Defined.

(** ** The Stone Island loop *)

Section StoneIslandFacts.
Context {Row : Type} (env : Env) (info : pyval -> pyval -> pyval -> result Row).

Lemma session_get_terminating (mounted : option Retry) (url : string) :
  terminating (Row := Row) (session_get env mounted url).
Proof.
  intros t.
  destruct (session_get_outcome env mounted url t) as [(s & b & i & ra & -> & _) | ->];
    discriminate.
Qed.

Lemma http_get_json_terminating (r : Retry) (url : string) :
  terminating (Row := Row) (SaintLaurentProductParser.get_json env r url).
Proof.
  unfold SaintLaurentProductParser.get_json.
  apply terminating_bind; [apply session_get_terminating|].
  intros resp. apply terminating_bind.
  - apply terminating_lift. unfold raise_for_status. repeat case_step; discriminate.
  - intros _. unfold response_json.
    destruct (json_loads env (snd resp)); [apply terminating_ret | apply terminating_raise].
Qed.

Lemma stone_island_get_json_terminating (url : string) :
  terminating (Row := Row) (StoneIslandProductParser.get_json env url).
Proof.
  unfold StoneIslandProductParser.get_json.
  apply terminating_bind; [apply http_get_json_terminating|].
  intros [| | | |s| |]; try apply terminating_ret.
  destruct (json_loads env s); [apply terminating_ret | apply terminating_raise].
Qed.

Lemma stone_island_get_json_fetches (url : string) (t : trace Row) :
  fetches (snd (StoneIslandProductParser.get_json env url t)) = fetches t ++ [url].
Proof.
  unfold StoneIslandProductParser.get_json.
  rewrite bind_silent_snd; [apply http_get_json_fetches|].
  intros [| | | |s| |]; try apply silent_ret.
  destruct (json_loads env s); [apply silent_ret | apply silent_raise].
Qed.

Lemma py_le_int (a b : Z) : py_le (PInt a) (PInt b) = Ok (a <=? b).
Proof. unfold py_le. simpl. now rewrite qle_bool_inject. Qed.

Lemma py_add_int (a b : Z) : py_add (PInt a) (PInt b) = Ok (PInt (a + b)).
Proof. reflexivity. Qed.

(** One turn of the Stone Island loop at an integer [start <= count]: one
    request for the page at [start]; then either the loop is left (a failed
    request or a malformed answer) or it goes on at [start + size]. *)
Lemma stone_island_step (fuel : nat) (self : parser Row)
    (category locale_dict locale : pyval) (s n a : Z) (acc : list Row) (t : trace Row) :
  (forall c p l, info c p l <> OutOfFuel) ->
  a <= n ->
  let u := StoneIslandProductParser.page_url env (base_url self) category
             (PInt s) (PInt a) locale in
  (exists e t1,
      StoneIslandProductParser.fetch_loop env info (S fuel) self category locale_dict
        locale (PInt s) (PInt n) (PInt a) acc t = (Raise e, t1)
      /\ fetches t1 = fetches t ++ [u])
  \/ (exists acc' t1,
        StoneIslandProductParser.fetch_loop env info (S fuel) self category locale_dict
          locale (PInt s) (PInt n) (PInt a) acc t
        = StoneIslandProductParser.fetch_loop env info fuel self category locale_dict
            locale (PInt s) (PInt n) (PInt (a + s)) acc' t1
        /\ fetches t1 = fetches t ++ [u]).
Proof.
  intros Hinfo Han u.
  remember (StoneIslandProductParser.fetch_loop env info (S fuel) self category
              locale_dict locale (PInt s) (PInt n) (PInt a) acc t) as res eqn:Hres.
  cbn [StoneIslandProductParser.fetch_loop] in Hres.
  rewrite py_le_int in Hres. apply Z.leb_le in Han. rewrite Han in Hres.
  unfold bind at 1 in Hres. unfold lift at 1 in Hres. cbv beta iota in Hres.
  cbn [negb] in Hres. unfold bind at 1 in Hres. fold u in Hres.
  pose proof (stone_island_get_json_fetches u t) as Hf.
  pose proof (stone_island_get_json_terminating u t) as Hg.
  destruct (StoneIslandProductParser.get_json env u t) as [[json| |] t1];
    simpl in Hf, Hg; [| left; eauto | congruence].
  unfold bind at 1 in Hres. unfold lift at 1 in Hres.
  destruct (py_get json "data" (PDict [])) as [d| |] eqn:Hd;
    [| left; eauto | exfalso; exact (py_get_fuel _ _ _ Hd)].
  unfold bind at 1 in Hres. unfold lift at 1 in Hres.
  destruct (py_get d "products" (PList [])) as [products| |] eqn:Hp;
    [| left; eauto | exfalso; exact (py_get_fuel _ _ _ Hp)].
  rewrite py_add_int in Hres.
  unfold bind at 1 in Hres. unfold lift at 1 in Hres. cbv beta iota in Hres.
  unfold bind at 1 in Hres. unfold lift at 1 in Hres.
  destruct (py_iter products) as [its| |] eqn:Hi;
    [| left; eauto | exfalso; exact (py_iter_fuel _ Hi)].
  unfold bind at 1 in Hres.
  match type of Hres with context [for_each its ?body acc t1] =>
    pose proof (silent_rows (fun product => info category product locale_dict) its acc t1) as Hs;
    assert (Ht : fst (for_each its body acc t1) <> OutOfFuel)
      by (apply terminating_for_each; intros s0 x;
          apply terminating_bind; [apply terminating_lift, Hinfo | intros; apply terminating_ret]);
    change (snd (for_each its body acc t1) = t1) in Hs;
    destruct (for_each its body acc t1) as [[acc'| |] t2]
  end; simpl in Hs, Ht; subst t2; [| left; eauto | congruence].
  right. exists acc', t1. split; [exact Hres | exact Hf].
Qed.

End StoneIslandFacts.

Lemma stone_island_loop_exit {Row : Type} (env : Env)
    (info : pyval -> pyval -> pyval -> result Row) (fuel : nat) (self : parser Row)
    (category locale_dict locale size : pyval) (n a : Z) (acc : list Row) (t : trace Row) :
  n < a ->
  StoneIslandProductParser.fetch_loop env info fuel self category locale_dict locale
    size (PInt n) (PInt a) acc t = (Ok acc, t).
Proof.
  intros Hlt. apply Z.leb_gt in Hlt.
  destruct fuel; cbn [StoneIslandProductParser.fetch_loop];
    rewrite py_le_int, Hlt; reflexivity.
Qed.

(** X13. With integer [start], [size > 0] and [count], the Stone Island loop
    ends: it requests the pages at [start], [start + size], ... in this
    order, never one whose start exceeds the count, and so makes at most
    [(count - start) / size + 1] requests. *)
Theorem stone_island_pages_bounded :
  forall (Row : Type) (env : Env) (info : pyval -> pyval -> pyval -> result Row)
         (fuel : nat) (self : parser Row) (category locale_dict locale : pyval)
         (s n a : Z) (acc : list Row) (t : trace Row),
    (forall c p l, info c p l <> OutOfFuel) ->
    0 < s ->
    n - a < s * Z.of_nat fuel ->
    exists m : nat,
      fst (StoneIslandProductParser.fetch_loop env info fuel self category locale_dict
             locale (PInt s) (PInt n) (PInt a) acc t) <> OutOfFuel
      /\ fetches (snd (StoneIslandProductParser.fetch_loop env info fuel self category
                         locale_dict locale (PInt s) (PInt n) (PInt a) acc t))
         = fetches t
           ++ map (fun k => StoneIslandProductParser.page_url env (base_url self) category
                              (PInt s) (PInt (a + Z.of_nat k * s)) locale)
                  (seq 0 m)
      /\ (forall k, (k < m)%nat -> a + Z.of_nat k * s <= n).
Proof.
  intros Row env info fuel self category locale_dict locale s n a acc t Hinfo Hs.
  revert a acc t. induction fuel as [|fuel IH]; intros a acc t Hfuel.
  - exists 0%nat. rewrite stone_island_loop_exit by lia. simpl.
    rewrite app_nil_r. repeat split; [discriminate | lia].
  - destruct (Z_lt_le_dec n a) as [Hlt | Hle].
    + exists 0%nat. rewrite stone_island_loop_exit by lia. simpl.
      rewrite app_nil_r. repeat split; [discriminate | lia].
    + destruct (stone_island_step env info fuel self category locale_dict locale
                  s n a acc t Hinfo Hle) as [(e & t1 & -> & Hf) | (acc' & t1 & -> & Hf)].
      * exists 1%nat. simpl. rewrite Hf, Z.add_0_r.
        repeat split; [discriminate|]. intros k Hk. assert (k = 0%nat) as -> by lia. lia.
      * destruct (IH (a + s) acc' t1) as (m & Hok & Hfm & Hb); [lia|].
        exists (S m). split; [exact Hok|]. split.
        -- rewrite Hfm, Hf, <- app_assoc. f_equal. simpl. rewrite Z.add_0_r. f_equal.
           rewrite <- seq_shift, map_map. apply map_ext. intros k. do 2 f_equal. lia.
        -- intros [|k] Hk; [lia|]. specialize (Hb k). lia.
Qed.

Section StoneIslandEdges.
Context {Row : Type} (env : Env) (info : pyval -> pyval -> pyval -> result Row).

(** Whatever happens in the loop, the requests already recorded stay. *)
Lemma stone_island_loop_extends (fuel : nat) (self : parser Row)
    (category locale_dict locale : pyval) (s n a : Z) (acc : list Row) (t : trace Row) :
  (forall c p l, info c p l <> OutOfFuel) ->
  exists rest,
    fetches (snd (StoneIslandProductParser.fetch_loop env info fuel self category
                    locale_dict locale (PInt s) (PInt n) (PInt a) acc t))
    = fetches t ++ rest.
Proof.
  intros Hinfo. revert a acc t. induction fuel as [|fuel IH]; intros a acc t.
  - exists []. cbn [StoneIslandProductParser.fetch_loop]. rewrite py_le_int.
    destruct (a <=? n); simpl; now rewrite app_nil_r.
  - destruct (Z_lt_le_dec n a) as [Hlt | Hle].
    + exists []. rewrite stone_island_loop_exit by lia. simpl. now rewrite app_nil_r.
    + destruct (stone_island_step env info fuel self category locale_dict locale
                  s n a acc t Hinfo Hle) as [(e & t1 & -> & Hf) | (acc' & t1 & -> & Hf)].
      * eexists. exact Hf.
      * destruct (IH (a + s) acc' t1) as (rest & ->). rewrite Hf, <- app_assoc.
        eexists. reflexivity.
Qed.

End StoneIslandEdges.

(** X14. Stone Island asks for the first page twice: once to read the count and
    once more as the first turn of the loop. *)
Theorem stone_island_first_page_twice :
  forall (Row : Type) (env : Env) (info : pyval -> pyval -> pyval -> result Row)
         (fuel : nat) (self : parser Row) (category : pyval)
         (ld : list (string * pyval)) (s n a : Z) (json d : pyval) (t t1 : trace Row),
    let locale := match assoc "locale" ld with Some x => x | None => PStr "" end in
    let u := StoneIslandProductParser.page_url env (base_url self) category
               (PInt s) (PInt a) locale in
    (forall c p l, info c p l <> OutOfFuel) ->
    assoc "size" ld = Some (PInt s) ->
    assoc "start" ld = Some (PInt a) ->
    StoneIslandProductParser.get_json env u t = (Ok json, t1) ->
    py_get json "data" (PDict []) = Ok d ->
    py_get d "count" (PStr "") = Ok (PInt n) ->
    a <= n ->
    exists rest,
      fetches (snd (StoneIslandProductParser.fetch_data env info (S fuel) self category
                      (PDict ld) t))
      = fetches t ++ u :: u :: rest.
Proof.
  intros Row env info fuel self category ld s n a json d t t1 locale u
         Hinfo Hsize Hstart Hget Hd Hn Han.
  pose proof (stone_island_get_json_fetches env u t) as Hf. rewrite Hget in Hf.
  simpl in Hf.
  assert (Hbody : exists rest,
             fetches (snd (StoneIslandProductParser.fetch_data_try env info (S fuel) self
                             category (PDict ld) locale (PInt s) (PInt a) t))
             = fetches t ++ u :: u :: rest).
  { unfold StoneIslandProductParser.fetch_data_try. fold u.
    unfold bind at 1. rewrite Hget.
    unfold bind at 1. unfold lift at 1. rewrite Hd.
    unfold bind at 1. unfold lift at 1. rewrite Hn.
    destruct (stone_island_step env info fuel self category (PDict ld) locale
                s n a [] t1 Hinfo Han) as [(e & t2 & -> & Hf2) | (acc' & t2 & -> & Hf2)].
    - exists []. simpl. fold u in Hf2. rewrite Hf2, Hf, <- app_assoc. reflexivity.
    - destruct (stone_island_loop_extends env info fuel self category (PDict ld) locale
                  s n (a + s) acc' t2 Hinfo) as (rest & ->).
      exists rest. fold u in Hf2. rewrite Hf2, Hf, <- !app_assoc. reflexivity. }
  destruct Hbody as (rest & Hbody). exists rest.
  unfold StoneIslandProductParser.fetch_data, py_get.
  rewrite Hsize, Hstart. fold locale.
  unfold bind at 1. unfold lift at 1. unfold bind at 1. unfold lift at 1.
  unfold bind at 1. unfold lift at 1.
  unfold try_except.
  destruct (StoneIslandProductParser.fetch_data_try env info (S fuel) self category
              (PDict ld) locale (PInt s) (PInt a) t) as [[x| |] t2]; exact Hbody.
Qed.

(** X15. If the first Stone Island answer carries no count, the default [""]
    cannot be compared with an integer [start]: the category gives no
    rows after exactly one request. *)
Theorem stone_island_missing_count :
  forall (Row : Type) (env : Env) (info : pyval -> pyval -> pyval -> result Row)
         (fuel : nat) (self : parser Row) (category : pyval)
         (ld dd : list (string * pyval)) (a : Z) (json : pyval) (t t1 : trace Row),
    let locale := match assoc "locale" ld with Some x => x | None => PStr "" end in
    let size := match assoc "size" ld with Some x => x | None => PStr "" end in
    let u := StoneIslandProductParser.page_url env (base_url self) category
               size (PInt a) locale in
    assoc "start" ld = Some (PInt a) ->
    StoneIslandProductParser.get_json env u t = (Ok json, t1) ->
    py_get json "data" (PDict []) = Ok (PDict dd) ->
    assoc "count" dd = None ->
    StoneIslandProductParser.fetch_data env info fuel self category (PDict ld) t
    = (Ok [], t1)
    /\ fetches t1 = fetches t ++ [u].
Proof.
  intros Row env info fuel self category ld dd a json t t1 locale size u
         Hstart Hget Hd Hcount.
  split.
  - unfold StoneIslandProductParser.fetch_data, py_get at 1 2 3.
    rewrite Hstart. fold locale. fold size.
    unfold bind at 1. unfold lift at 1. unfold bind at 1. unfold lift at 1.
    unfold bind at 1. unfold lift at 1.
    unfold try_except, StoneIslandProductParser.fetch_data_try. fold u.
    unfold bind at 1. rewrite Hget.
    unfold bind at 1. unfold lift at 1. rewrite Hd.
    unfold bind at 1. unfold lift at 1. unfold py_get. rewrite Hcount.
    destruct fuel; cbn [StoneIslandProductParser.fetch_loop]; reflexivity.
  - pose proof (stone_island_get_json_fetches env u t) as Hf. now rewrite Hget in Hf.
Qed.

Lemma stone_island_pages_bounded_witness :
  exists m : nat,
    fst (StoneIslandProductParser.fetch_loop stone_island_world
           (fun _ product _ => Ok product) 2 stone_island_parser (PStr "coats")
           (PDict stone_island_locale) (PStr "en-us") (PInt 2) (PInt 3) (PInt 0) [] [])
    <> OutOfFuel
    /\ fetches (snd (StoneIslandProductParser.fetch_loop stone_island_world
                       (fun _ product _ => Ok product) 2 stone_island_parser (PStr "coats")
                       (PDict stone_island_locale) (PStr "en-us") (PInt 2) (PInt 3)
                       (PInt 0) [] []))
       = fetches ([] : trace pyval)
         ++ map (fun k => StoneIslandProductParser.page_url stone_island_world
                            (base_url stone_island_parser) (PStr "coats") (PInt 2)
                            (PInt (0 + Z.of_nat k * 2)) (PStr "en-us"))
                (seq 0 m)
    /\ (forall k, (k < m)%nat -> 0 + Z.of_nat k * 2 <= 3).
Proof.
  apply (stone_island_pages_bounded pyval stone_island_world
           (fun _ product _ => Ok product) 2 stone_island_parser (PStr "coats")
           (PDict stone_island_locale) (PStr "en-us") 2 3 0 [] []).
  - intros c p l. discriminate.
  - lia.
  - lia.
Defined.

Lemma stone_island_first_page_twice_witness :
  exists rest,
    fetches (snd (StoneIslandProductParser.fetch_data stone_island_world
                    (fun _ product _ => Ok product) 2 stone_island_parser (PStr "coats")
                    (PDict stone_island_locale) []))
    = fetches ([] : trace pyval)
      ++ StoneIslandProductParser.page_url stone_island_world
           (base_url stone_island_parser) (PStr "coats") (PInt 2) (PInt 0) (PStr "en-us")
         :: StoneIslandProductParser.page_url stone_island_world
              (base_url stone_island_parser) (PStr "coats") (PInt 2) (PInt 0) (PStr "en-us")
         :: rest.
Proof.
  eapply (stone_island_first_page_twice pyval stone_island_world
            (fun _ product _ => Ok product) 1 stone_island_parser (PStr "coats")
            stone_island_locale 2 3 0).
  - intros c p l. discriminate.
  - reflexivity.
  - reflexivity.
  - lazy. reflexivity.
  - reflexivity.
  - reflexivity.
  - lia.
Defined.

Lemma stone_island_missing_count_witness :
  StoneIslandProductParser.fetch_data stone_island_bare_world
    (fun _ product _ => Ok product) 2 stone_island_parser (PStr "coats")
    (PDict stone_island_locale) []
  = (Ok [],
     [EvSessionGet 
        (StoneIslandProductParser.page_url stone_island_bare_world
          (base_url stone_island_parser) (PStr "coats") (PInt 2) (PInt 0) (PStr "en-us"));
      EvAttempt
        (StoneIslandProductParser.page_url stone_island_bare_world
          (base_url stone_island_parser) (PStr "coats") (PInt 2) (PInt 0) (PStr "en-us"))])
  /\ fetches ([EvSessionGet 
        (StoneIslandProductParser.page_url stone_island_bare_world
          (base_url stone_island_parser) (PStr "coats") (PInt 2) (PInt 0) (PStr "en-us"));
               EvAttempt
        (StoneIslandProductParser.page_url stone_island_bare_world
          (base_url stone_island_parser) (PStr "coats") (PInt 2) (PInt 0) (PStr "en-us"))] : trace pyval)
     = fetches ([] : trace pyval)
       ++ [StoneIslandProductParser.page_url stone_island_bare_world
             (base_url stone_island_parser) (PStr "coats") (PInt 2) (PInt 0)
             (PStr "en-us")].
Proof.
  apply (stone_island_missing_count pyval stone_island_bare_world
           (fun _ product _ => Ok product) 2 stone_island_parser (PStr "coats")
           stone_island_locale [("products", PList [])] 0
           (PDict [("data", PDict [("products", PList [])])]) []
           [EvSessionGet 
        (StoneIslandProductParser.page_url stone_island_bare_world
          (base_url stone_island_parser) (PStr "coats") (PInt 2) (PInt 0) (PStr "en-us"));
            EvAttempt
        (StoneIslandProductParser.page_url stone_island_bare_world
          (base_url stone_island_parser) (PStr "coats") (PInt 2) (PInt 0) (PStr "en-us"))]).
  - reflexivity.
  - vm_compute. reflexivity.
  - reflexivity.
  - reflexivity.
Defined.

(** ** A job notifies at most once *)

Section QuietFacts.
Context {Row : Type} (env : Env).

Lemma quiet_ret {A} (a : A) : quiet (Row := Row) (ret a).
Proof. intros t. split; reflexivity. Qed.

Lemma quiet_raise {A} (e : exn) : quiet (Row := Row) (raise (A := A) e).
Proof. intros t. split; reflexivity. Qed.

Lemma quiet_out_of_fuel {A} : quiet (Row := Row) (out_of_fuel (A := A)).
Proof. intros t. split; reflexivity. Qed.

Lemma quiet_lift {A} (r : result A) : quiet (Row := Row) (lift r).
Proof. intros t. split; reflexivity. Qed.

Lemma quiet_emit (e : event Row) :
  post_of e = None -> csv_of e = None -> quiet (emit e).
Proof.
  intros Hp Hc t. unfold emit. simpl. rewrite posts_app, serialized_app.
  unfold posts, serialized. simpl. rewrite Hp, Hc. simpl. now rewrite !app_nil_r.
Qed.

Lemma quiet_bind {A B} (m : M Row A) (k : A -> M Row B) :
  quiet m -> (forall a, quiet (k a)) -> quiet (bind m k).
Proof.
  intros Hm Hk t. unfold bind. specialize (Hm t).
  destruct (m t) as [[a| |] t1]; simpl in *; auto.
  destruct (Hk a t1) as [H1 H2]. destruct Hm as [H3 H4]. split; congruence.
Qed.

Lemma quiet_for_each {St A} (body : St -> A -> M Row St) (l : list A) :
  (forall s x, quiet (body s x)) -> forall s, quiet (for_each l body s).
Proof.
  intros Hb. induction l as [|x l IH]; intros s; simpl.
  - apply quiet_ret.
  - apply quiet_bind; auto.
Qed.

Lemma quiet_try_except {A} (m h : M Row A) : quiet m -> quiet h -> quiet (try_except m h).
Proof.
  intros Hm Hh t. unfold try_except. specialize (Hm t).
  destruct (m t) as [[a|e|] t1]; simpl in *; auto.
  destruct (Hh t1) as [H1 H2]. destruct Hm as [H3 H4]. split; congruence.
Qed.

Lemma quiet_try_except_request {A} (m h : M Row A) :
  quiet m -> quiet h -> quiet (try_except_request m h).
Proof.
  intros Hm Hh t. unfold try_except_request. specialize (Hm t).
  destruct (m t) as [[a|[|]|] t1]; simpl in *; auto.
  destruct (Hh t1) as [H1 H2]. destruct Hm as [H3 H4]. split; congruence.
Qed.

Lemma quiet_urlopen (left : nat) (r : Retry) (method url : string) :
  quiet (Row := Row) (urlopen env left r method url).
Proof.
  intros t. destruct (urlopen_attempts_bound env r method url left t) as (n & -> & _).
  rewrite posts_app, serialized_app.
  assert (H : posts (repeat (EvAttempt (Row := Row) url) n) = []
              /\ serialized (repeat (EvAttempt (Row := Row) url) n) = []).
  { induction n as [|n [IH1 IH2]]; split; auto. }
  destruct H as [-> ->]. now rewrite !app_nil_r.
Qed.

Lemma quiet_session_get (mounted : option Retry) (url : string) :
  quiet (Row := Row) (session_get env mounted url).
Proof.
  unfold session_get. apply quiet_bind; [now apply quiet_emit|]. intros _.
  destruct (startswith "https://" (lower url));
    [|destruct (startswith "http://" (lower url))];
    auto using quiet_urlopen, quiet_raise.
Qed.

End QuietFacts.

Ltac quiet_step :=
  cbv beta zeta;
  match goal with
  | H : context [quiet _] |- quiet _ => solve [apply H]
  | |- quiet (bind _ _) => apply quiet_bind; [|intros ?]
  | |- quiet (ret _) => apply quiet_ret
  | |- quiet (raise _) => apply quiet_raise
  | |- quiet out_of_fuel => apply quiet_out_of_fuel
  | |- quiet (lift _) => apply quiet_lift
  | |- quiet (emit _) => apply quiet_emit; reflexivity
  | |- quiet (for_each _ _ _) => apply quiet_for_each; intros ? ?
  | |- quiet (try_except _ _) => apply quiet_try_except
  | |- quiet (try_except_request _ _) => apply quiet_try_except_request
  | |- quiet (session_get _ _ _) => apply quiet_session_get
  | |- quiet (if ?b then _ else _) => destruct b
  | |- quiet (match ?x with _ => _ end) => destruct x
  end.

Ltac quiet_tac := repeat quiet_step.

Section QuietFetchers.
Context {Row : Type} (env : Env).

Lemma quiet_http_get_json (r : Retry) (url : string) :
  quiet (Row := Row) (SaintLaurentProductParser.get_json env r url).
Proof. unfold SaintLaurentProductParser.get_json, response_json. quiet_tac. Qed.

Lemma quiet_gucci_collect (info : pyval -> pyval -> result Row) (self : parser Row)
    (categories locales : list pyval) :
  quiet (GucciProductParser.collect env info self categories locales).
Proof.
  unfold GucciProductParser.collect, GucciProductParser.fetch_data,
    GucciProductParser.fetch_data_try, GucciProductParser.fetch_page,
    GucciProductParser.get_json.
  quiet_tac.
Qed.

Lemma quiet_saint_laurent_collect (info : pyval -> pyval -> result Row)
    (self : parser Row) (categories locales : list pyval) :
  quiet (SaintLaurentProductParser.collect env info self categories locales).
Proof.
  unfold SaintLaurentProductParser.collect, SaintLaurentProductParser.fetch_data,
    SaintLaurentProductParser.fetch_data_try, SaintLaurentProductParser.fetch_page.
  pose proof quiet_http_get_json. quiet_tac.
Qed.

Lemma quiet_mcqueen_collect (info : pyval -> pyval -> result Row)
    (self : parser Row) (category_dicts locales : list pyval) :
  quiet (AlexanderMcqueenParser.collect env info self category_dicts locales).
Proof.
  unfold AlexanderMcqueenParser.collect, AlexanderMcqueenParser.fetch_data_val,
    AlexanderMcqueenParser.fetch_data, AlexanderMcqueenParser.fetch_data_try,
    AlexanderMcqueenParser.fetch_page.
  pose proof quiet_http_get_json. quiet_tac.
Qed.

Lemma quiet_loro_piana_collect (info : pyval -> result Row)
    (self : parser Row) (categories country_dicts : list pyval) :
  quiet (LoroPianaProductParser.collect env info self categories country_dicts).
Proof.
  unfold LoroPianaProductParser.collect, LoroPianaProductParser.fetch_data,
    LoroPianaProductParser.fetch_data_try, LoroPianaProductParser.fetch_page.
  pose proof quiet_http_get_json. quiet_tac.
Qed.

Lemma quiet_get_bearer_token (url : string) :
  quiet (Row := Row) (BearerToken.get_bearer_token env url).
Proof. unfold BearerToken.get_bearer_token. quiet_tac. Qed.

Lemma quiet_dolce_loop (info : pyval -> pyval -> result Row) (fuel : nat)
    (self : parser Row) (category info_dict offset : pyval) (acc : list Row) :
  quiet (DolceGabbanaProductParser.fetch_loop env info fuel self category info_dict
           offset acc).
Proof.
  revert offset acc. induction fuel as [|fuel IH]; intros offset acc;
    cbn [DolceGabbanaProductParser.fetch_loop]; unfold response_json; quiet_tac.
Qed.

Lemma quiet_dolce_collect (info : pyval -> pyval -> result Row) (fuel : nat)
    (self : parser Row) (categories info_dicts : list pyval) :
  quiet (DolceGabbanaProductParser.collect env info fuel self categories info_dicts).
Proof.
  unfold DolceGabbanaProductParser.collect, DolceGabbanaProductParser.fetch_products.
  pose proof quiet_get_bearer_token. pose proof quiet_dolce_loop. quiet_tac.
Qed.

Lemma quiet_loewe_loop (info : pyval -> result Row) (fuel : nat) (category : pyval)
    (base_url : string) (limit country_code locale site_id : pyval) (total : Z)
    (offset : pyval) (acc : list Row) :
  quiet (LoeweProductParser.fetch_loop env info fuel category base_url limit
           country_code locale site_id total offset acc).
Proof.
  pose proof quiet_http_get_json.
  revert offset acc. induction fuel as [|fuel IH]; intros offset acc;
    cbn [LoeweProductParser.fetch_loop]; quiet_tac.
Qed.

Lemma quiet_loewe_collect (info : pyval -> result Row) (fuel : nat)
    (self : parser Row) (categories country_dicts : list pyval) :
  quiet (LoeweProductParser.collect env info fuel self categories country_dicts).
Proof.
  unfold LoeweProductParser.collect, LoeweProductParser.fetch_data,
    LoeweProductParser.fetch_data_try.
  pose proof quiet_get_bearer_token. pose proof quiet_loewe_loop.
  pose proof quiet_http_get_json. quiet_tac.
Qed.

Lemma quiet_stone_island_loop (info : pyval -> pyval -> pyval -> result Row)
    (fuel : nat) (self : parser Row) (category locale_dict locale size n start : pyval)
    (acc : list Row) :
  quiet (StoneIslandProductParser.fetch_loop env info fuel self category locale_dict
           locale size n start acc).
Proof.
  pose proof quiet_http_get_json.
  revert start acc. induction fuel as [|fuel IH]; intros start acc;
    cbn [StoneIslandProductParser.fetch_loop];
    unfold StoneIslandProductParser.get_json; quiet_tac.
Qed.

Lemma quiet_stone_island_collect (info : pyval -> pyval -> pyval -> result Row)
    (fuel : nat) (self : parser Row) (categories locale_dicts : list pyval) :
  quiet (StoneIslandProductParser.collect env info fuel self categories locale_dicts).
Proof.
  unfold StoneIslandProductParser.collect, StoneIslandProductParser.fetch_data,
    StoneIslandProductParser.fetch_data_try, StoneIslandProductParser.get_json.
  pose proof quiet_stone_island_loop. pose proof quiet_http_get_json. quiet_tac.
Qed.

Lemma quiet_moncler_loop (info : pyval -> result Row) (fuel : nat) (self : parser Row)
    (category country_code : pyval) (offset : Z) (acc : list Row) :
  quiet (MonclerProductParser.fetch_loop env info fuel self category country_code
           offset acc).
Proof.
  revert offset acc. induction fuel as [|fuel IH]; intros offset acc;
    cbn [MonclerProductParser.fetch_loop]; quiet_tac.
Qed.

Lemma quiet_moncler_collect (info : pyval -> result Row) (fuel : nat)
    (self : parser Row) (categories country_codes : list pyval) :
  quiet (MonclerProductParser.collect env info fuel self categories country_codes).
Proof.
  unfold MonclerProductParser.collect, MonclerProductParser.fetch_moncler_products.
  pose proof quiet_moncler_loop. quiet_tac.
Qed.

Lemma quiet_html_collect
    (fetch_data : parser Row -> pyval -> pyval -> M Row (list Row))
    (self : parser Row) (categories locales : list pyval) :
  (forall s c l, quiet (fetch_data s c l)) ->
  quiet (HtmlParser.collect fetch_data self categories locales).
Proof. intros Hf. unfold HtmlParser.collect. quiet_tac. Qed.

End QuietFetchers.

Section JobNotification.
Context {Row : Type} (env : Env).

Lemma publish_after_quiet {A} (m : M Row A) (f : A -> parser Row) (g : A -> list Row)
    (endpoint : string) (t : trace Row) :
  quiet m ->
  notifies_once endpoint t
    (snd (bind m (fun x => publish env endpoint (f x) (g x)) t))
    (returned (fst (bind m (fun x => publish env endpoint (f x) (g x)) t))).
Proof.
  intros Hm. destruct (Hm t) as [Hp Hs]. unfold bind.
  destruct (m t) as [[x| |] t1]; simpl in Hp, Hs.
  - destruct (publish_spec env endpoint (f x) (g x) t1)
      as (u & t2 & l & evs & _ & _ & -> & Hposts & Hser & _).
    simpl. eexists. rewrite posts_app, serialized_app, Hposts, Hser, Hp, Hs.
    split; [reflexivity|]. split; [simpl; lia|]. split.
    + intros p Hin. inversion Hin as [|? ? ? Hin']; subst; [reflexivity | inversion Hin'].
    + split; [now rewrite length_app | discriminate].
  - exists []. simpl. rewrite Hp, Hs, !app_nil_r. repeat split; auto.
    intros p Hin. inversion Hin.
  - exists []. simpl. rewrite Hp, Hs, !app_nil_r. repeat split; auto.
    intros p Hin. inversion Hin.
Qed.

Lemma process_categories_notifies_once (ex : Extractors Row) (fuel : nat)
    (endpoint : string) (c : parser_class) (job_id base_url : string)
    (categories locales : list pyval) (t : trace Row) :
  (forall self category locale, quiet (chloe_scrape ex self category locale)) ->
  (forall self category locale, quiet (canada_goose_scrape ex self category locale)) ->
  notifies_once endpoint t
    (snd (Runner.process_categories env ex fuel endpoint c job_id base_url
            categories locales t))
    (returned (fst (Runner.process_categories env ex fuel endpoint c job_id base_url
                      categories locales t))).
Proof.
  intros Hchloe Hgoose. destruct c; cbn [Runner.process_categories].
  - apply (publish_after_quiet _ (fun s => s) (fun s => data s)),
      quiet_saint_laurent_collect.
  - apply (publish_after_quiet _ (fun s => s) (fun s => data s)), quiet_gucci_collect.
  - apply (publish_after_quiet _ (fun s => s) (fun s => data s)), quiet_mcqueen_collect.
  - apply (publish_after_quiet _ (fun _ => _) (fun rows => rows)), quiet_moncler_collect.
  - apply (publish_after_quiet _ (fun s => s) (fun s => data s)),
      quiet_loro_piana_collect.
  - apply (publish_after_quiet _ (fun s => s) (fun s => data s)), quiet_loewe_collect.
  - apply (publish_after_quiet _ (fun st => fst st) (fun st => data (fst st))),
      quiet_dolce_collect.
  - apply (publish_after_quiet _ (fun s => s) (fun s => data s)),
      quiet_stone_island_collect.
  - apply (publish_after_quiet _ (fun s => s) (fun s => data s)), quiet_html_collect.
    intros s c l. unfold HtmlParser.chloe_fetch_data. quiet_tac.
  - apply (publish_after_quiet _ (fun s => s) (fun s => data s)), quiet_html_collect.
    intros s c l. unfold HtmlParser.canada_goose_fetch_data. quiet_tac.
Qed.

Lemma fetch_settings_result (source : settings_answer) (t : trace Row) :
  fetch_settings source t
  = (match source with
     | SettingsError RequestException => Ok None
     | SettingsError OtherException => Raise OtherException
     | SettingsFile s => Ok (Some s)
     end, t ++ [EvSettingsGet]).
Proof.
  unfold fetch_settings, try_except_request, bind, emit, raise, ret.
  destruct source as [[|]|s]; reflexivity.
Qed.

End JobNotification.

(** X16. A job sends at most one completion notification, always to the
    callback of the endpoint it was given and right after serialising one
    artifact; a job that does not run to its end sends none. *)
Theorem job_notifies_at_most_once :
  forall (Row : Type) (env : Env) (ex : Extractors Row) (source : settings_answer)
         (fuel : nat) (endpoint job_id brand_id : string) (t : trace Row),
    (forall self category locale, quiet (chloe_scrape ex self category locale)) ->
    (forall self category locale, quiet (canada_goose_scrape ex self category locale)) ->
    let out := run_parser env ex source fuel endpoint job_id brand_id t in
    exists l,
      posts (snd out) = posts t ++ l
      /\ (length l <= 1)%nat
      /\ (forall p, p ∈ l -> fst p = callback_url endpoint)
      /\ length (serialized (snd out)) = (length (serialized t) + length l)%nat
      /\ (fst out <> Ok tt -> l = []).
Proof.
  intros Row env ex source fuel endpoint job_id brand_id t Hchloe Hgoose out.
  assert (Hcases :
    (exists r, out = (r, t ++ [EvSettingsGet]))
    \/ (exists c bs,
          out = bind (Runner.process_categories env ex fuel endpoint c job_id
                        (Base_URL bs) (Categories bs) (Locales bs))
                  (fun _ => ret tt) (t ++ [EvSettingsGet]))).
  { assert (Hout : out = run_parser env ex source fuel endpoint job_id brand_id t)
      by reflexivity.
    clearbody out. unfold run_parser in Hout. unfold bind at 1 in Hout.
    rewrite fetch_settings_result in Hout.
    destruct source as [[|]|s]; [left; eexists; exact Hout ..|].
    cbv beta iota in Hout.
    destruct (bool_decide (s = ∅)); [left; eexists; exact Hout|].
    destruct (s !! brand_id) as [bs|]; [|left; eexists; exact Hout].
    destruct (parsers !! brand_id) as [c|]; [|left; eexists; exact Hout].
    right. exists c, bs. exact Hout. }
  destruct Hcases as [(r & ->) | (c & bs & ->)].
  - exists []. simpl. rewrite posts_app, serialized_app. simpl.
    rewrite !app_nil_r. repeat split; auto. intros p Hin. inversion Hin.
  - destruct (process_categories_notifies_once env ex fuel endpoint c job_id (Base_URL bs)
                (Categories bs) (Locales bs) (t ++ [EvSettingsGet]) Hchloe Hgoose)
      as (l & Hp & Hlen & Hurl & Hser & Hfail).
    exists l. unfold bind.
    destruct (Runner.process_categories env ex fuel endpoint c job_id (Base_URL bs)
                (Categories bs) (Locales bs) (t ++ [EvSettingsGet])) as [[p| |] t1];
      simpl in *; rewrite Hp, Hser, posts_app, serialized_app; simpl;
      rewrite !app_nil_r; repeat split; auto; intros H; now destruct H.
Qed.

Lemma job_notifies_at_most_once_witness :
  exists l,
    posts (snd (run_parser (gucci_world true) example_extractors
                  (SettingsFile gucci_settings) 0 "https://manager.example" "J1" "229" []))
    = posts ([] : trace pyval) ++ l
    /\ (length l <= 1)%nat
    /\ (forall p, p ∈ l -> fst p = callback_url "https://manager.example")
    /\ length (serialized (snd (run_parser (gucci_world true) example_extractors
                                  (SettingsFile gucci_settings) 0
                                  "https://manager.example" "J1" "229" [])))
       = (length (serialized ([] : trace pyval)) + length l)%nat
    /\ (fst (run_parser (gucci_world true) example_extractors
               (SettingsFile gucci_settings) 0 "https://manager.example" "J1" "229" [])
        <> Ok tt -> l = []).
Proof.
  apply (job_notifies_at_most_once pyval (gucci_world true) example_extractors
           (SettingsFile gucci_settings) 0%nat "https://manager.example" "J1" "229" []).
  - intros self category locale t. split; reflexivity.
  - intros self category locale t. split; reflexivity.
Defined.

(** ** The bearer token read from the browser log *)

Lemma startswith_space (a : ascii) (s : string) :
  startswith " " (String a s) = Ascii.eqb " " a.
Proof. unfold startswith. apply andb_true_r. Qed.

Lemma contains_space_cons (a : ascii) (s : string) :
  contains " " (String a s) = Ascii.eqb " " a || contains " " s.
Proof. cbn [contains]. now rewrite startswith_space. Qed.

Lemma contains_space_snoc (cur : string) (c : ascii) :
  contains " " (cur +:+ String c EmptyString)
  = contains " " cur || Ascii.eqb " " c.
Proof.
  induction cur as [|a cur IH].
  - change (EmptyString +:+ String c EmptyString) with (String c EmptyString).
    rewrite contains_space_cons. cbn [contains]. unfold startswith.
    now destruct (Ascii.eqb " " c).
  - change (String a cur +:+ String c EmptyString)
      with (String a (cur +:+ String c EmptyString)).
    rewrite !contains_space_cons, IH. now rewrite orb_assoc.
Qed.

Lemma split_last_no_space (s cur : string) :
  contains " " cur = false -> contains " " (split_last cur s) = false.
Proof.
  revert cur. induction s as [|c s IH]; intros cur Hcur; cbn [split_last]; [exact Hcur|].
  destruct (Ascii.eqb c " ") eqn:Hc.
  - apply IH. reflexivity.
  - apply IH. rewrite contains_space_snoc, Hcur. cbn [orb].
    rewrite Ascii.eqb_sym. exact Hc.
Qed.

(** X17. A token returned by the scan of the browser log is what follows the
    last space of the [Authorization] header of an entry that mentions
    [Bearer] and whose header starts with ["Bearer "]; it has no space, and
    every earlier entry that mentions [Bearer] could be decoded. *)
Theorem bearer_token_provenance :
  forall (env : Env) (logs : list string) (token : string),
    BearerToken.scan_logs env logs = Ok (Some token) ->
    contains " " token = false
    /\ exists before entry after auth,
         logs = before ++ entry :: after
         /\ contains "Bearer" entry = true
         /\ BearerToken.authorization_of env entry = Ok (PStr auth)
         /\ startswith "Bearer " auth = true
         /\ token = split_last "" auth
         /\ BearerToken.scan_logs env before = Ok None.
Proof.
  intros env logs token. induction logs as [|m logs IH]; intros H; [discriminate|].
  cbn [BearerToken.scan_logs] in H.
  assert (Hrec : BearerToken.scan_logs env logs = Ok (Some token) ->
            (contains "Bearer" m = false
             \/ exists v, BearerToken.authorization_of env m = Ok v
                          /\ (truthy v = false
                              \/ exists a, v = PStr a /\ startswith "Bearer " a = false)) ->
            contains " " token = false
            /\ exists before entry after auth,
                 m :: logs = before ++ entry :: after
                 /\ contains "Bearer" entry = true
                 /\ BearerToken.authorization_of env entry = Ok (PStr auth)
                 /\ startswith "Bearer " auth = true
                 /\ token = split_last "" auth
                 /\ BearerToken.scan_logs env before = Ok None).
  { intros Hr Hskip. destruct (IH Hr) as (Hsp & before & entry & after & auth & -> & Hc & Ha & Hs & Ht & Hb).
    split; [exact Hsp|]. exists (m :: before), entry, after, auth.
    repeat split; auto. cbn [BearerToken.scan_logs].
    destruct Hskip as [-> | (v & -> & [-> | (a & -> & Hsw)])]; [exact Hb| |].
    - destruct (contains "Bearer" m); exact Hb.
    - destruct (contains "Bearer" m); [|exact Hb].
      destruct (truthy (PStr a)); [|exact Hb]. now rewrite Hsw. }
  destruct (contains "Bearer" m) eqn:Hc; [|apply Hrec; auto].
  destruct (BearerToken.authorization_of env m) as [v| |] eqn:Ha; try discriminate.
  destruct (truthy v) eqn:Hv; [|apply Hrec; eauto].
  destruct v as [| | | |a| |]; try discriminate.
  destruct (startswith "Bearer " a) eqn:Hsw; [|apply Hrec; eauto 8].
  injection H as <-. split; [now apply split_last_no_space|].
  exists [], m, logs, a. repeat split; auto.
Qed.

Lemma bearer_token_provenance_witness :
  contains " " "t0k3n" = false
  /\ exists before entry after auth,
       ["page loaded"; "Bearer seen"] = before ++ entry :: after
       /\ contains "Bearer" entry = true
       /\ BearerToken.authorization_of dolce_world entry = Ok (PStr auth)
       /\ startswith "Bearer " auth = true
       /\ "t0k3n" = split_last "" auth
       /\ BearerToken.scan_logs dolce_world before = Ok None.
Proof.
  apply (bearer_token_provenance dolce_world ["page loaded"; "Bearer seen"] "t0k3n").
  vm_compute. reflexivity.
Defined.

(** ** Loro Piana: a country entry without its keys *)

(** X18. [process_categories] of Loro Piana reads [country_dict['locale']] and
    [country_dict['country_code']] outside any [try]: at the first entry
    that lacks one of them (or is not a dictionary) the job stops there
    with the exception, and what was collected for the entries before is
    neither serialised nor reported. *)
Theorem loro_piana_missing_key_aborts :
  forall (Row : Type) (env : Env) (info : pyval -> result Row) (endpoint : string)
         (self self1 : parser Row) (categories before after : list pyval)
         (country_dict : pyval) (t t1 : trace Row),
    LoroPianaProductParser.collect env info self categories before t = (Ok self1, t1) ->
    (exists e, py_getitem country_dict "locale" = Raise e)
    \/ (exists e, py_getitem country_dict "country_code" = Raise e) ->
    exists e,
      LoroPianaProductParser.process_categories env info endpoint self categories
        (before ++ country_dict :: after) t
      = (Raise e, t1).
Proof.
  intros Row env info endpoint self self1 categories before after country_dict t t1
         Hbefore Hkey.
  unfold LoroPianaProductParser.process_categories.
  unfold LoroPianaProductParser.collect in *.
  unfold bind at 1. rewrite for_each_app. unfold bind at 1. rewrite Hbefore.
  cbn [for_each]. unfold bind at 1. unfold bind at 1. unfold lift at 1.
  destruct (py_getitem country_dict "locale") as [locale|e|] eqn:Hl.
  - unfold bind at 1. unfold lift at 1.
    destruct Hkey as [(e & He) | (e & He)]; [discriminate|]. rewrite He. eauto.
  - eauto.
  - exfalso. exact (py_getitem_fuel _ _ Hl).
Qed.

Lemma loro_piana_missing_key_aborts_witness :
  exists e,
    LoroPianaProductParser.process_categories saint_laurent_world
      (fun product => Ok product) "https://manager.example" saint_laurent_parser
      [PStr "bags"] ([] ++ PStr "en-US" :: []) []
    = (Raise e, []).
Proof.
  apply (loro_piana_missing_key_aborts pyval saint_laurent_world
           (fun product => Ok product) "https://manager.example"
           saint_laurent_parser saint_laurent_parser [PStr "bags"] [] []
           (PStr "en-US") [] []).
  - reflexivity.
  - left. exists OtherException. reflexivity.
Defined.

(** ** The manager node *)

Section ManagerFacts.
Import Manager.
Local Open Scope manager_scope.
Variable w : World.

Lemma mails_app (t1 t2 : trace) : mails (t1 ++ t2) = mails t1 ++ mails t2.
Proof. apply omap_app. Qed.

Lemma dispatches_app (t1 t2 : trace) :
  dispatches (t1 ++ t2) = dispatches t1 ++ dispatches t2.
Proof. apply omap_app. Qed.

Lemma read_frame_cases (q : string) (t : trace) :
  (read_frame w q t = (Raise OtherException, t ++ [EvReadSql q])
   /\ read_sql_query w (length t) q = None)
  \/ (exists df, read_frame w q t = (Ok df, t ++ [EvReadSql q; EvDispose])
                 /\ read_sql_query w (length t) q = Some df).
Proof.
  unfold read_frame, bind, emit, raise, ret. cbv beta iota.
  destruct (read_sql_query w (length t) q) as [df|]; [right | left; auto].
  exists df. rewrite <- app_assoc. auto.
Qed.

Lemma reads_only_read_frame (q : string) : reads_only (read_frame w q).
Proof.
  intros t. destruct (read_frame_cases q t) as [[-> _] | (df & -> & _)];
    eexists; (split; [reflexivity|]); simpl; eauto.
Qed.

Lemma reads_only_iloc (df : list (list string)) (r c : nat) : reads_only (iloc df r c).
Proof.
  intros t. exists []. rewrite app_nil_r. unfold iloc, ret, raise.
  destruct (df !! r) as [row|]; [destruct (row !! c)|]; simpl; eauto 6.
Qed.

Lemma reads_only_bind {A B} (m : M A) (k : A -> M B) :
  reads_only m -> (forall a, reads_only (k a)) -> reads_only (bind m k).
Proof.
  intros Hm Hk t. destruct (Hm t) as (evs & Hs & Hmail & Hd & Hr). unfold bind.
  destruct (m t) as [r t1]. simpl in Hs, Hr. subst t1.
  destruct Hr as [(a & ->) | ->].
  - destruct (Hk a (t ++ evs)) as (evs' & Hs' & Hmail' & Hd' & Hr').
    exists (evs ++ evs'). rewrite Hs', app_assoc, mails_app, dispatches_app,
      Hmail, Hmail', Hd, Hd'. auto.
  - exists evs. auto.
Qed.

Lemma reads_only_fetch_endpoint (endpoint_id : Z) : reads_only (fetch_endpoint w endpoint_id).
Proof.
  unfold fetch_endpoint. apply reads_only_bind; [apply reads_only_read_frame|].
  intros df. apply reads_only_iloc.
Qed.

Lemma alert_outcome_extend (job_id : string) (t evs : trace)
    (out : result unit * trace) :
  mails evs = [] -> dispatches evs = [] ->
  alert_outcome w job_id (t ++ evs) out -> alert_outcome w job_id t out.
Proof.
  intros Hmail Hd (pre & tail & Hs & Hmail' & Hd' & H).
  exists (evs ++ pre), tail.
  rewrite mails_app, dispatches_app, Hmail, Hmail', Hd, Hd', <- !app_assoc.
  rewrite <- !app_assoc in Hs. repeat split; auto.
  rewrite (app_assoc t evs pre). exact H.
Qed.

Lemma alert_outcome_bind {A} (job_id : string) (m : M A) (k : A -> M unit) (t : trace) :
  reads_only m ->
  (forall a t1, alert_outcome w job_id t1 (k a t1)) ->
  alert_outcome w job_id t (bind m k t).
Proof.
  intros Hm Hk. destruct (Hm t) as (evs & Hs & Hmail & Hd & Hr). unfold bind.
  destruct (m t) as [r t1]. simpl in Hs, Hr. subst t1.
  destruct Hr as [(a & ->) | ->].
  - apply (alert_outcome_extend job_id t evs); auto.
  - exists evs, []. rewrite app_nil_r. simpl. auto 6.
Qed.

End ManagerFacts.

(** X19. The manager alerts by mail exactly when the agent answered the
    dispatch with a status other than 200. When the job or an endpoint
    cannot be looked up, or the agent cannot be reached, the function
    raises and no mail is sent; a mail that cannot be sent does not make
    it raise. The job is dispatched at most once. *)
Theorem alert_exactly_on_non_200_answer :
  forall (w : Manager.World) (job_id : string) (t : Manager.trace),
    Manager.alert_outcome w job_id t (Manager.procces_brand_single w job_id t).
Proof.
  intros w job_id t. unfold Manager.procces_brand_single, Manager.fetch_job_details.
  apply alert_outcome_bind; [apply reads_only_read_frame|]. intros df t1.
  apply alert_outcome_bind; [apply reads_only_iloc|]. intros url t2.
  apply alert_outcome_bind; [apply reads_only_iloc|]. intros brand_id t3.
  apply alert_outcome_bind; [apply reads_only_fetch_endpoint|]. intros send_in t4.
  apply alert_outcome_bind; [apply reads_only_fetch_endpoint|]. intros send_out t5.
  exists [].
  unfold Manager.submit_job_post, Manager.send_email, Manager.try_except, Manager.attempt,
    Manager.bind, Manager.emit, Manager.ret, Manager.raise.
  cbv beta iota zeta. rewrite app_nil_r.
  destruct (Manager.requests_post w (length t5) (send_in +:+ "/run_html"))
    as [status|] eqn:Hpost.
  - destruct (status =? 200) eqn:Hs; cbn [negb].
    + apply Z.eqb_eq in Hs. subst status.
      eexists. split; [reflexivity|]. split; [reflexivity|]. split; [reflexivity|].
      right. do 2 eexists. right. left. eauto.
    + apply Z.eqb_neq in Hs.
      destruct (Manager.sg_send w (length (t5 ++ _))) eqn:Hsend;
        (eexists; split; [simpl; rewrite <- app_assoc; reflexivity|];
         split; [reflexivity|]; split; [reflexivity|];
         right; do 2 eexists; right; right; exists status; eauto).
  - eexists. split; [reflexivity|]. split; [reflexivity|]. split; [reflexivity|].
    right. do 2 eexists. left. eauto.
Qed.

(** X20. The wiring of a dispatch: the job row gives the brand id and the scan
    URL, endpoint 9 is where the job is sent (its [/run_html]) and
    endpoint 8 is handed over as the address to report to. *)
Theorem dispatch_wiring :
  forall (w : Manager.World) (job_id brand_id url send_in send_out : string)
         (cells row9 row8 : list string) (rows rows9 rows8 : list (list string))
         (t : Manager.trace),
    Manager.read_sql_query w (length t)
      ("Select BrandId, ScanUrl from utb_BrandScanJobs where ID = " +:+ job_id)
    = Some ((brand_id :: url :: cells) :: rows) ->
    Manager.read_sql_query w (length t + 2)
      "Select EndPointValue from utb_SettingsEndpoints Where ID = 9"
    = Some ((send_in :: row9) :: rows9) ->
    Manager.read_sql_query w (length t + 4)
      "Select EndPointValue from utb_SettingsEndpoints Where ID = 8"
    = Some ((send_out :: row8) :: rows8) ->
    Manager.dispatches (snd (Manager.procces_brand_single w job_id t))
    = Manager.dispatches t
      ++ [(send_in +:+ "/run_html",
           [("job_id", job_id); ("brand_id", brand_id); ("scan_url", url);
            ("send_out_endpoint_local", send_out)])].
Proof.
  intros w job_id brand_id url send_in send_out cells row9 row8 rows rows9 rows8 t
         Hjob H9 H8.
  unfold Manager.procces_brand_single, Manager.fetch_job_details, Manager.fetch_endpoint.
  change (pretty 9) with "9". change (pretty 8) with "8".
  change ("Select EndPointValue from utb_SettingsEndpoints Where ID = " +:+ "9")
    with "Select EndPointValue from utb_SettingsEndpoints Where ID = 9".
  change ("Select EndPointValue from utb_SettingsEndpoints Where ID = " +:+ "8")
    with "Select EndPointValue from utb_SettingsEndpoints Where ID = 8".
  cbv zeta.
  destruct (read_frame_cases w
              ("Select BrandId, ScanUrl from utb_BrandScanJobs where ID = " +:+ job_id) t)
    as [[_ Hn] | (df & Hrf & Hdf)]; [congruence|].
  rewrite Hjob in Hdf. injection Hdf as <-.
  unfold Manager.bind at 1. rewrite Hrf.
  unfold Manager.bind at 1. unfold Manager.iloc at 1. cbn [lookup list_lookup].
  unfold Manager.ret at 1.
  unfold Manager.bind at 1. unfold Manager.iloc at 1. cbn [lookup list_lookup].
  unfold Manager.ret at 1.
  set (t1 := t ++ [Manager.EvReadSql _; Manager.EvDispose]).
  assert (Hl1 : length t1 = (length t + 2)%nat) by (subst t1; now rewrite length_app).
  destruct (read_frame_cases w
              "Select EndPointValue from utb_SettingsEndpoints Where ID = 9" t1)
    as [[_ Hn] | (df9 & Hrf9 & Hdf9)]; [rewrite Hl1 in Hn; congruence|].
  rewrite Hl1, H9 in Hdf9. injection Hdf9 as <-.
  unfold Manager.bind at 1. unfold Manager.bind at 1. rewrite Hrf9.
  unfold Manager.iloc at 1. cbn [lookup list_lookup]. unfold Manager.ret at 1.
  set (t2 := t1 ++ [Manager.EvReadSql _; Manager.EvDispose]).
  assert (Hl2 : length t2 = (length t + 4)%nat)
    by (subst t2; rewrite length_app, Hl1; simpl; lia).
  destruct (read_frame_cases w
              "Select EndPointValue from utb_SettingsEndpoints Where ID = 8" t2)
    as [[_ Hn] | (df8 & Hrf8 & Hdf8)]; [rewrite Hl2 in Hn; congruence|].
  rewrite Hl2, H8 in Hdf8. injection Hdf8 as <-.
  unfold Manager.bind at 1. unfold Manager.bind at 1. rewrite Hrf8.
  unfold Manager.iloc at 1. cbn [lookup list_lookup]. unfold Manager.ret at 1.
  set (t3 := t2 ++ [Manager.EvReadSql _; Manager.EvDispose]).
  assert (Ht3 : Manager.dispatches t3 = Manager.dispatches t).
  { subst t3 t2 t1. rewrite !dispatches_app. simpl. now rewrite !app_nil_r. }
  unfold Manager.submit_job_post, Manager.send_email, Manager.try_except, Manager.attempt,
    Manager.bind, Manager.emit, Manager.ret, Manager.raise.
  cbv beta iota zeta.
  destruct (Manager.requests_post w (length t3) (send_in +:+ "/run_html")) as [status|];
    [destruct (negb (status =? 200));
       [destruct (Manager.sg_send w (length (t3 ++ _)))|]|];
    simpl; rewrite ?dispatches_app, Ht3; simpl; rewrite ?app_nil_r; reflexivity.
Qed.

Lemma dispatch_wiring_witness :
  Manager.dispatches (snd (Manager.procces_brand_single (manager_world 500) "7" []))
  = Manager.dispatches []
    ++ [("https://agent.example" +:+ "/run_html",
         [("job_id", "7"); ("brand_id", "229"); ("scan_url", "https://shop.example/bags");
          ("send_out_endpoint_local", "https://manager.example")])].
Proof.
  apply (dispatch_wiring (manager_world 500) "7" "229" "https://shop.example/bags"
           "https://agent.example" "https://manager.example" [] [] [] [] [] [] []).
  - reflexivity.
  - reflexivity.
  - reflexivity.
Defined.

Lemma update_sql_nonempty (job_id resultUrl logUrl : string) (count : Z)
    (startTime : string) :
  (0 <? String.length (Manager.update_sql job_id resultUrl logUrl count startTime))%nat
  = true.
Proof. reflexivity. Qed.

Ltac close_absent :=
  repeat split; auto; try discriminate;
  intros; exfalso;
  match goal with
  | H : Manager.EvClose ∈ _ |- _ =>
      inversion H as [|? ? ? H1]; subst;
      inversion H1 as [|? ? ? H2]; subst;
      inversion H2 as [|? ? ? H3]; subst;
      inversion H3
  end.

(** X21. [update_sql_job] always starts with the lookup of the public address
    (the guard on the length of the statement never fails), and touches the
    database only if that lookup succeeds. It then connects, executes the
    statement, commits and closes, in this order, stopping at the first
    step that raises: after a failed statement or commit the connection is
    not closed. *)
Theorem update_sql_job_outcomes :
  forall (w : Manager.World) (job_id resultUrl logUrl : string) (count : Z)
         (startTime : string) (t : Manager.trace),
    let sql := Manager.update_sql job_id resultUrl logUrl count startTime in
    let out := Manager.update_sql_job w job_id resultUrl logUrl count startTime t in
    exists evs,
      snd out = t ++ Manager.EvIpGet :: evs
      /\ evs `prefix_of` Manager.update_events sql
      /\ (fst out = Ok tt -> evs = Manager.update_events sql)
      /\ (Manager.ipify w (length t) = false -> evs = [])
      /\ (Manager.EvClose ∈ evs ->
          Manager.connection_execute w (length t + 2) sql = true
          /\ Manager.connection_commit w (length t + 3) = true).
Proof.
  intros w job_id resultUrl logUrl count startTime t sql out. subst out.
  unfold Manager.update_sql_job. cbv zeta.
  rewrite update_sql_nonempty. fold sql.
  unfold Manager.attempt, Manager.bind, Manager.emit, Manager.ret, Manager.raise,
    Manager.update_events.
  cbv beta iota.
  assert (L1 : forall e1 : Manager.event, length (t ++ [e1]) = (length t + 1)%nat)
    by (intros; rewrite length_app; reflexivity).
  assert (L2 : forall e1 e2 : Manager.event,
            length ((t ++ [e1]) ++ [e2]) = (length t + 2)%nat)
    by (intros; rewrite !length_app; simpl; lia).
  assert (L3 : forall e1 e2 e3 : Manager.event,
            length (((t ++ [e1]) ++ [e2]) ++ [e3]) = (length t + 3)%nat)
    by (intros; rewrite !length_app; simpl; lia).
  destruct (Manager.ipify w (length t)) eqn:Hip; cbv beta iota.
  - rewrite L1. destruct (Manager.engine_connect w (length t + 1)) eqn:Hc; cbv beta iota.
    + rewrite L2.
      destruct (Manager.connection_execute w (length t + 2) sql) eqn:He; cbv beta iota.
      * rewrite L3.
        destruct (Manager.connection_commit w (length t + 3)) eqn:Hm; cbv beta iota.
        -- exists [Manager.EvConnect; Manager.EvExecute sql; Manager.EvCommit;
                   Manager.EvClose].
           split; [destruct (Manager.connection_close w _); simpl;
                   rewrite <- !app_assoc; reflexivity|].
           split; [exists []; reflexivity|]. close_absent.
        -- exists [Manager.EvConnect; Manager.EvExecute sql; Manager.EvCommit].
           split; [simpl; rewrite <- !app_assoc; reflexivity|].
           split; [eexists; reflexivity|]. close_absent.
      * exists [Manager.EvConnect; Manager.EvExecute sql].
        split; [simpl; rewrite <- !app_assoc; reflexivity|].
        split; [eexists; reflexivity|]. close_absent.
    + exists [Manager.EvConnect].
      split; [simpl; rewrite <- !app_assoc; reflexivity|].
      split; [eexists; reflexivity|]. close_absent.
  - exists []. split; [reflexivity|]. split; [eexists; reflexivity|].
    close_absent.
Qed.
